(** * rqalpha: [BaseDataSource] (rqalpha/data/base_data_source.py)

    A shallow embedding of the daily-bar read path of [BaseDataSource]:
    the instrument-type router, the point lookup [get_bar], the window
    lookup [history_bars] and the forward adjustment [_adjust_bar].

    Python values are embedded as follows.
    - An integer is a [Z]; a [float64] is a primitive binary64 [float].
    - An index numpy hands out is an int64: a Python integer subtracted
      from it is converted to int64 first, and the difference wraps around.
    - A raised exception is the [Raise] branch of [outcome].
    - [None] is the [None] of [option].
    - A numpy structured array of bars is a [BarSeries]: its ['datetime']
      column (dtype uint64) and its remaining named float64 columns.
    - What [history_bars] hands back is an [ndarray]: either a structured
      array (named columns) or a one-dimensional column. *)

From Stdlib Require Import ZArith List String Bool Lia PeanoNat Floats.
Import ListNotations.

Local Open Scope string_scope.
Local Open Scope list_scope.
Local Open Scope nat_scope.

(** ** Python: exceptions, indexing, slicing *)

Inductive exn : Set :=
| NotImplementedError
| KeyError
| TypeError
| IndexError
| ValueError
| OverflowError.

Inductive outcome (A : Type) : Type :=
| Ok (a : A)
| Raise (e : exn).

Arguments Ok {A} a.
Arguments Raise {A} e.

Definition bind {A B : Type} (m : outcome A) (k : A -> outcome B) : outcome B :=
  match m with
  | Ok a => k a
  | Raise e => Raise e
  end.

Notation "x <- m ;; k" := (bind m (fun x => k))
  (at level 61, m at next level, right associativity).

Fixpoint mapM {A B : Type} (f : A -> outcome B) (xs : list A) : outcome (list B) :=
  match xs with
  | [] => Ok []
  | x :: xs' => y <- f x ;; ys <- mapM f xs' ;; Ok (y :: ys)
  end.

(** [xs[i]] for a Python integer [i]: a negative index counts from the end,
    anything outside [-len, len) raises [IndexError]. *)
Definition py_index {A : Type} (xs : list A) (i : Z) : outcome A :=
  let n := Z.of_nat (List.length xs) in
  let j := if (i <? 0)%Z then (i + n)%Z else i in
  if ((0 <=? j) && (j <? n))%Z
  then match nth_error xs (Z.to_nat j) with
       | Some x => Ok x
       | None => Raise IndexError
       end
  else Raise IndexError.

(** One bound of [xs[lo:hi]] on a sequence of length [n]. *)
Definition slice_bound (n k : Z) : Z :=
  if (k <? 0)%Z then Z.max 0 (k + n) else Z.min k n.

(** [xs[lo:hi]]. *)
Definition py_slice {A : Type} (xs : list A) (lo hi : Z) : list A :=
  let n := Z.of_nat (List.length xs) in
  skipn (Z.to_nat (slice_bound n lo)) (firstn (Z.to_nat (slice_bound n hi)) xs).

(** [d[k]] on a dict with string keys. *)
Fixpoint dict_get {V : Type} (d : list (string * V)) (k : string) : option V :=
  match d with
  | [] => None
  | (k', v) :: d' => if String.eqb k' k then Some v else dict_get d' k
  end.

Definition dict_getitem {V : Type} (d : list (string * V)) (k : string) : outcome V :=
  match dict_get d k with
  | Some v => Ok v
  | None => Raise KeyError
  end.

(** [x in s] on a set (or tuple) of strings. *)
Definition str_in (x : string) (s : list string) : bool :=
  existsb (String.eqb x) s.

(** [x in c] where [c] may be [None]: the membership test on [None] raises
    [TypeError] (argument of type 'NoneType' is not iterable). *)
Definition py_in (x : string) (c : option (list string)) : outcome bool :=
  match c with
  | Some s => Ok (str_in x s)
  | None => Raise TypeError
  end.

(** [s.copy()] is a new set with the elements of [s]. *)
Definition set_copy (s : list string) : list string := s.

(** [s.add(x)]: the set [s] after the call, and the value of the call. The
    element is added to [s] itself; the call returns [None]. *)
Definition set_add (s : list string) (x : string) : list string * option (list string) :=
  (if str_in x s then s else x :: s, None).

(** ** numpy *)

Module Numpy.

Inductive side : Set := left | right.

(** The loop of numpy's binary search over positions [lo, hi): [below mid]
    says that the element at [mid] sorts before the insertion point. The
    interval shrinks at every turn, so [hi - lo] turns are enough. *)
Fixpoint binsearch (below : nat -> bool) (fuel lo hi : nat) : nat :=
  match fuel with
  | O => lo
  | S fuel' =>
      if lo <? hi
      then let mid := lo + (hi - lo) / 2 in
           if below mid
           then binsearch below fuel' (S mid) hi
           else binsearch below fuel' lo mid
      else lo
  end.

(** [a.searchsorted(v, side)] on an integer array. *)
Definition searchsorted (a : list Z) (v : Z) (s : side) : nat :=
  let below mid :=
    match s with
    | left => (nth mid a 0 <? v)%Z
    | right => (nth mid a 0 <=? v)%Z
    end in
  binsearch below (List.length a) 0 (List.length a).

(** [a[mask]] on a one-dimensional array, for a boolean [mask]. *)
Fixpoint compress {A : Type} (mask : list bool) (xs : list A) : list A :=
  match mask, xs with
  | m :: mask', x :: xs' => if m then x :: compress mask' xs' else compress mask' xs'
  | _, _ => []
  end.

Fixpoint map2 {A B C : Type} (f : A -> B -> C) (xs : list A) (ys : list B) : list C :=
  match xs, ys with
  | x :: xs', y :: ys' => f x y :: map2 f xs' ys'
  | _, _ => []
  end.

(** [xs op ys] on one-dimensional arrays: equal lengths combine element by
    element, a length-one operand is stretched, anything else does not
    broadcast. *)
Definition broadcast (op : float -> float -> float) (xs ys : list float)
  : outcome (list float) :=
  if List.length xs =? List.length ys then Ok (map2 op xs ys)
  else match xs, ys with
       | [x], _ => Ok (map (op x) ys)
       | _, [y] => Ok (map (fun x => op x y) xs)
       | _, _ => Raise ValueError
       end.

(** [xs op= ys]: as [broadcast], but the left operand keeps its shape. *)
Definition inplace (op : float -> float -> float) (xs ys : list float)
  : outcome (list float) :=
  if List.length xs =? List.length ys then Ok (map2 op xs ys)
  else match ys with
       | [y] => Ok (map (fun x => op x y) xs)
       | _ => Raise ValueError
       end.

(** A column of a structured array. *)
Inductive column : Type :=
| IntCol (xs : list Z)
| FloatCol (xs : list float).

Definition col_len (c : column) : nat :=
  match c with
  | IntCol xs => List.length xs
  | FloatCol xs => List.length xs
  end.

(** What a query returns: a structured array, given by its named columns
    in [dtype.names] order, or a one-dimensional array. *)
Inductive ndarray : Type :=
| Struct (cols : list (string * column))
| Flat (c : column).

(** [len(a)]. *)
Definition len (a : ndarray) : nat :=
  match a with
  | Struct [] => 0
  | Struct ((_, c) :: _) => col_len c
  | Flat c => col_len c
  end.

(** The bounds of an int64, the type of an index numpy hands out. *)
Definition int64_min : Z := (- 2 ^ 63)%Z.
Definition int64_max : Z := (2 ^ 63 - 1)%Z.

(** The int64 that holds [z] modulo 2^64. *)
Definition wrap64 (z : Z) : Z := ((z + 2 ^ 63) mod 2 ^ 64 - 2 ^ 63)%Z.

(** [i - n] for an int64 index [i] (so [0 <= i]) and a Python integer
    [n <= i]. The integer is converted to int64, which raises
    [OverflowError] when it lies below the int64 range. The difference of
    two non-negative int64 values cannot overflow and is exact; with a
    negative [n] it can exceed the range, and is then reduced modulo 2^64
    (numpy warns and wraps around). *)
Definition int64_sub (i n : Z) : outcome Z :=
  if (n <? int64_min)%Z then Raise OverflowError
  else if (0 <=? n)%Z then Ok (i - n)%Z
  else Ok (wrap64 (i - n)).

End Numpy.
Import Numpy.

(** ** The stores behind the data source *)

(** Modelled from the spec: the array that [DayBarStore.get_bars] returns
    (daybar_store.py is not among the sources). A Bar Series is keyed by an
    integer-encoded date and has named numeric fields: the ['datetime']
    column, and the other columns by name, in [dtype.names] order. *)
Record BarSeries : Type := mkBars {
  datetime : list Z;
  columns : list (string * list float)
}.

(** One record of a bar series ([bars[pos]]). *)
Record Bar : Type := mkBar {
  bar_datetime : Z;
  bar_fields : list (string * float)
}.

(** Modelled from the spec: the table that [SimpleFactorStore.get_factors]
    returns (simple_factor_store.py is not among the sources), breakpoint
    dates paired with cumulative factors; the engine reads its columns
    ['start_date'] and ['ex_cum_factor']. *)
Record FactorTable : Type := mkFactors {
  ft_start_date : list Z;
  ft_ex_cum_factor : list float
}.

(** Modelled from the spec: the Bar Repository,
    [store.get_bars(order_book_id, fields=None)]: the series, or [None]. *)
Definition DayBarStore : Type := string -> option BarSeries.

(** Modelled from the spec: the Factor Repository,
    [store.get_factors(order_book_id)]: the table, or [None]. *)
Definition SimpleFactorStore : Type := string -> option FactorTable.

(** An instrument, as far as the data source reads it. *)
Record Instrument : Type := mkInstrument {
  type : string;
  order_book_id : string
}.

(** The [fields] argument of a query: [None], one name, or a list of names. *)
Inductive Fields : Type :=
| FNone
| FStr (f : string)
| FList (fs : list string).

(** *** Operations on a bar series *)

(** [bars.dtype.names] *)
Definition dtype_names (bars : BarSeries) : list string :=
  "datetime" :: map fst (columns bars).

(** [len(bars)] *)
Definition bars_len (bars : BarSeries) : nat := List.length (datetime bars).

(** [bars[f]] for one field name. *)
Definition getitem (bars : BarSeries) (f : string) : outcome column :=
  if String.eqb f "datetime" then Ok (IntCol (datetime bars))
  else match dict_get (columns bars) f with
       | Some xs => Ok (FloatCol xs)
       | None => Raise ValueError
       end.

(** [bars[lo:hi]] *)
Definition bars_slice (bars : BarSeries) (lo hi : Z) : BarSeries :=
  {| datetime := py_slice (datetime bars) lo hi;
     columns := map (fun c => (fst c, py_slice (snd c) lo hi)) (columns bars) |}.

(** [bars[mask]] for a boolean mask. *)
Definition bars_compress (bars : BarSeries) (mask : list bool) : BarSeries :=
  {| datetime := compress mask (datetime bars);
     columns := map (fun c => (fst c, compress mask (snd c))) (columns bars) |}.

(** The series as a structured array. *)
Definition to_struct (bars : BarSeries) : list (string * column) :=
  ("datetime", IntCol (datetime bars))
    :: map (fun c => (fst c, FloatCol (snd c))) (columns bars).

Fixpoint nodupb (xs : list string) : bool :=
  match xs with
  | [] => true
  | x :: xs' => negb (str_in x xs') && nodupb xs'
  end.

(** [bars[fs]] for a list of names. An empty list is not a field selection
    but an (empty) integer index: it selects no row and keeps every field.
    A repeated name is refused. *)
Definition getitem_fields (bars : BarSeries) (fs : list string)
  : outcome (list (string * column)) :=
  match fs with
  | [] => Ok (to_struct (bars_slice bars 0 0))
  | _ => if nodupb fs
         then mapM (fun f => c <- getitem bars f ;; Ok (f, c)) fs
         else Raise ValueError
  end.

(** [bars if fields is None else bars[fields]] *)
Definition select (bars : BarSeries) (fields : Fields) : outcome ndarray :=
  match fields with
  | FNone => Ok (Struct (to_struct bars))
  | FStr f => c <- getitem bars f ;; Ok (Flat c)
  | FList l => cols <- getitem_fields bars l ;; Ok (Struct cols)
  end.

(** [bars[pos]]: one record. *)
Definition bars_row (bars : BarSeries) (pos : Z) : outcome Bar :=
  d <- py_index (datetime bars) pos ;;
  vs <- mapM (fun c => v <- py_index (snd c) pos ;; Ok (fst c, v)) (columns bars) ;;
  Ok {| bar_datetime := d; bar_fields := vs |}.

(** The conversion of an integer column to float64. *)
Definition float_of_Z (z : Z) : float := SF2Prim (binary_normalize prec emax z 0 false).

Definition as_float64 (c : column) : list float :=
  match c with
  | IntCol xs => map float_of_Z xs
  | FloatCol xs => xs
  end.

(** [c > 0] *)
Definition col_gt0 (c : column) : list bool :=
  match c with
  | IntCol xs => map (fun x => (0 <? x)%Z) xs
  | FloatCol xs => map (fun x => PrimFloat.ltb 0 x) xs
  end.

(** [c * factors] and [c / factors]: a fresh float64 array. *)
Definition col_op (op : float -> float -> float) (c : column) (factors : list float)
  : outcome ndarray :=
  xs <- broadcast op (as_float64 c) factors ;; Ok (Flat (FloatCol xs)).

(** [result[f] op= factors] on a structured array: the column is updated in
    place; a float64 value does not cast back into an integer column. *)
Fixpoint col_iop (op : float -> float -> float) (cols : list (string * column))
  (f : string) (factors : list float) : outcome (list (string * column)) :=
  match cols with
  | [] => Raise ValueError
  | (g, c) :: cols' =>
      if String.eqb g f
      then match c with
           | FloatCol xs => ys <- inplace op xs factors ;; Ok ((g, FloatCol ys) :: cols')
           | IntCol _ => Raise TypeError
           end
      else rest <- col_iop op cols' f factors ;; Ok ((g, c) :: rest)
  end.

(** ** [class BaseDataSource] *)

(** The stores that [__init__] opens and the read path uses: the four daybar
    stores, in the order of [self._day_bars], and the ex-cum factor store. *)
Record BaseDataSource : Type := mkDataSource {
  stocks : DayBarStore;
  indexes : DayBarStore;
  futures : DayBarStore;
  funds : DayBarStore;
  _ex_cum_factor : SimpleFactorStore
}.

(** [self._day_bars]: stocks, indexes, futures, funds. *)
Definition _day_bars (self : BaseDataSource) : list DayBarStore :=
  [stocks self; indexes self; futures self; funds self].

Definition INSTRUMENT_TYPE_MAP : list (string * Z) :=
  [ ("CS", 0%Z);
    ("INDX", 1%Z);
    ("Future", 2%Z);
    ("ETF", 3%Z);
    ("LOF", 3%Z);
    ("FenjiA", 3%Z);
    ("FenjiB", 3%Z);
    ("FenjiMu", 3%Z) ].

(** [self.INSTRUMENT_TYPE_MAP[instrument.type]] *)
Definition _index_of (instrument : Instrument) : outcome Z :=
  dict_getitem INSTRUMENT_TYPE_MAP (type instrument).

(** [@lru_cache(None)] keeps the array of the first call for every later
    call with the same instrument; the stores are read-only, so the cached
    value is the value of the read. *)
Definition _all_day_bars_of (self : BaseDataSource) (instrument : Instrument)
  : outcome (option BarSeries) :=
  i <- _index_of instrument ;;
  store <- py_index (_day_bars self) i ;;
  Ok (store (order_book_id instrument)).

(** [bars[bars['volume'] > 0]], memoised like [_all_day_bars_of]. *)
Definition _filtered_day_bars (self : BaseDataSource) (instrument : Instrument)
  : outcome (option BarSeries) :=
  bars <- _all_day_bars_of self instrument ;;
  match bars with
  | None => Ok None
  | Some bars =>
      volume <- getitem bars "volume" ;;
      Ok (Some (bars_compress bars (col_gt0 volume)))
  end.

(** [dt] is the integer that [np.uint64(convert_date_to_int(dt))] yields. *)
Definition get_bar (self : BaseDataSource) (instrument : Instrument) (dt : Z)
  (frequency : string) : outcome (option Bar) :=
  if negb (String.eqb frequency "1d") then Raise NotImplementedError
  else
    bars <- _all_day_bars_of self instrument ;;
    match bars with
    | None => Ok None
    | Some bars =>
        let pos := searchsorted (datetime bars) dt left in
        if bars_len bars <=? pos then Ok None
        else
          d <- py_index (datetime bars) (Z.of_nat pos) ;;
          if negb (d =? dt)%Z then Ok None
          else
            bar <- bars_row bars (Z.of_nat pos) ;;
            Ok (Some bar)
    end.

Definition _are_fields_valid (fields : Fields) (valid_fields : list string) : bool :=
  match fields with
  | FNone => true
  | FStr f => str_in f valid_fields
  | FList l => forallb (fun field => str_in field valid_fields) l
  end.

(** The factor in force on date [d], by binary search over the breakpoints. *)
Definition _factor_for_date (dates : list Z) (factors : list float) (d : Z)
  : outcome float :=
  last_date <- py_index dates (-1) ;;
  if (d >? last_date)%Z then py_index factors (-1)
  else
    let pos := searchsorted dates d right in
    py_index factors (Z.of_nat pos - 1).

Definition PRICE_FIELDS : list string :=
  ["open"; "close"; "high"; "low"; "limit_up"; "limit_down";
   "acc_net_value"; "unit_net_value"].

(** The class attribute is bound to the value of the [add] call. *)
Definition FIELDS_REQUIRE_ADJUSTMENT : option (list string) :=
  snd (set_add (set_copy PRICE_FIELDS) "volume").

(** One turn of the loop over [result.dtype.names]. *)
Definition adjust_field (factors : list float) (result : list (string * column))
  (f : string) : outcome (list (string * column)) :=
  if str_in f PRICE_FIELDS then col_iop PrimFloat.mul result f factors
  else if String.eqb f "volume" then col_iop PrimFloat.div result f factors
  else Ok result.

Fixpoint adjust_fields (factors : list float) (result : list (string * column))
  (names : list string) : outcome (list (string * column)) :=
  match names with
  | [] => Ok result
  | f :: names' =>
      result' <- adjust_field factors result f ;;
      adjust_fields factors result' names'
  end.

Definition _adjust_bar (self : BaseDataSource) (order_book_id : string)
  (bars : BarSeries) (fields : Fields) : outcome ndarray :=
  match _ex_cum_factor self order_book_id with
  | None => select bars fields
  | Some ex_factors =>
      start_date <- py_index (datetime bars) 0 ;;
      end_date <- py_index (datetime bars) (-1) ;;
      let dates := ft_start_date ex_factors in
      let ex_cum_factors := ft_ex_cum_factor ex_factors in
      f_start <- _factor_for_date dates ex_cum_factors start_date ;;
      f_end <- _factor_for_date dates ex_cum_factors end_date ;;
      if PrimFloat.eqb f_start f_end then select bars fields
      else
        factors <- mapM (_factor_for_date dates ex_cum_factors) (datetime bars) ;;
        last_factor <- py_index factors (-1) ;;
        let factors := map (fun x => PrimFloat.div x last_factor) factors in
        match fields with
        | FStr f =>
            if str_in f PRICE_FIELDS
            then c <- getitem bars f ;; col_op PrimFloat.mul c factors
            else if String.eqb f "volume"
            then c <- getitem bars f ;; col_op PrimFloat.div c factors
            else select bars fields
        | _ =>
            result <- select bars fields ;;
            match result with
            | Struct cols =>
                cols' <- adjust_fields factors cols (map fst cols) ;;
                Ok (Struct cols')
            | Flat _ => Raise TypeError
            end
        end
  end.

(** [dt] is the integer that [np.uint64(convert_date_to_int(dt))] yields;
    [bar_count] is any Python integer. [searchsorted] hands back an int64,
    so [i - bar_count] is int64 arithmetic. *)
Definition history_bars (self : BaseDataSource) (instrument : Instrument)
  (bar_count : Z) (frequency : string) (fields : Fields) (dt : Z)
  (skip_suspended : bool) : outcome (option ndarray) :=
  if negb (String.eqb frequency "1d") then Raise NotImplementedError
  else
    bars <- (if skip_suspended && String.eqb (type instrument) "CS"
             then _filtered_day_bars self instrument
             else _all_day_bars_of self instrument) ;;
    match bars with
    | None => Ok None
    | Some bars =>
        if negb (_are_fields_valid fields (dtype_names bars)) then Ok None
        else
          let i := Z.of_nat (searchsorted (datetime bars) dt right) in
          left <- (if (bar_count <=? i)%Z then int64_sub i bar_count else Ok 0%Z) ;;
          let bars := bars_slice bars left i in
          if str_in (type instrument) ["Future"; "INDX"] || (bars_len bars =? 1)
          then r <- select bars fields ;; Ok (Some r)
          else
            raw <- match fields with
                   | FStr f => b <- py_in f FIELDS_REQUIRE_ADJUSTMENT ;; Ok (negb b)
                   | _ => Ok false
                   end ;;
            if raw then r <- select bars fields ;; Ok (Some r)
            else r <- _adjust_bar self (order_book_id instrument) bars fields ;; Ok (Some r)
    end.

(** ** The vocabulary of the statements *)

(** Strictly ascending, as a bar series and a factor table are by date. *)
Fixpoint ascending (xs : list Z) : bool :=
  match xs with
  | x :: (y :: _) as xs' => (x <? y)%Z && ascending xs'
  | _ => true
  end.

(** Every column of a series has one value per date. *)
Definition bars_wf (bars : BarSeries) : bool :=
  forallb (fun c => List.length (snd c) =? bars_len bars) (columns bars).

(** Row [pos] of the stored series, field by field. *)
Definition raw_row (bars : BarSeries) (pos : nat) : Bar :=
  {| bar_datetime := nth pos (datetime bars) 0%Z;
     bar_fields := map (fun c => (fst c, nth pos (snd c) 0%float)) (columns bars) |}.

(** The last [m] elements of a sequence. *)
Definition tail_rows {A : Type} (m : nat) (xs : list A) : list A :=
  skipn (List.length xs - m) xs.

(** The last [m] of the first [k] rows of a series. *)
Definition take_window (k m : nat) (bars : BarSeries) : BarSeries :=
  {| datetime := tail_rows m (firstn k (datetime bars));
     columns := map (fun c => (fst c, tail_rows m (firstn k (snd c)))) (columns bars) |}.

(** The left end of the slice, for a [bar_count] that converts to int64:
    the value of [i - bar_count if i >= bar_count else 0]. *)
Definition window_left (i bar_count : Z) : Z :=
  if (bar_count <=? i)%Z
  then if (0 <=? bar_count)%Z then (i - bar_count)%Z else wrap64 (i - bar_count)
  else 0%Z.

(** The rows [history_bars] cuts out of the selected series: the right
    insertion point of [dt], and up to [bar_count] rows before it. *)
Definition window (bars : BarSeries) (bar_count dt : Z) : BarSeries :=
  let i := Z.of_nat (searchsorted (datetime bars) dt right) in
  bars_slice bars (window_left i bar_count) i.

(** The number of rows dated at or before [dt]. *)
Definition rows_upto (bars : BarSeries) (dt : Z) : nat :=
  List.length (filter (fun d => (d <=? dt)%Z) (datetime bars)).

(** The names and the lengths of the columns of a structured array. *)
Definition shape (cols : list (string * column)) : list (string * nat) :=
  map (fun nc => (fst nc, col_len (snd nc))) cols.


(** A factor table with at least one breakpoint and one factor for each. *)
Definition ft_wf (tbl : FactorTable) : bool :=
  (0 <? List.length (ft_start_date tbl))
  && (List.length (ft_ex_cum_factor tbl) =? List.length (ft_start_date tbl)).

(** What the adjustment does to one named column, given the per-row factors:
    a price column is multiplied, the volume column divided, row by row. *)
Definition adjust_column (factors : list float) (nc : string * column) : string * column :=
  match snd nc with
  | FloatCol xs =>
      if str_in (fst nc) PRICE_FIELDS
      then (fst nc, FloatCol (map2 PrimFloat.mul xs factors))
      else if String.eqb (fst nc) "volume"
      then (fst nc, FloatCol (map2 PrimFloat.div xs factors))
      else nc
  | IntCol _ => nc
  end.

(** The adjustment of what [select] hands over. *)
Definition adjusted (factors : list float) (fields : Fields) (raw : ndarray) : ndarray :=
  match raw, fields with
  | Struct cols, _ => Struct (map (adjust_column factors) cols)
  | Flat c, FStr f => Flat (snd (adjust_column factors (f, c)))
  | Flat c, _ => Flat c
  end.


(** Column [nc'] has the name of [nc], and its values too unless [nc] is a
    price or the volume. *)
Definition keeps (nc nc' : string * column) : Prop :=
  fst nc' = fst nc /\
  (str_in (fst nc) PRICE_FIELDS = false -> String.eqb (fst nc) "volume" = false ->
   snd nc' = snd nc).

(** [v] is [raw] up to the values of price and volume fields. *)
Definition keeps_other_fields (fields : Fields) (raw v : ndarray) : Prop :=
  match raw, v with
  | Struct cols, Struct cols' => Forall2 keeps cols cols'
  | Flat c, Flat c' =>
      match fields with
      | FStr f => str_in f PRICE_FIELDS = false -> String.eqb f "volume" = false -> c' = c
      | _ => c' = c
      end
  | _, _ => False
  end.

(** The step function as the spec words it, by a scan over the
    breakpoints: the factor of the last breakpoint at or before [d]; [cur]
    is the factor in force before the breakpoints still to be read. *)
Fixpoint factor_at_or_before (dates : list Z) (factors : list float) (d : Z)
  (cur : float) : float :=
  match dates, factors with
  | b :: dates', x :: factors' =>
      if (b <=? d)%Z then factor_at_or_before dates' factors' d x else cur
  | _, _ => cur
  end.

(** For a date before every breakpoint it is the earliest breakpoint's
    factor. *)
Definition step_function (dates : list Z) (factors : list float) (d : Z) : float :=
  factor_at_or_before dates factors d (hd 0%float factors).

(** The positions of the rows whose volume is greater than zero, in
    order. *)
Definition traded_rows (vol : list float) : list nat :=
  filter (fun i => PrimFloat.ltb 0 (nth i vol 0%float)) (seq 0 (List.length vol)).

(** ** Arrays as objects in a store *)

(** The functions above compute the contents of the arrays a query hands
    back. [Store] looks at the same engine with arrays as references into a
    store: a slice or a field selection of a series shares the memory of the
    series, [np.copy] and arithmetic allocate, [op=] writes in place. *)
Module Store.

(** What a buffer holds: a cached bar series, or an array made later. *)
Inductive object : Type :=
| OBars (b : BarSeries)
| OArray (v : ndarray).

Definition heap : Type := list object.

(** An array object: a view [series[lo:hi]] or [series[lo:hi][fields]] onto
    the series in buffer [base], or the array that owns buffer [base]. *)
Inductive pyref : Type :=
| View (base : nat) (lo hi : Z) (fields : Fields)
| Whole (base : nat).

(** The contents of an array object. *)
Definition read (h : heap) (a : pyref) : outcome ndarray :=
  match a with
  | View l lo hi fields =>
      match nth_error h l with
      | Some (OBars b) => select (bars_slice b lo hi) fields
      | _ => Raise ValueError
      end
  | Whole l =>
      match nth_error h l with
      | Some (OArray v) => Ok v
      | _ => Raise ValueError
      end
  end.

(** The rows of a slice of a cached series. *)
Definition deref (h : heap) (a : pyref) : outcome BarSeries :=
  match a with
  | View l lo hi FNone =>
      match nth_error h l with
      | Some (OBars b) => Ok (bars_slice b lo hi)
      | _ => Raise ValueError
      end
  | _ => Raise TypeError
  end.

(** A new array: it gets a buffer of its own at the end of the store. *)
Definition alloc (h : heap) (v : ndarray) : pyref * heap :=
  (Whole (List.length h), h ++ [OArray v]).

(** [np.copy(a)] *)
Definition np_copy (h : heap) (a : pyref) : outcome (pyref * heap) :=
  v <- read h a ;; Ok (alloc h v).

(** [bars if fields is None else bars[fields]]: the same memory, seen
    through a selection of fields (a bad selection raises). *)
Definition project (h : heap) (a : pyref) (fields : Fields) : outcome pyref :=
  match a with
  | View l lo hi FNone => _ <- read h (View l lo hi fields) ;; Ok (View l lo hi fields)
  | _ => Raise TypeError
  end.

Fixpoint set_nth {A : Type} (n : nat) (x : A) (xs : list A) : list A :=
  match xs, n with
  | [], _ => []
  | _ :: xs', O => x :: xs'
  | y :: xs', S n' => y :: set_nth n' x xs'
  end.

(** Rows [lo:hi] of column [f] of a series, updated in place. *)
Fixpoint series_iop (op : float -> float -> float) (cols : list (string * list float))
  (f : string) (lo hi : Z) (factors : list float) : outcome (list (string * list float)) :=
  match cols with
  | [] => Raise ValueError
  | (g, xs) :: cols' =>
      if String.eqb g f
      then let n := Z.of_nat (List.length xs) in
           let i := Z.to_nat (slice_bound n lo) in
           let j := Z.to_nat (slice_bound n hi) in
           ys <- inplace op (py_slice xs lo hi) factors ;;
           Ok ((g, firstn i xs ++ ys ++ skipn (Nat.max i j) xs) :: cols')
      else rest <- series_iop op cols' f lo hi factors ;; Ok ((g, xs) :: rest)
  end.

(** Whether a view shows field [f]. *)
Definition selects (fields : Fields) (f : string) : bool :=
  match fields with
  | FNone => true
  | FStr g => String.eqb g f
  | FList fs => str_in f fs
  end.

(** [a[f] op= factors]: the write lands in the buffer [a] refers to. *)
Definition iop (op : float -> float -> float) (a : pyref) (f : string)
  (factors : list float) (h : heap) : outcome heap :=
  match a with
  | Whole l =>
      match nth_error h l with
      | Some (OArray (Struct cols)) =>
          cols' <- col_iop op cols f factors ;;
          Ok (set_nth l (OArray (Struct cols')) h)
      | _ => Raise ValueError
      end
  | View l lo hi fields =>
      match nth_error h l with
      | Some (OBars b) =>
          if String.eqb f "datetime" then Raise TypeError
          else if selects fields f
          then cols' <- series_iop op (columns b) f lo hi factors ;;
               Ok (set_nth l (OBars {| datetime := datetime b; columns := cols' |}) h)
          else Raise ValueError
      | _ => Raise ValueError
      end
  end.

(** [a.dtype.names] *)
Definition names_of (h : heap) (a : pyref) : outcome (list string) :=
  v <- read h a ;;
  match v with
  | Struct cols => Ok (map fst cols)
  | Flat _ => Raise TypeError
  end.

(** The loop over [result.dtype.names]. *)
Fixpoint adjust_fields (factors : list float) (result : pyref) (names : list string)
  (h : heap) : outcome heap :=
  match names with
  | [] => Ok h
  | f :: names' =>
      h' <- (if str_in f PRICE_FIELDS then iop PrimFloat.mul result f factors h
             else if String.eqb f "volume" then iop PrimFloat.div result f factors h
             else Ok h) ;;
      adjust_fields factors result names' h'
  end.

Definition _adjust_bar (self : BaseDataSource) (order_book_id : string)
  (bars : pyref) (fields : Fields) (h : heap) : outcome (pyref * heap) :=
  b <- deref h bars ;;
  match _ex_cum_factor self order_book_id with
  | None => r <- project h bars fields ;; Ok (r, h)
  | Some ex_factors =>
      start_date <- py_index (datetime b) 0 ;;
      end_date <- py_index (datetime b) (-1) ;;
      let dates := ft_start_date ex_factors in
      let ex_cum_factors := ft_ex_cum_factor ex_factors in
      f_start <- _factor_for_date dates ex_cum_factors start_date ;;
      f_end <- _factor_for_date dates ex_cum_factors end_date ;;
      if PrimFloat.eqb f_start f_end then r <- project h bars fields ;; Ok (r, h)
      else
        factors <- mapM (_factor_for_date dates ex_cum_factors) (datetime b) ;;
        last_factor <- py_index factors (-1) ;;
        let factors := map (fun x => PrimFloat.div x last_factor) factors in
        match fields with
        | FStr f =>
            if str_in f PRICE_FIELDS
            then c <- getitem b f ;; v <- col_op PrimFloat.mul c factors ;; Ok (alloc h v)
            else if String.eqb f "volume"
            then c <- getitem b f ;; v <- col_op PrimFloat.div c factors ;; Ok (alloc h v)
            else r <- project h bars fields ;; Ok (r, h)
        | _ =>
            src <- project h bars fields ;;
            copy <- np_copy h src ;;
            let result := fst copy in
            names <- names_of (snd copy) result ;;
            h' <- adjust_fields factors result names (snd copy) ;;
            Ok (result, h')
        end
  end.

End Store.

(** ** A small data source *)

(** Four trading days of one stock: a 2-for-1 split takes effect on
    2020-01-06. *)
Definition demo_bars : BarSeries :=
  mkBars [20200102; 20200103; 20200106; 20200107]%Z
    [("open", [10; 10; 5; 5]%float);
     ("close", [10; 10; 5; 5]%float);
     ("volume", [100; 100; 200; 200]%float);
     ("total_turnover", [1000; 1000; 1000; 1000]%float)].

(** The factor steps from 1.0 to 2.0 on the split date. *)
Definition split_factors : FactorTable :=
  mkFactors [0; 20200106]%Z [1; 2]%float.

(** The factor is 1.0 on the first and on the last day of [demo_bars] and
    2.0 on 2020-01-03. *)
Definition hump_factors : FactorTable :=
  mkFactors [0; 20200103; 20200106]%Z [1; 2; 1]%float.

(** Three stocks with the same bars: 000001.XSHE with [split_factors],
    000002.XSHE with [hump_factors], 000003.XSHE without a factor table; and
    the index 000001.XSHG. *)
Definition demo_source : BaseDataSource :=
  {| stocks := fun id =>
       if String.eqb id "000001.XSHE" || String.eqb id "000002.XSHE"
          || String.eqb id "000003.XSHE"
       then Some demo_bars else None;
     indexes := fun id => if String.eqb id "000001.XSHG" then Some demo_bars else None;
     futures := fun _ => None;
     funds := fun _ => None;
     _ex_cum_factor := fun id =>
       if String.eqb id "000001.XSHE" then Some split_factors
       else if String.eqb id "000002.XSHE" then Some hump_factors
       else None |}.

Definition stock_split : Instrument := mkInstrument "CS" "000001.XSHE".

Definition stock_hump : Instrument := mkInstrument "CS" "000002.XSHE".

Definition stock_plain : Instrument := mkInstrument "CS" "000003.XSHE".

(** [demo_bars], forward adjusted with [split_factors]. *)
Definition demo_adjusted : list (string * column) :=
  [("datetime", IntCol [20200102; 20200103; 20200106; 20200107]%Z);
   ("open", FloatCol [5; 5; 5; 5]%float);
   ("close", FloatCol [5; 5; 5; 5]%float);
   ("volume", FloatCol [200; 200; 200; 200]%float);
   ("total_turnover", FloatCol [1000; 1000; 1000; 1000]%float)].

(** ** More of the data source *)

(** A field of one record: the date, or a float. *)
Inductive scalar : Type :=
| SInt (z : Z)
| SFloat (x : float).

(** [bar[f]] on one record. *)
Definition bar_getitem (bar : Bar) (f : string) : outcome scalar :=
  if String.eqb f "datetime" then Ok (SInt (bar_datetime bar))
  else match dict_get (bar_fields bar) f with
       | Some x => Ok (SFloat x)
       | None => Raise ValueError
       end.

(** [date] is the integer that [convert_date_to_int] yields in [get_bar]. *)
Definition get_settle_price (self : BaseDataSource) (instrument : Instrument) (date : Z)
  : outcome scalar :=
  bar <- get_bar self instrument date "1d" ;;
  match bar with
  | None => Ok (SFloat PrimFloat.nan)
  | Some bar => bar_getitem bar "settlement"
  end.

(** One record as a structured array of one row. *)
Definition row_struct (bar : Bar) : list (string * column) :=
  ("datetime", IntCol [bar_datetime bar])
    :: map (fun nv => (fst nv, FloatCol [snd nv])) (bar_fields bar).

(** The dates an array carries: its ['datetime'] column, if it has one. *)
Definition returned_dates (r : ndarray) : list Z :=
  match r with
  | Struct cols =>
      match dict_get cols "datetime" with
      | Some (IntCol ds) => ds
      | _ => []
      end
  | Flat (IntCol ds) => ds
  | Flat (FloatCol _) => []
  end.

(** A selector that numpy can index with: a list names at least one field
    and no field twice. *)
Definition selector_ok (fields : Fields) : bool :=
  match fields with
  | FList [] => false
  | FList fs => nodupb fs
  | _ => true
  end.

(** Two days of a future, with a settlement price, and a stock that did not
    trade on 2020-01-03. *)
Definition future_bars : BarSeries :=
  mkBars [20200102; 20200103]%Z
    [("close", [3000; 3010]%float);
     ("settlement", [3002; 3008]%float);
     ("volume", [50; 60]%float)].

Definition halted_bars : BarSeries :=
  mkBars [20200102; 20200103; 20200106]%Z
    [("close", [10; 10; 11]%float);
     ("volume", [100; 0; 120]%float)].

Definition market : BaseDataSource :=
  {| stocks := fun id => if String.eqb id "000004.XSHE" then Some halted_bars else None;
     indexes := fun id => if String.eqb id "000001.XSHG" then Some demo_bars else None;
     futures := fun id => if String.eqb id "IF2003" then Some future_bars else None;
     funds := fun _ => None;
     _ex_cum_factor := fun id =>
       if String.eqb id "000001.XSHG" then Some split_factors
       else if String.eqb id "000004.XSHE" then Some split_factors
       else None |}.

(** A stock listed before the first breakpoint of its factor table:
    000005.XSHE has the rows of [demo_bars], from 2020-01-02 on, and
    breakpoints on 2020-01-03, 2020-01-06 and 2020-01-10. *)
Definition late_factors : FactorTable :=
  mkFactors [20200103; 20200106; 20200110]%Z [1; 2; 4]%float.

Definition late_source : BaseDataSource :=
  {| stocks := fun id => if String.eqb id "000005.XSHE" then Some demo_bars else None;
     indexes := fun _ => None;
     futures := fun _ => None;
     funds := fun _ => None;
     _ex_cum_factor := fun id =>
       if String.eqb id "000005.XSHE" then Some late_factors else None |}.

Definition stock_late : Instrument := mkInstrument "CS" "000005.XSHE".

Definition future_if : Instrument := mkInstrument "Future" "IF2003".
Definition index_sh : Instrument := mkInstrument "INDX" "000001.XSHG".
Definition stock_halted : Instrument := mkInstrument "CS" "000004.XSHE".

(** Whether a selector asks for the ['datetime'] field. *)
Definition selects_datetime (fields : Fields) : bool :=
  match fields with
  | FNone => true
  | FStr f => String.eqb f "datetime"
  | FList fs => str_in "datetime" fs
  end.

(** The form of the array a selector asks for: a structured array with
    every field of the series for [None], with the listed fields in the
    listed order for a list, and a one-dimensional array for one name. *)
Definition picks (bars : BarSeries) (fields : Fields) (r : ndarray) : Prop :=
  match fields with
  | FNone => exists cols, r = Struct cols /\ map fst cols = dtype_names bars
  | FStr f => exists c, r = Flat c
  | FList fs => exists cols, r = Struct cols /\ map fst cols = fs
  end.

(** The body of [history_bars] for the daily frequency over the store, from
    the point where the cached array is at hand: [l] is the buffer of the
    array [_filtered_day_bars] or [_all_day_bars_of] returned. The slice
    and the field selection are views of that buffer. *)
Definition store_history_bars (self : BaseDataSource) (instrument : Instrument)
  (bar_count : Z) (fields : Fields) (dt : Z) (l : nat) (h : Store.heap)
  : outcome (option Store.pyref * Store.heap) :=
  match nth_error h l with
  | Some (Store.OBars bars) =>
      if negb (_are_fields_valid fields (dtype_names bars)) then Ok (None, h)
      else
        let i := Z.of_nat (searchsorted (datetime bars) dt right) in
        left <- (if (bar_count <=? i)%Z then int64_sub i bar_count else Ok 0%Z) ;;
        let bars := Store.View l left i FNone in
        b <- Store.deref h bars ;;
        if str_in (type instrument) ["Future"; "INDX"] || (bars_len b =? 1)
        then r <- Store.project h bars fields ;; Ok (Some r, h)
        else
          raw <- match fields with
                 | FStr f => b <- py_in f FIELDS_REQUIRE_ADJUSTMENT ;; Ok (negb b)
                 | _ => Ok false
                 end ;;
          if raw then r <- Store.project h bars fields ;; Ok (Some r, h)
          else
            rh <- Store._adjust_bar self (order_book_id instrument) bars fields h ;;
            Ok (Some (fst rh), snd rh)
  | _ => Raise ValueError
  end.

(** * Properties *)

(** ** Sequences *)

Section Sequences.

Context {A : Type}.

Lemma py_index_nonneg (xs : list A) (i : nat) (x : A) :
  nth_error xs i = Some x -> py_index xs (Z.of_nat i) = Ok x.
Proof.
  intros H. unfold py_index.
  assert (i < List.length xs) by (apply nth_error_Some; congruence).
  replace (Z.of_nat i <? 0)%Z with false by (symmetry; apply Z.ltb_ge; lia).
  replace ((0 <=? Z.of_nat i) && (Z.of_nat i <? Z.of_nat (List.length xs)))%Z with true.
  - rewrite Nat2Z.id, H. reflexivity.
  - symmetry. apply andb_true_iff. split; [apply Z.leb_le | apply Z.ltb_lt]; lia.
Qed.

Lemma py_index_last (xs : list A) (x : A) :
  py_index (xs ++ [x]) (-1) = Ok x.
Proof.
  unfold py_index. rewrite length_app. cbn [List.length].
  replace (-1 <? 0)%Z with true by reflexivity.
  replace (-1 + Z.of_nat (List.length xs + 1))%Z with (Z.of_nat (List.length xs)) by lia.
  replace ((0 <=? Z.of_nat (List.length xs))
           && (Z.of_nat (List.length xs) <? Z.of_nat (List.length xs + 1)))%Z with true.
  - rewrite Nat2Z.id, nth_error_app2, Nat.sub_diag by lia. reflexivity.
  - symmetry. apply andb_true_iff. split; [apply Z.leb_le | apply Z.ltb_lt]; lia.
Qed.

(** [xs[-1]] is the last element of a non-empty sequence. *)
Lemma py_index_minus1 (xs : list A) (d : A) :
  xs <> [] -> py_index xs (-1) = Ok (last xs d).
Proof.
  intros H. destruct (exists_last H) as [ys [y ->]].
  rewrite py_index_last, last_last. reflexivity.
Qed.


(** The slice [xs[lo:hi]] for bounds within the sequence. *)
Lemma py_slice_inside (xs : list A) (lo hi : nat) :
  hi <= List.length xs ->
  py_slice xs (Z.of_nat lo) (Z.of_nat hi) = skipn lo (firstn hi xs).
Proof.
  intros H. unfold py_slice, slice_bound.
  replace (Z.of_nat lo <? 0)%Z with false by (symmetry; apply Z.ltb_ge; lia).
  replace (Z.of_nat hi <? 0)%Z with false by (symmetry; apply Z.ltb_ge; lia).
  rewrite (Z.min_l (Z.of_nat hi)) by lia.
  rewrite Nat2Z.id.
  destruct (Nat.le_gt_cases lo (List.length xs)) as [Hlo | Hlo].
  - rewrite Z.min_l by lia. now rewrite Nat2Z.id.
  - rewrite Z.min_r by lia. rewrite Nat2Z.id.
    rewrite !skipn_all2; try reflexivity; rewrite length_firstn; lia.
Qed.

Lemma mapM_length {B : Type} (f : A -> outcome B) (xs : list A) (ys : list B) :
  mapM f xs = Ok ys -> List.length ys = List.length xs.
Proof.
  revert ys. induction xs as [| x xs IH]; intros ys H; cbn in H.
  - injection H as <-. reflexivity.
  - destruct (f x) as [y |]; cbn in H; [| discriminate].
    destruct (mapM f xs) as [ys' |]; cbn in H; [| discriminate].
    injection H as <-. cbn. f_equal. now apply IH.
Qed.

(** When every element maps without an exception, [mapM] is [map]. *)
Lemma mapM_total {B : Type} (f : A -> outcome B) (g : A -> B) (xs : list A) :
  (forall x, In x xs -> f x = Ok (g x)) -> mapM f xs = Ok (map g xs).
Proof.
  induction xs as [| x xs IH]; intros H; cbn.
  - reflexivity.
  - rewrite (H x) by now left. cbn.
    rewrite IH by (intros; apply H; now right). reflexivity.
Qed.

Lemma map2_length {B C : Type} (f : A -> B -> C) (xs : list A) (ys : list B) :
  List.length xs = List.length ys -> List.length (map2 f xs ys) = List.length xs.
Proof.
  revert ys. induction xs as [| x xs IH]; intros [| y ys] H; cbn in *;
    try reflexivity; try discriminate.
  f_equal. apply IH. congruence.
Qed.

End Sequences.

(** ** Binary search on an ascending array *)

Lemma ascending_tail (x : Z) (xs : list Z) :
  ascending (x :: xs) = true -> ascending xs = true.
Proof.
  destruct xs as [| y xs]; [reflexivity |].
  cbn. intros H. apply andb_true_iff in H. apply H.
Qed.

Lemma ascending_head (x : Z) (xs : list Z) :
  ascending (x :: xs) = true -> Forall (fun y => (x < y)%Z) xs.
Proof.
  revert x. induction xs as [| y xs IH]; intros x H; [constructor |].
  cbn in H. apply andb_true_iff in H. destruct H as [Hxy Hys].
  apply Z.ltb_lt in Hxy. constructor; [assumption |].
  eapply Forall_impl; [| apply (IH y Hys)]. cbn. intros. lia.
Qed.

Lemma ascending_nth (xs : list Z) (i j : nat) :
  ascending xs = true -> i < j -> j < List.length xs ->
  (nth i xs 0 < nth j xs 0)%Z.
Proof.
  revert i j. induction xs as [| x xs IH]; intros i j H Hij Hj; cbn in Hj; [lia |].
  destruct j as [| j]; [lia |]. destruct i as [| i]; cbn [nth].
  - pose proof (ascending_head _ _ H) as HF. rewrite Forall_forall in HF.
    apply HF, nth_In. lia.
  - apply IH; [eapply ascending_tail; eassumption | lia | lia].
Qed.

Lemma ascending_nth_le (xs : list Z) (i j : nat) :
  ascending xs = true -> i <= j -> j < List.length xs ->
  (nth i xs 0 <= nth j xs 0)%Z.
Proof.
  intros H Hij Hj. destruct (Nat.eq_dec i j) as [-> | Hne]; [lia |].
  apply Z.lt_le_incl, ascending_nth; [assumption | lia | assumption].
Qed.

Section Binsearch.

Variable below : nat -> bool.
Variable n : nat.

(** Within the array, [below] holds on an initial segment. *)
Hypothesis below_down :
  forall i j, i <= j -> j < n -> below j = true -> below i = true.

Lemma binsearch_partition (fuel lo hi : nat) :
  lo <= hi -> hi <= n -> hi - lo <= fuel ->
  (forall j, j < lo -> below j = true) ->
  (forall j, hi <= j -> j < n -> below j = false) ->
  let p := binsearch below fuel lo hi in
  lo <= p <= hi /\
  (forall j, j < p -> below j = true) /\
  (forall j, p <= j -> j < n -> below j = false).
Proof.
  cbn zeta. revert lo hi.
  induction fuel as [| fuel IH]; intros lo hi Hle Hn Hfuel Hlo Hhi; cbn [binsearch].
  - assert (lo = hi) by lia. subst hi. split; [lia | split; assumption].
  - destruct (lo <? hi) eqn:E.
    + apply Nat.ltb_lt in E.
      assert (Hmid : (hi - lo) / 2 < hi - lo)
        by (apply Nat.Div0.div_lt_upper_bound; lia).
      cbn zeta. set (mid := lo + (hi - lo) / 2).
      assert (Hm : lo <= mid < hi) by (unfold mid; lia).
      destruct (below mid) eqn:Em.
      * assert (Hlo' : forall j, j < S mid -> below j = true).
        { intros j Hj. apply (below_down j mid); [lia | lia | assumption]. }
        destruct (IH (S mid) hi) as (Hp & Ht & Hf); try assumption; try lia.
        split; [lia | split; assumption].
      * assert (Hhi' : forall j, mid <= j -> j < n -> below j = false).
        { intros j Hj Hjn. destruct (below j) eqn:Ej; [| reflexivity].
          rewrite (below_down mid j) in Em; [discriminate | lia | lia | assumption]. }
        destruct (IH lo mid) as (Hp & Ht & Hf); try assumption; try lia.
        split; [lia | split; assumption].
    + apply Nat.ltb_ge in E. assert (lo = hi) by lia. subst hi.
      split; [lia | split; assumption].
Qed.

End Binsearch.

(** [searchsorted(v, side='right')] on an ascending array: everything before
    the position is [<= v], everything from it on is [> v]. *)
Lemma searchsorted_right_spec (a : list Z) (v : Z) :
  ascending a = true ->
  let p := searchsorted a v right in
  p <= List.length a /\
  (forall j, j < p -> (nth j a 0 <= v)%Z) /\
  (forall j, p <= j -> j < List.length a -> (v < nth j a 0)%Z).
Proof.
  intros Hasc. unfold searchsorted.
  destruct (binsearch_partition (fun mid => (nth mid a 0 <=? v)%Z) (List.length a))
    with (fuel := List.length a) (lo := 0) (hi := List.length a)
    as (Hp & Ht & Hf); try lia.
  - intros i j Hij Hj H. apply Z.leb_le in H. apply Z.leb_le.
    pose proof (ascending_nth_le a i j Hasc Hij Hj). lia.
  - cbn zeta. repeat split.
    + lia.
    + intros j Hj. apply Z.leb_le. now apply Ht.
    + intros j Hj Hjn. apply Z.leb_gt. now apply Hf.
Qed.

(** [searchsorted(v)] (side 'left'): everything before the position is
    [< v], everything from it on is [>= v]. *)
Lemma searchsorted_left_spec (a : list Z) (v : Z) :
  ascending a = true ->
  let p := searchsorted a v left in
  p <= List.length a /\
  (forall j, j < p -> (nth j a 0 < v)%Z) /\
  (forall j, p <= j -> j < List.length a -> (v <= nth j a 0)%Z).
Proof.
  intros Hasc. unfold searchsorted.
  destruct (binsearch_partition (fun mid => (nth mid a 0 <? v)%Z) (List.length a))
    with (fuel := List.length a) (lo := 0) (hi := List.length a)
    as (Hp & Ht & Hf); try lia.
  - intros i j Hij Hj H. apply Z.ltb_lt in H. apply Z.ltb_lt.
    pose proof (ascending_nth_le a i j Hasc Hij Hj). lia.
  - cbn zeta. repeat split.
    + lia.
    + intros j Hj. apply Z.ltb_lt. now apply Ht.
    + intros j Hj Hjn. apply Z.ltb_ge. now apply Hf.
Qed.

(** ** The instrument-type router *)

Lemma dict_get_absent {V : Type} (d : list (string * V)) (k : string) :
  ~ In k (map fst d) -> dict_get d k = None.
Proof.
  induction d as [| [k' v] d IH]; intros H; cbn; [reflexivity |].
  destruct (String.eqb_spec k' k) as [-> | Hne].
  - exfalso. apply H. now left.
  - apply IH. intros Hin. apply H. now right.
Qed.

(** C9. [_index_of] sends CS to partition 0, INDX to 1, Future to 2 and the
    five fund-like categories to 3; on any other category tag the dict lookup
    raises [KeyError]: there is no default partition. *)
Theorem index_of_closed_category_set (instrument : Instrument) :
  (type instrument = "CS" -> _index_of instrument = Ok 0%Z) /\
  (type instrument = "INDX" -> _index_of instrument = Ok 1%Z) /\
  (type instrument = "Future" -> _index_of instrument = Ok 2%Z) /\
  (In (type instrument) ["ETF"; "LOF"; "FenjiA"; "FenjiB"; "FenjiMu"] ->
   _index_of instrument = Ok 3%Z) /\
  (~ In (type instrument)
       ["CS"; "INDX"; "Future"; "ETF"; "LOF"; "FenjiA"; "FenjiB"; "FenjiMu"] ->
   _index_of instrument = Raise KeyError).
Proof.
  unfold _index_of, dict_getitem.
  repeat split.
  - intros ->. reflexivity.
  - intros ->. reflexivity.
  - intros ->. reflexivity.
  - cbn [In]. intros [<- | [<- | [<- | [<- | [<- | []]]]]]; reflexivity.
  - intros H. rewrite dict_get_absent; [reflexivity | exact H].
Qed.

Lemma index_of_closed_category_set_witness :
  _index_of (mkInstrument "CS" "000001.XSHE") = Ok 0%Z /\
  _index_of (mkInstrument "INDX" "000001.XSHG") = Ok 1%Z /\
  _index_of (mkInstrument "Future" "IF1706") = Ok 2%Z /\
  _index_of (mkInstrument "LOF" "161005.XSHE") = Ok 3%Z /\
  _index_of (mkInstrument "Bond" "019001.XSHG") = Raise KeyError.
Proof.
  split; [| split; [| split; [| split]]].
  - apply (index_of_closed_category_set (mkInstrument "CS" "000001.XSHE")). reflexivity.
  - apply (index_of_closed_category_set (mkInstrument "INDX" "000001.XSHG")). reflexivity.
  - apply (index_of_closed_category_set (mkInstrument "Future" "IF1706")). reflexivity.
  - apply (index_of_closed_category_set (mkInstrument "LOF" "161005.XSHE")).
    cbn. tauto.
  - apply (index_of_closed_category_set (mkInstrument "Bond" "019001.XSHG")).
    cbn. intros H. repeat (destruct H as [H | H]; [discriminate H |]). exact H.
Defined.

(** ** The factor step function *)

Lemma py_index_nth {A : Type} (xs : list A) (j : nat) (d : A) :
  j < List.length xs -> py_index xs (Z.of_nat j) = Ok (nth j xs d).
Proof.
  intros H. apply py_index_nonneg. now apply nth_error_nth'.
Qed.

Lemma last_nth {A : Type} (xs : list A) (d : A) :
  last xs d = nth (List.length xs - 1) xs d.
Proof.
  induction xs as [| x [| y xs] IH]; try reflexivity.
  change (last (x :: y :: xs) d) with (last (y :: xs) d). rewrite IH.
  cbn [List.length]. rewrite !Nat.sub_succ, !Nat.sub_0_r. reflexivity.
Qed.

Section FactorForDate.

Variables (dates : list Z) (factors : list float).
Hypothesis dates_ascending : ascending dates = true.
Hypothesis same_length : List.length factors = List.length dates.

(** At or after breakpoint [j] and before breakpoint [j + 1] (if there is
    one) the lookup yields the factor of breakpoint [j]. *)
Lemma factor_for_date_step (d : Z) (j : nat) :
  j < List.length dates ->
  (nth j dates 0 <= d)%Z ->
  (forall k, j < k -> k < List.length dates -> (d < nth k dates 0)%Z) ->
  _factor_for_date dates factors d = Ok (nth j factors 0%float).
Proof.
  intros Hj Hle Hgt. unfold _factor_for_date.
  assert (Hne : dates <> []) by (destruct dates; cbn in Hj; [lia | discriminate]).
  rewrite (py_index_minus1 dates 0%Z Hne). cbn [bind].
  rewrite last_nth.
  destruct (d >? nth (List.length dates - 1) dates 0)%Z eqn:E.
  - assert (j = List.length dates - 1).
    { destruct (Nat.eq_dec j (List.length dates - 1)) as [| Hne']; [assumption |].
      specialize (Hgt (List.length dates - 1)). apply Z.gtb_lt in E. lia. }
    assert (Hnf : factors <> []) by (destruct factors; cbn in *; [lia | discriminate]).
    rewrite (py_index_minus1 factors 0%float Hnf), last_nth. subst j.
    now rewrite same_length.
  - destruct (searchsorted_right_spec dates d dates_ascending) as (Hp & Ht & Hf).
    set (p := searchsorted dates d right) in *.
    assert (p = S j).
    { destruct (Nat.lt_trichotomy p (S j)) as [Hlt | [Heq | Hgt']]; [| assumption |].
      - specialize (Hf j). lia.
      - specialize (Ht (p - 1)). specialize (Hgt (p - 1)). lia. }
    replace (Z.of_nat p - 1)%Z with (Z.of_nat j) by lia.
    apply py_index_nth. lia.
Qed.

(** At or after the last breakpoint the lookup yields the last factor. *)
Lemma factor_for_date_after_last (d : Z) :
  dates <> [] -> (last dates 0 <= d)%Z ->
  _factor_for_date dates factors d = Ok (last factors 0%float).
Proof.
  intros Hne Hle. rewrite last_nth in Hle.
  assert (0 < List.length dates) by (destruct dates; cbn; [congruence | lia]).
  rewrite (factor_for_date_step d (List.length dates - 1)); try lia.
  now rewrite last_nth, same_length.
Qed.

(** Before the first breakpoint the insertion point is 0, and index
    [0 - 1] reads the factor column from its end. *)
Theorem factor_for_date_before_first (d : Z) :
  dates <> [] -> (d < nth 0 dates 0)%Z ->
  _factor_for_date dates factors d = Ok (last factors 0%float).
Proof.
  intros Hne Hlt. unfold _factor_for_date.
  rewrite (py_index_minus1 dates 0%Z Hne). cbn [bind].
  assert (Hlen : 0 < List.length dates) by (destruct dates; cbn; [congruence | lia]).
  pose proof (ascending_nth_le dates 0 (List.length dates - 1) dates_ascending) as Hfl.
  rewrite last_nth.
  replace (d >? nth (List.length dates - 1) dates 0)%Z with false
    by (symmetry; rewrite Z.gtb_ltb; apply Z.ltb_ge; lia).
  destruct (searchsorted_right_spec dates d dates_ascending) as (Hp & Ht & Hf).
  set (p := searchsorted dates d right) in *.
  assert (p = 0).
  { destruct p as [| p']; [reflexivity |]. specialize (Ht 0). lia. }
  replace (Z.of_nat p - 1)%Z with (-1)%Z by lia.
  apply py_index_minus1. destruct factors; cbn in *; [lia | discriminate].
Qed.

End FactorForDate.

(** C3. On the breakpoints [20200105; 20200110] with factors [2.0; 1.0] and
    the query date 20200101, which lies before the first breakpoint, the
    lookup yields 1.0, the factor of the last breakpoint; the earliest
    breakpoint's factor is 2.0. *)
Theorem factor_for_date_before_first_breakpoint :
  _factor_for_date [20200105; 20200110]%Z [2; 1]%float 20200101%Z = Ok 1%float /\
  py_index [2; 1]%float 0 = Ok 2%float /\
  PrimFloat.eqb 1 2 = false.
Proof. split; [vm_compute; reflexivity | split; reflexivity]. Qed.

(** ** Point lookup *)

Lemma bars_wf_column (bars : BarSeries) (c : string * list float) :
  bars_wf bars = true -> In c (columns bars) -> List.length (snd c) = bars_len bars.
Proof.
  unfold bars_wf. rewrite forallb_forall. intros H Hin.
  apply Nat.eqb_eq. now apply H.
Qed.

Lemma bars_row_raw (bars : BarSeries) (pos : nat) :
  bars_wf bars = true -> pos < bars_len bars ->
  bars_row bars (Z.of_nat pos) = Ok (raw_row bars pos).
Proof.
  intros Hwf Hpos. unfold bars_row, raw_row.
  rewrite (py_index_nth (datetime bars) pos 0%Z Hpos). cbn [bind].
  rewrite (mapM_total _ (fun c => (fst c, nth pos (snd c) 0%float))).
  - reflexivity.
  - intros c Hin. rewrite (py_index_nth (snd c) pos 0%float); [reflexivity |].
    now rewrite (bars_wf_column bars c Hwf Hin).
Qed.

(** On a strictly ascending array the left insertion point of a value that
    occurs in it is the position where it occurs. *)
Lemma searchsorted_left_found (a : list Z) (v : Z) (pos : nat) :
  ascending a = true -> nth_error a pos = Some v -> searchsorted a v left = pos.
Proof.
  intros Hasc Hnth.
  assert (Hpos : pos < List.length a) by (apply nth_error_Some; congruence).
  assert (Hv : nth pos a 0%Z = v) by now apply nth_error_nth.
  destruct (searchsorted_left_spec a v Hasc) as (Hp & Ht & Hf).
  set (p := searchsorted a v left) in *.
  destruct (Nat.lt_trichotomy p pos) as [Hlt | [Heq | Hgt]]; [| assumption |].
  - specialize (Hf p). pose proof (ascending_nth a p pos Hasc Hlt Hpos). lia.
  - specialize (Ht pos Hgt). lia.
Qed.

(** C7. With daily frequency [get_bar] answers [None] when the instrument has
    no series in its store, and when the series has no row dated exactly [dt];
    when row [pos] of the series is dated [dt], it answers that row with the
    values the store holds (the factor store is not consulted). *)
Theorem get_bar_exact_date (self : BaseDataSource) (instrument : Instrument) (dt : Z) :
  (_all_day_bars_of self instrument = Ok None ->
   get_bar self instrument dt "1d" = Ok None) /\
  (forall bars,
      _all_day_bars_of self instrument = Ok (Some bars) ->
      ascending (datetime bars) = true ->
      bars_wf bars = true ->
      (~ In dt (datetime bars) -> get_bar self instrument dt "1d" = Ok None) /\
      (forall pos, nth_error (datetime bars) pos = Some dt ->
                   get_bar self instrument dt "1d" = Ok (Some (raw_row bars pos)))).
Proof.
  split.
  - intros H. unfold get_bar. cbn [String.eqb Ascii.eqb Bool.eqb negb].
    rewrite H. reflexivity.
  - intros bars H Hasc Hwf. split.
    + intros Hnot. unfold get_bar. cbn [String.eqb Ascii.eqb Bool.eqb negb].
      rewrite H. cbn [bind].
      destruct (searchsorted_left_spec (datetime bars) dt Hasc) as (Hp & Ht & Hf).
      set (p := searchsorted (datetime bars) dt left) in *.
      destruct (bars_len bars <=? p) eqn:E; [reflexivity |].
      apply Nat.leb_gt in E. unfold bars_len in E.
      rewrite (py_index_nth (datetime bars) p 0%Z E). cbn [bind].
      destruct (Z.eqb_spec (nth p (datetime bars) 0%Z) dt) as [Heq | Hne]; [| reflexivity].
      exfalso. apply Hnot. rewrite <- Heq. now apply nth_In.
    + intros pos Hnth. unfold get_bar. cbn [String.eqb Ascii.eqb Bool.eqb negb].
      rewrite H. cbn [bind].
      rewrite (searchsorted_left_found _ _ _ Hasc Hnth).
      assert (Hpos : pos < bars_len bars) by (apply nth_error_Some; congruence).
      replace (bars_len bars <=? pos) with false by (symmetry; apply Nat.leb_gt; lia).
      rewrite (py_index_nonneg _ _ _ Hnth). cbn [bind].
      rewrite Z.eqb_refl. cbn [negb].
      rewrite (bars_row_raw bars pos Hwf Hpos). reflexivity.
Qed.

(** ** Window lookup: the rows selected *)

Lemma filter_all {A : Type} (f : A -> bool) (l : list A) :
  (forall x, In x l -> f x = true) -> filter f l = l.
Proof.
  intros H. apply forallb_filter_id, forallb_forall, H.
Qed.

Lemma filter_none {A : Type} (f : A -> bool) (l : list A) :
  (forall x, In x l -> f x = false) -> filter f l = [].
Proof.
  induction l as [| x l IH]; intros H; cbn; [reflexivity |].
  rewrite (H x) by now left. apply IH. intros y Hy. apply H. now right.
Qed.

(** On an ascending array the rows at or before [v] are the first
    [searchsorted(v, side='right')] rows. *)
Lemma searchsorted_right_prefix (a : list Z) (v : Z) :
  ascending a = true ->
  filter (fun d => (d <=? v)%Z) a = firstn (searchsorted a v right) a.
Proof.
  intros Hasc.
  destruct (searchsorted_right_spec a v Hasc) as (Hp & Ht & Hf).
  set (p := searchsorted a v right) in *.
  rewrite <- (firstn_skipn p a) at 1. rewrite filter_app.
  rewrite filter_all, filter_none.
  - apply app_nil_r.
  - intros x Hin. destruct (In_nth _ _ 0%Z Hin) as (j & Hj & <-).
    rewrite length_skipn in Hj. rewrite nth_skipn.
    apply Z.leb_gt. apply Hf; lia.
  - intros x Hin. destruct (In_nth _ _ 0%Z Hin) as (j & Hj & <-).
    rewrite length_firstn in Hj. rewrite nth_firstn.
    replace (j <? p) with true by (symmetry; apply Nat.ltb_lt; lia).
    apply Z.leb_le. apply Ht. lia.
Qed.

Lemma searchsorted_right_count (bars : BarSeries) (dt : Z) :
  ascending (datetime bars) = true ->
  searchsorted (datetime bars) dt right = rows_upto bars dt.
Proof.
  intros Hasc. unfold rows_upto. rewrite (searchsorted_right_prefix _ _ Hasc).
  destruct (searchsorted_right_spec (datetime bars) dt Hasc) as (Hp & _).
  rewrite length_firstn. lia.
Qed.

(** [xs[i - n:i]] (or [xs[0:i]] when [n > i]) is the last [min n i] of the
    first [i] elements. *)
Lemma slice_tail_rows {A : Type} (xs : list A) (i : nat) (n : Z) :
  i <= List.length xs -> (0 <= n)%Z ->
  py_slice xs (if (n <=? Z.of_nat i)%Z then (Z.of_nat i - n)%Z else 0%Z) (Z.of_nat i)
  = tail_rows (Z.to_nat (Z.min n (Z.of_nat i))) (firstn i xs).
Proof.
  intros Hi Hn. unfold tail_rows. rewrite length_firstn, Nat.min_l by assumption.
  destruct (n <=? Z.of_nat i)%Z eqn:E.
  - apply Z.leb_le in E. rewrite Z.min_l by assumption.
    replace (Z.of_nat i - n)%Z with (Z.of_nat (i - Z.to_nat n)) by lia.
    now rewrite py_slice_inside.
  - apply Z.leb_gt in E. rewrite Z.min_r by lia. rewrite Nat2Z.id, Nat.sub_diag.
    change 0%Z with (Z.of_nat 0). now rewrite (py_slice_inside xs 0 i).
Qed.

(** The rows cut out are the last [min(bar_count, k)] of the [k] rows dated
    at or before [dt]. *)
Lemma int64_min_neg : (int64_min < 0)%Z.
Proof. reflexivity. Qed.

Lemma count_in_range (bar_count : Z) : (0 <= bar_count)%Z -> (int64_min <= bar_count)%Z.
Proof. pose proof int64_min_neg. lia. Qed.

(** A count that is not negative is subtracted exactly. *)
Lemma window_left_count (i bar_count : Z) :
  (0 <= bar_count)%Z ->
  window_left i bar_count = if (bar_count <=? i)%Z then (i - bar_count)%Z else 0%Z.
Proof.
  intros H. unfold window_left.
  now replace (0 <=? bar_count)%Z with true by (symmetry; apply Z.leb_le; exact H).
Qed.

(** The left end [history_bars] computes, when [bar_count] converts. *)
Lemma window_left_sub (i bar_count : Z) :
  (int64_min <= bar_count)%Z ->
  (if (bar_count <=? i)%Z then int64_sub i bar_count else Ok 0%Z)
  = Ok (window_left i bar_count).
Proof.
  intros H. unfold window_left, int64_sub.
  destruct (bar_count <=? i)%Z; [| reflexivity].
  replace (bar_count <? int64_min)%Z with false by (symmetry; apply Z.ltb_ge; exact H).
  destruct (0 <=? bar_count)%Z; reflexivity.
Qed.

Lemma window_rows (bars : BarSeries) (bar_count dt : Z) :
  ascending (datetime bars) = true -> bars_wf bars = true -> (0 <= bar_count)%Z ->
  window bars bar_count dt
  = take_window (rows_upto bars dt)
      (Z.to_nat (Z.min bar_count (Z.of_nat (rows_upto bars dt)))) bars.
Proof.
  intros Hasc Hwf Hn. unfold window, bars_slice, take_window.
  destruct (searchsorted_right_spec (datetime bars) dt Hasc) as (Hp & _).
  rewrite (searchsorted_right_count bars dt Hasc) in *.
  rewrite (window_left_count _ _ Hn).
  f_equal.
  - now apply slice_tail_rows.
  - apply map_ext_in. intros c Hin. f_equal.
    apply slice_tail_rows; [| assumption].
    rewrite (bars_wf_column bars c Hwf Hin). exact Hp.
Qed.

Lemma tail_rows_length {A : Type} (m : nat) (xs : list A) :
  List.length (tail_rows m xs) = Nat.min m (List.length xs).
Proof. unfold tail_rows. rewrite length_skipn. lia. Qed.

Lemma take_window_len (k m : nat) (bars : BarSeries) :
  k <= bars_len bars -> m <= k -> bars_len (take_window k m bars) = m.
Proof.
  intros Hk Hm. unfold bars_len, take_window in *. cbn [datetime].
  rewrite tail_rows_length, length_firstn. lia.
Qed.

Lemma take_window_wf (k m : nat) (bars : BarSeries) :
  bars_wf bars = true -> bars_wf (take_window k m bars) = true.
Proof.
  intros Hwf. unfold bars_wf. apply forallb_forall. intros c Hin.
  cbn [columns take_window] in Hin. apply in_map_iff in Hin.
  destruct Hin as (c0 & <- & Hin0). cbn [snd]. apply Nat.eqb_eq.
  unfold bars_len. cbn [datetime take_window].
  rewrite !tail_rows_length, !length_firstn.
  pose proof (bars_wf_column bars c0 Hwf Hin0) as E. unfold bars_len in E.
  now rewrite E.
Qed.

Lemma rows_upto_le (bars : BarSeries) (dt : Z) : rows_upto bars dt <= bars_len bars.
Proof. apply filter_length_le. Qed.

(** ** Window lookup: the shape of what is returned *)

Lemma dict_get_In {V : Type} (d : list (string * V)) (k : string) (v : V) :
  dict_get d k = Some v -> In (k, v) d.
Proof.
  induction d as [| [k' v'] d IH]; cbn; [discriminate |].
  destruct (String.eqb_spec k' k) as [-> | Hne]; intros H.
  - injection H as ->. now left.
  - right. now apply IH.
Qed.

Lemma getitem_len (bars : BarSeries) (f : string) (c : column) :
  bars_wf bars = true -> getitem bars f = Ok c -> col_len c = bars_len bars.
Proof.
  intros Hwf. unfold getitem.
  destruct (String.eqb f "datetime").
  - intros H. injection H as <-. reflexivity.
  - destruct (dict_get (columns bars) f) as [xs |] eqn:E; [| discriminate].
    intros H. injection H as <-. cbn.
    apply (bars_wf_column bars (f, xs) Hwf). now apply dict_get_In.
Qed.

Lemma select_len (bars : BarSeries) (fields : Fields) (r : ndarray) :
  bars_wf bars = true -> fields <> FList [] ->
  select bars fields = Ok r -> len r = bars_len bars.
Proof.
  intros Hwf Hne. destruct fields as [| f | fs]; cbn [select].
  - intros H. injection H as <-. reflexivity.
  - destruct (getitem bars f) as [c |] eqn:E; cbn [bind]; [| discriminate].
    intros H. injection H as <-. cbn. now apply (getitem_len bars f).
  - destruct fs as [| f fs]; [congruence |].
    unfold getitem_fields. destruct (nodupb (f :: fs)); [| discriminate].
    cbn [mapM]. destruct (getitem bars f) as [c |] eqn:E; cbn [bind]; [| discriminate].
    destruct (mapM _ fs) as [cols |]; cbn [bind]; [| discriminate].
    intros H. injection H as <-. cbn. now apply (getitem_len bars f).
Qed.

Lemma inplace_length (op : float -> float -> float) (xs ys zs : list float) :
  inplace op xs ys = Ok zs -> List.length zs = List.length xs.
Proof.
  unfold inplace. destruct (Nat.eqb_spec (List.length xs) (List.length ys)) as [E | _].
  - intros H. injection H as <-. now apply map2_length.
  - destruct ys as [| y [| y' ys]]; try discriminate.
    intros H. injection H as <-. apply length_map.
Qed.

Lemma col_iop_shape (op : float -> float -> float) (cols cols' : list (string * column))
  (f : string) (factors : list float) :
  col_iop op cols f factors = Ok cols' -> shape cols' = shape cols.
Proof.
  revert cols'. induction cols as [| [g c] cols IH]; intros cols'; cbn [col_iop];
    [discriminate |].
  destruct (String.eqb g f).
  - destruct c as [xs | xs]; [discriminate |].
    destruct (inplace op xs factors) as [ys |] eqn:E; cbn [bind]; [| discriminate].
    intros H. injection H as <-. cbn. now rewrite (inplace_length _ _ _ _ E).
  - destruct (col_iop op cols f factors) as [rest |]; cbn [bind]; [| discriminate].
    intros H. injection H as <-. cbn. f_equal. now apply IH.
Qed.

Lemma adjust_fields_shape (factors : list float) (names : list string)
  (cols cols' : list (string * column)) :
  adjust_fields factors cols names = Ok cols' -> shape cols' = shape cols.
Proof.
  revert cols. induction names as [| f names IH]; intros cols; cbn [adjust_fields].
  - intros H. now injection H as <-.
  - destruct (adjust_field factors cols f) as [cols1 |] eqn:E; cbn [bind]; [| discriminate].
    intros H. rewrite (IH _ H). unfold adjust_field in E.
    destruct (str_in f PRICE_FIELDS); [now apply col_iop_shape in E |].
    destruct (String.eqb f "volume"); [now apply col_iop_shape in E |].
    now injection E as <-.
Qed.

Lemma len_shape (cols cols' : list (string * column)) :
  shape cols' = shape cols -> len (Struct cols') = len (Struct cols).
Proof.
  destruct cols as [| [g c] cols], cols' as [| [g' c'] cols']; cbn; try discriminate;
    [reflexivity |].
  intros H. now injection H.
Qed.

Lemma col_op_len (op : float -> float -> float) (c : column) (factors : list float)
  (r : ndarray) :
  col_len c = List.length factors -> col_op op c factors = Ok r -> len r = col_len c.
Proof.
  intros Hlen. unfold col_op, broadcast.
  assert (E : List.length (as_float64 c) = col_len c)
    by (destruct c; cbn; [apply length_map | reflexivity]).
  rewrite E, Hlen, Nat.eqb_refl. cbn [bind]. intros H. injection H as <-.
  cbn. rewrite map2_length; congruence.
Qed.

(** The adjustment engine hands back as many rows as it was given. *)
Lemma adjust_bar_len (self : BaseDataSource) (order_book_id : string)
  (bars : BarSeries) (fields : Fields) (r : ndarray) :
  bars_wf bars = true -> fields <> FList [] ->
  _adjust_bar self order_book_id bars fields = Ok r -> len r = bars_len bars.
Proof.
  intros Hwf Hne. unfold _adjust_bar.
  destruct (_ex_cum_factor self order_book_id) as [tbl |]; [| now apply select_len].
  destruct (py_index (datetime bars) 0) as [start_date |]; cbn [bind]; [| discriminate].
  destruct (py_index (datetime bars) (-1)) as [end_date |]; cbn [bind]; [| discriminate].
  destruct (_factor_for_date _ _ start_date) as [f_start |]; cbn [bind]; [| discriminate].
  destruct (_factor_for_date _ _ end_date) as [f_end |]; cbn [bind]; [| discriminate].
  destruct (PrimFloat.eqb f_start f_end); [now apply select_len |].
  destruct (mapM _ (datetime bars)) as [raw |] eqn:Eraw; cbn [bind]; [| discriminate].
  destruct (py_index raw (-1)) as [last_factor |]; cbn [bind]; [| discriminate].
  apply mapM_length in Eraw.
  set (factors := map (fun x => PrimFloat.div x last_factor) raw).
  assert (Hf : List.length factors = bars_len bars)
    by (unfold factors, bars_len; now rewrite length_map).
  assert (Hstruct : forall r0,
             select bars fields = Ok r0 ->
             match r0 with
             | Struct cols =>
                 cols' <- adjust_fields factors cols (map fst cols) ;; Ok (Struct cols')
             | Flat _ => Raise TypeError
             end = Ok r -> len r = bars_len bars).
  { intros r0 Hsel. pose proof (select_len bars fields r0 Hwf Hne Hsel) as Hlen.
    destruct r0 as [cols | c]; [| discriminate].
    destruct (adjust_fields factors cols (map fst cols)) as [cols' |] eqn:E;
      cbn [bind]; [| discriminate].
    intros H. injection H as <-.
    rewrite (len_shape _ _ (adjust_fields_shape _ _ _ _ E)). exact Hlen. }
  destruct fields as [| f | fs].
  - intros H. apply (Hstruct (Struct (to_struct bars)) eq_refl). exact H.
  - destruct (str_in f PRICE_FIELDS);
      [| destruct (String.eqb f "volume"); [| now apply select_len]];
      (destruct (getitem bars f) as [c |] eqn:E; cbn [bind]; [| discriminate];
       intros H; pose proof (getitem_len bars f c Hwf E) as Hc;
       rewrite (col_op_len _ c factors r (eq_trans Hc (eq_sym Hf)) H); exact Hc).
  - destruct (select bars (FList fs)) as [r0 |] eqn:E; cbn [bind]; [| discriminate].
    now apply Hstruct.
Qed.

(** [history_bars] in terms of the rows it cuts out. *)
Lemma history_bars_unfold (self : BaseDataSource) (instrument : Instrument)
  (bar_count : Z) (fields : Fields) (dt : Z) (skip_suspended : bool) (bars : BarSeries) :
  (if skip_suspended && String.eqb (type instrument) "CS"
   then _filtered_day_bars self instrument
   else _all_day_bars_of self instrument) = Ok (Some bars) ->
  _are_fields_valid fields (dtype_names bars) = true ->
  (int64_min <= bar_count)%Z ->
  history_bars self instrument bar_count "1d" fields dt skip_suspended
  = let w := window bars bar_count dt in
    if str_in (type instrument) ["Future"; "INDX"] || (bars_len w =? 1)
    then r <- select w fields ;; Ok (Some r)
    else
      raw <- match fields with
             | FStr f => b <- py_in f FIELDS_REQUIRE_ADJUSTMENT ;; Ok (negb b)
             | _ => Ok false
             end ;;
      if raw then r <- select w fields ;; Ok (Some r)
      else r <- _adjust_bar self (order_book_id instrument) w fields ;; Ok (Some r).
Proof.
  intros Hsel Hvalid Hrange. unfold history_bars.
  cbn [String.eqb Ascii.eqb Bool.eqb negb].
  rewrite Hsel. cbn [bind]. rewrite Hvalid. cbn [negb]. cbv zeta.
  rewrite (window_left_sub _ _ Hrange). reflexivity.
Qed.

(** A [bar_count] below the int64 range does not convert: once the series
    is there and the selector is valid, the subtraction raises. *)
Lemma history_bars_overflow (self : BaseDataSource) (instrument : Instrument)
  (bar_count : Z) (fields : Fields) (dt : Z) (skip_suspended : bool) (bars : BarSeries) :
  (if skip_suspended && String.eqb (type instrument) "CS"
   then _filtered_day_bars self instrument
   else _all_day_bars_of self instrument) = Ok (Some bars) ->
  _are_fields_valid fields (dtype_names bars) = true ->
  (bar_count < int64_min)%Z ->
  history_bars self instrument bar_count "1d" fields dt skip_suspended
  = Raise OverflowError.
Proof.
  intros Hsel Hvalid Hrange. unfold history_bars.
  cbn [String.eqb Ascii.eqb Bool.eqb negb].
  rewrite Hsel. cbn [bind]. rewrite Hvalid. cbn [negb]. cbv zeta.
  pose proof int64_min_neg as Hneg.
  replace (bar_count <=? Z.of_nat (searchsorted (datetime bars) dt right))%Z with true
    by (symmetry; apply Z.leb_le; lia).
  unfold int64_sub.
  now replace (bar_count <? int64_min)%Z with true by (symmetry; apply Z.ltb_lt; exact Hrange).
Qed.

(** A call that returns has a [bar_count] that converted. *)
Lemma history_bars_returns_range (self : BaseDataSource) (instrument : Instrument)
  (bar_count : Z) (fields : Fields) (dt : Z) (skip_suspended : bool) (bars : BarSeries)
  (r : option ndarray) :
  (if skip_suspended && String.eqb (type instrument) "CS"
   then _filtered_day_bars self instrument
   else _all_day_bars_of self instrument) = Ok (Some bars) ->
  _are_fields_valid fields (dtype_names bars) = true ->
  history_bars self instrument bar_count "1d" fields dt skip_suspended = Ok r ->
  (int64_min <= bar_count)%Z.
Proof.
  intros Hsel Hvalid Hcall.
  destruct (Z.le_gt_cases int64_min bar_count) as [H | H]; [exact H |].
  rewrite (history_bars_overflow _ _ _ _ _ _ _ Hsel Hvalid H) in Hcall. discriminate Hcall.
Qed.

(** C6, as amended. Whatever array a daily [history_bars] call returns,
    for a selector other than the empty list, has exactly
    [min(bar_count, k)] rows, hence never more than [bar_count], where [k]
    counts the rows of the selected series dated at or before [dt]; it is
    computed (selected raw, or adjusted) from the last [min(bar_count, k)]
    of those [k] rows, which are the first [k] rows of the series. With the
    empty list numpy reads [bars[[]]] as an index that selects no row. *)
Theorem history_bars_row_count (self : BaseDataSource) (instrument : Instrument)
  (bar_count : Z) (fields : Fields) (dt : Z) (skip_suspended : bool)
  (bars : BarSeries) (r : ndarray) :
  (if skip_suspended && String.eqb (type instrument) "CS"
   then _filtered_day_bars self instrument
   else _all_day_bars_of self instrument) = Ok (Some bars) ->
  ascending (datetime bars) = true ->
  bars_wf bars = true ->
  (0 <= bar_count)%Z ->
  fields <> FList [] ->
  history_bars self instrument bar_count "1d" fields dt skip_suspended = Ok (Some r) ->
  let k := rows_upto bars dt in
  let m := Z.to_nat (Z.min bar_count (Z.of_nat k)) in
  (Z.of_nat (len r) <= bar_count)%Z /\
  Z.of_nat (len r) = Z.min bar_count (Z.of_nat k) /\
  firstn k (datetime bars) = filter (fun d => (d <=? dt)%Z) (datetime bars) /\
  (select (take_window k m bars) fields = Ok r \/
   _adjust_bar self (order_book_id instrument) (take_window k m bars) fields = Ok r).
Proof.
  intros Hsel Hasc Hwf Hn Hne Hcall k m.
  destruct (_are_fields_valid fields (dtype_names bars)) eqn:Hvalid.
  2: { unfold history_bars in Hcall. cbn [String.eqb Ascii.eqb Bool.eqb negb] in Hcall.
       rewrite Hsel in Hcall. cbn [bind] in Hcall. rewrite Hvalid in Hcall.
       discriminate Hcall. }
  rewrite (history_bars_unfold _ _ _ _ _ _ _ Hsel Hvalid (count_in_range _ Hn)) in Hcall. cbv zeta in Hcall.
  rewrite (window_rows bars bar_count dt Hasc Hwf Hn) in Hcall.
  fold k in Hcall. fold m in Hcall.
  set (w := take_window k m bars) in *.
  assert (Hk : k <= bars_len bars) by apply rows_upto_le.
  assert (Hm : m <= k) by (unfold m; lia).
  assert (Hw : bars_len w = m) by (apply take_window_len; assumption).
  assert (Hwfw : bars_wf w = true) by now apply take_window_wf.
  assert (Hlen : len r = m ->
                 (Z.of_nat (len r) <= bar_count)%Z /\
                 Z.of_nat (len r) = Z.min bar_count (Z.of_nat k))
    by (intros ->; unfold m; lia).
  assert (Hprefix : firstn k (datetime bars)
                    = filter (fun d => (d <=? dt)%Z) (datetime bars)).
  { unfold k. rewrite <- (searchsorted_right_count bars dt Hasc).
    symmetry. now apply searchsorted_right_prefix. }
  assert (Hraw : forall r0, select w fields = Ok r0 -> len r0 = m).
  { intros r0 H0. rewrite <- Hw. now apply (select_len w fields). }
  assert (Hadj : forall r0, _adjust_bar self (order_book_id instrument) w fields = Ok r0 ->
                            len r0 = m).
  { intros r0 H0. rewrite <- Hw.
    now apply (adjust_bar_len self (order_book_id instrument) w fields). }
  destruct (str_in (type instrument) ["Future"; "INDX"] || (bars_len w =? 1)).
  - destruct (select w fields) as [r0 |] eqn:E; cbn [bind] in Hcall; [| discriminate].
    injection Hcall as <-. destruct (Hlen (Hraw r0 eq_refl)). auto.
  - destruct fields as [| f | fs]; cbn [bind py_in FIELDS_REQUIRE_ADJUSTMENT set_add snd] in Hcall;
      [| discriminate |].
    + destruct (_adjust_bar self (order_book_id instrument) w FNone) as [r0 |] eqn:E;
        cbn [bind] in Hcall; [| discriminate].
      injection Hcall as <-. destruct (Hlen (Hadj r0 eq_refl)). auto.
    + destruct (_adjust_bar self (order_book_id instrument) w (FList fs)) as [r0 |] eqn:E;
        cbn [bind] in Hcall; [| discriminate].
      injection Hcall as <-. destruct (Hlen (Hadj r0 eq_refl)). auto.
Qed.

(** ** The adjustment engine *)

Lemma binsearch_bounds (below : nat -> bool) (fuel lo hi : nat) :
  lo <= hi -> lo <= binsearch below fuel lo hi <= hi.
Proof.
  revert lo hi. induction fuel as [| fuel IH]; intros lo hi Hle; cbn [binsearch]; [lia |].
  destruct (lo <? hi) eqn:E; [| lia].
  apply Nat.ltb_lt in E.
  assert (Hmid : (hi - lo) / 2 < hi - lo) by (apply Nat.Div0.div_lt_upper_bound; lia).
  cbn zeta. destruct (below (lo + (hi - lo) / 2)).
  - pose proof (IH (S (lo + (hi - lo) / 2)) hi). lia.
  - pose proof (IH lo (lo + (hi - lo) / 2)). lia.
Qed.

(** On a well-formed table the factor lookup never raises. *)
Lemma factor_for_date_total (tbl : FactorTable) (d : Z) :
  ft_wf tbl = true ->
  exists x, _factor_for_date (ft_start_date tbl) (ft_ex_cum_factor tbl) d = Ok x.
Proof.
  unfold ft_wf. intros H. apply andb_true_iff in H. destruct H as [Hpos Hlen].
  apply Nat.ltb_lt in Hpos. apply Nat.eqb_eq in Hlen.
  unfold _factor_for_date.
  assert (Hd : ft_start_date tbl <> []) by (destruct (ft_start_date tbl); cbn in *; [lia | discriminate]).
  assert (Hf : ft_ex_cum_factor tbl <> [])
    by (destruct (ft_ex_cum_factor tbl); cbn in *; [lia | discriminate]).
  rewrite (py_index_minus1 _ 0%Z Hd). cbn [bind].
  destruct (d >? last (ft_start_date tbl) 0)%Z.
  - rewrite (py_index_minus1 _ 0%float Hf). eauto.
  - pose proof (binsearch_bounds
                  (fun mid => (nth mid (ft_start_date tbl) 0 <=? d)%Z)
                  (List.length (ft_start_date tbl)) 0 (List.length (ft_start_date tbl))
                  (Nat.le_0_l _)) as Hb.
    fold (searchsorted (ft_start_date tbl) d right) in Hb.
    destruct (searchsorted (ft_start_date tbl) d right) as [| p].
    + cbn. rewrite (py_index_minus1 _ 0%float Hf). eauto.
    + replace (Z.of_nat (S p) - 1)%Z with (Z.of_nat p) by lia.
      rewrite (py_index_nth _ p 0%float) by lia. eauto.
Qed.

Lemma mapM_exists {A B : Type} (f : A -> outcome B) (xs : list A) :
  (forall x, exists y, f x = Ok y) ->
  exists ys, mapM f xs = Ok ys /\ Forall2 (fun x y => f x = Ok y) xs ys.
Proof.
  intros Hf. induction xs as [| x xs (ys & E & F)].
  - exists []. split; [reflexivity | constructor].
  - destruct (Hf x) as [y Hy]. exists (y :: ys). cbn. rewrite Hy, E. cbn.
    split; [reflexivity | now constructor].
Qed.





Lemma str_in_In (x : string) (s : list string) : str_in x s = true <-> In x s.
Proof.
  unfold str_in. rewrite existsb_exists. split.
  - intros (y & Hin & E). apply String.eqb_eq in E. now subst.
  - intros H. exists x. split; [assumption | apply String.eqb_refl].
Qed.


Section AdjustLoop.

Variable factors : list float.





End AdjustLoop.








(** On a well-formed factor table the step-function factors of the rows of
    a slice exist. *)
Lemma step_factors_exist (tbl : FactorTable) (bars : BarSeries) :
  ft_wf tbl = true ->
  exists steps,
    Forall2 (fun d x =>
               _factor_for_date (ft_start_date tbl) (ft_ex_cum_factor tbl) d = Ok x)
            (datetime bars) steps.
Proof.
  intros Hft.
  destruct (mapM_exists
              (_factor_for_date (ft_start_date tbl) (ft_ex_cum_factor tbl))
              (datetime bars)
              (fun d => factor_for_date_total tbl d Hft)) as (steps & _ & HF).
  now exists steps.
Qed.


(** ** The paths that leave the rows as they are *)



(** A single field name on a window that would go to the engine, for a
    [bar_count] that is not negative: the membership test against
    [FIELDS_REQUIRE_ADJUSTMENT], which is [None], raises. *)
Theorem history_bars_single_name_raises (self : BaseDataSource) (instrument : Instrument)
  (bar_count : Z) (f : string) (dt : Z) (skip_suspended : bool) (bars : BarSeries) :
  (if skip_suspended && String.eqb (type instrument) "CS"
   then _filtered_day_bars self instrument
   else _all_day_bars_of self instrument) = Ok (Some bars) ->
  str_in f (dtype_names bars) = true ->
  str_in (type instrument) ["Future"; "INDX"] = false ->
  (0 <= bar_count)%Z ->
  bars_len (window bars bar_count dt) <> 1 ->
  history_bars self instrument bar_count "1d" (FStr f) dt skip_suspended = Raise TypeError.
Proof.
  intros Hsel Hvalid Hexempt Hn Hlen.
  rewrite (history_bars_unfold _ _ _ (FStr f) _ _ _ Hsel Hvalid (count_in_range _ Hn)).
  cbv zeta.
  rewrite Hexempt. apply Nat.eqb_neq in Hlen. rewrite Hlen. reflexivity.
Qed.


(** ** The engine leaves what it is given as it is *)

Lemma keeps_refl (cols : list (string * column)) : Forall2 keeps cols cols.
Proof. induction cols; constructor; [split; auto | assumption]. Qed.

Lemma keeps_trans (xs ys zs : list (string * column)) :
  Forall2 keeps xs ys -> Forall2 keeps ys zs -> Forall2 keeps xs zs.
Proof.
  intros H. revert zs. induction H as [| x y xs ys [Hn Hv] _ IH]; intros zs Hz.
  - inversion Hz. constructor.
  - inversion Hz as [| ? z ? zs' Hyz Hrest]; subst. constructor; [| now apply IH].
    destruct Hyz as [Hn' Hv']. split; [congruence |]. intros Hp Hvol.
    rewrite Hv' by (rewrite Hn; assumption). now apply Hv.
Qed.

Lemma col_iop_only (op : float -> float -> float) (cols cols' : list (string * column))
  (f : string) (factors : list float) :
  col_iop op cols f factors = Ok cols' ->
  Forall2 (fun nc nc' => fst nc' = fst nc /\ (fst nc <> f -> snd nc' = snd nc)) cols cols'.
Proof.
  revert cols'. induction cols as [| [g c] cols IH]; intros cols'; cbn [col_iop];
    [discriminate |].
  destruct (String.eqb_spec g f) as [-> | Hne].
  - destruct c as [zs | xs]; [discriminate |].
    destruct (inplace op xs factors) as [ys |]; cbn [bind]; [| discriminate].
    intros H. injection H as <-. constructor.
    + split; [reflexivity | cbn; congruence].
    + clear. induction cols; constructor; [split; auto | assumption].
  - destruct (col_iop op cols f factors) as [rest |]; cbn [bind]; [| discriminate].
    intros H. injection H as <-. constructor; [split; auto | now apply IH].
Qed.

Lemma adjust_field_keeps (factors : list float) (cols cols' : list (string * column))
  (f : string) :
  adjust_field factors cols f = Ok cols' -> Forall2 keeps cols cols'.
Proof.
  unfold adjust_field.
  destruct (str_in f PRICE_FIELDS) eqn:Ep.
  - intros H. apply col_iop_only in H. eapply Forall2_impl; [| exact H].
    intros nc nc' [Hn Hv]. split; [assumption |]. intros Hp _. apply Hv.
    intros Heq. rewrite Heq in Hp. congruence.
  - destruct (String.eqb f "volume") eqn:Ev.
    + intros H. apply col_iop_only in H. eapply Forall2_impl; [| exact H].
      intros nc nc' [Hn Hv]. split; [assumption |]. intros _ Hvol. apply Hv.
      intros Heq. rewrite Heq in Hvol. congruence.
    + intros H. injection H as <-. apply keeps_refl.
Qed.

Lemma adjust_fields_keeps (factors : list float) (names : list string)
  (cols cols' : list (string * column)) :
  adjust_fields factors cols names = Ok cols' -> Forall2 keeps cols cols'.
Proof.
  revert cols. induction names as [| f names IH]; intros cols; cbn [adjust_fields].
  - intros H. injection H as <-. apply keeps_refl.
  - destruct (adjust_field factors cols f) as [cols1 |] eqn:E; cbn [bind]; [| discriminate].
    intros H. apply (keeps_trans cols cols1 cols').
    + exact (adjust_field_keeps factors cols cols1 f E).
    + exact (IH cols1 H).
Qed.

Lemma keeps_other_fields_refl (fields : Fields) (raw : ndarray) :
  keeps_other_fields fields raw raw.
Proof.
  destruct raw as [cols | c]; cbn; [apply keeps_refl |].
  destruct fields; auto.
Qed.

(** Whatever the engine returns agrees with the selection it was given on
    every field that is neither a price nor the volume. *)
Lemma adjust_bar_keeps (self : BaseDataSource) (order_book_id : string)
  (bars : BarSeries) (fields : Fields) (raw v : ndarray) :
  select bars fields = Ok raw ->
  _adjust_bar self order_book_id bars fields = Ok v ->
  keeps_other_fields fields raw v.
Proof.
  intros Hsel. unfold _adjust_bar.
  assert (Hsame : select bars fields = Ok v -> keeps_other_fields fields raw v).
  { rewrite Hsel. intros H. injection H as <-. apply keeps_other_fields_refl. }
  destruct (_ex_cum_factor self order_book_id) as [tbl |]; [| exact Hsame].
  destruct (py_index (datetime bars) 0) as [start_date |]; cbn [bind]; [| discriminate].
  destruct (py_index (datetime bars) (-1)) as [end_date |]; cbn [bind]; [| discriminate].
  destruct (_factor_for_date _ _ start_date) as [f_start |]; cbn [bind]; [| discriminate].
  destruct (_factor_for_date _ _ end_date) as [f_end |]; cbn [bind]; [| discriminate].
  destruct (PrimFloat.eqb f_start f_end); [exact Hsame |].
  destruct (mapM _ (datetime bars)) as [steps |]; cbn [bind]; [| discriminate].
  destruct (py_index steps (-1)) as [last_factor |]; cbn [bind]; [| discriminate].
  set (factors := map (fun x => PrimFloat.div x last_factor) steps).
  assert (Hstruct : match raw with
                    | Struct cols =>
                        cols' <- adjust_fields factors cols (map fst cols) ;; Ok (Struct cols')
                    | Flat _ => Raise TypeError
                    end = Ok v -> keeps_other_fields fields raw v).
  { destruct raw as [cols | c]; [| discriminate].
    destruct (adjust_fields factors cols (map fst cols)) as [cols' |] eqn:E;
      cbn [bind]; [| discriminate].
    intros H. injection H as <-. cbn. now apply adjust_fields_keeps in E. }
  destruct fields as [| f | fs].
  - rewrite Hsel. exact Hstruct.
  - cbn [select] in Hsel.
    destruct (getitem bars f) as [c |] eqn:E; cbn [bind] in Hsel; [| discriminate].
    injection Hsel as <-.
    destruct (str_in f PRICE_FIELDS) eqn:Ep.
    + cbn [bind]. unfold col_op. destruct (broadcast _ _ _); cbn [bind]; [| discriminate].
      intros H. injection H as <-. unfold keeps_other_fields. intros Hp. congruence.
    + destruct (String.eqb f "volume") eqn:Ev.
      * cbn [bind]. unfold col_op. destruct (broadcast _ _ _); cbn [bind]; [| discriminate].
        intros H. injection H as <-. unfold keeps_other_fields. intros _ Hv. congruence.
      * cbn [select]. rewrite E. cbn [bind]. intros H. injection H as <-.
        unfold keeps_other_fields. auto.
  - rewrite Hsel. exact Hstruct.
Qed.

Lemma adjust_bar_selects (self : BaseDataSource) (order_book_id : string)
  (bars : BarSeries) (fields : Fields) (v : ndarray) :
  _adjust_bar self order_book_id bars fields = Ok v ->
  exists raw, select bars fields = Ok raw.
Proof.
  unfold _adjust_bar.
  destruct (_ex_cum_factor self order_book_id) as [tbl |]; [| eauto].
  destruct (py_index (datetime bars) 0) as [start_date |]; cbn [bind]; [| discriminate].
  destruct (py_index (datetime bars) (-1)) as [end_date |]; cbn [bind]; [| discriminate].
  destruct (_factor_for_date _ _ start_date) as [f_start |]; cbn [bind]; [| discriminate].
  destruct (_factor_for_date _ _ end_date) as [f_end |]; cbn [bind]; [| discriminate].
  destruct (PrimFloat.eqb f_start f_end); [eauto |].
  destruct (mapM _ (datetime bars)) as [steps |]; cbn [bind]; [| discriminate].
  destruct (py_index steps (-1)) as [last_factor |]; cbn [bind]; [| discriminate].
  destruct fields as [| f | fs].
  - cbn [select]. eauto.
  - cbn [select]. destruct (str_in f PRICE_FIELDS);
      [| destruct (String.eqb f "volume")];
      destruct (getitem bars f) as [c |]; cbn [bind]; try discriminate; eauto.
  - destruct (select bars (FList fs)) as [raw |]; cbn [bind]; [eauto | discriminate].
Qed.

(** ** The engine over the store *)

Section StoreFacts.

Lemma nth_error_snoc {A : Type} (h : list A) (x : A) :
  nth_error (h ++ [x]) (List.length h) = Some x.
Proof. rewrite nth_error_app2, Nat.sub_diag by lia. reflexivity. Qed.

Lemma set_nth_snoc {A : Type} (h : list A) (x y : A) :
  Store.set_nth (List.length h) y (h ++ [x]) = h ++ [y].
Proof. induction h as [| z h IH]; cbn; [reflexivity | now rewrite IH]. Qed.

(** Allocation does not disturb what an array object shows. *)
Lemma read_grow (h ext : Store.heap) (a : Store.pyref) (v : ndarray) :
  Store.read h a = Ok v -> Store.read (h ++ ext) a = Ok v.
Proof.
  destruct a as [l lo hi fields | l]; cbn [Store.read].
  - destruct (nth_error h l) as [o |] eqn:E; [| discriminate].
    now rewrite (nth_error_app1 h ext (proj1 (nth_error_Some h l) ltac:(congruence))), E.
  - destruct (nth_error h l) as [o |] eqn:E; [| discriminate].
    now rewrite (nth_error_app1 h ext (proj1 (nth_error_Some h l) ltac:(congruence))), E.
Qed.

Lemma deref_grow (h ext : Store.heap) (a : Store.pyref) (b : BarSeries) :
  Store.deref h a = Ok b -> Store.deref (h ++ ext) a = Ok b.
Proof.
  destruct a as [l lo hi [| f | fs] | l]; cbn [Store.deref]; try discriminate.
  destruct (nth_error h l) as [o |] eqn:E; [| discriminate].
  now rewrite (nth_error_app1 h ext (proj1 (nth_error_Some h l) ltac:(congruence))), E.
Qed.

(** A write to the newest buffer is the write to its columns. *)
Lemma iop_fresh (op : float -> float -> float) (h : Store.heap)
  (cols : list (string * column)) (f : string) (factors : list float) :
  Store.iop op (Store.Whole (List.length h)) f factors (h ++ [Store.OArray (Struct cols)])
  = (cols' <- col_iop op cols f factors ;; Ok (h ++ [Store.OArray (Struct cols')])).
Proof.
  cbn [Store.iop]. rewrite nth_error_snoc.
  destruct (col_iop op cols f factors); cbn [bind]; [| reflexivity].
  now rewrite set_nth_snoc.
Qed.

(** The loop over the newest buffer is the loop over its columns. *)
Lemma adjust_fields_fresh (factors : list float) (h : Store.heap) (names : list string)
  (cols : list (string * column)) :
  Store.adjust_fields factors (Store.Whole (List.length h)) names (h ++ [Store.OArray (Struct cols)])
  = (cols' <- adjust_fields factors cols names ;;
     Ok (h ++ [Store.OArray (Struct cols')])).
Proof.
  revert cols. induction names as [| f names IH]; intros cols;
    cbn [Store.adjust_fields adjust_fields bind]; [reflexivity |].
  unfold adjust_field.
  destruct (str_in f PRICE_FIELDS).
  - rewrite iop_fresh. destruct (col_iop _ cols f factors); cbn [bind]; [apply IH | reflexivity].
  - destruct (String.eqb f "volume").
    + rewrite iop_fresh.
      destruct (col_iop _ cols f factors); cbn [bind]; [apply IH | reflexivity].
    + cbn [bind]. apply IH.
Qed.

End StoreFacts.

(** Handing back a view: nothing is allocated, and the view shows the
    selection. *)
Lemma store_project_view (h : Store.heap) (l : nat) (lo hi : Z) (b0 : BarSeries)
  (fields : Fields) :
  nth_error h l = Some (Store.OBars b0) ->
  match select (bars_slice b0 lo hi) fields with
  | Ok v =>
      exists r ext,
        (r0 <- Store.project h (Store.View l lo hi FNone) fields ;; Ok (r0, h))
        = Ok (r, h ++ ext) /\
        Store.read (h ++ ext) r = Ok v /\
        (ext = [] \/ r = Store.Whole (List.length h))
  | Raise e =>
      (r0 <- Store.project h (Store.View l lo hi FNone) fields ;; Ok (r0, h)) = Raise e
  end.
Proof.
  intros Hl. cbn [Store.project Store.read]. rewrite Hl.
  destruct (select (bars_slice b0 lo hi) fields) as [v | e] eqn:E; cbn [bind];
    [| reflexivity].
  exists (Store.View l lo hi fields), []. rewrite app_nil_r. cbn [Store.read].
  rewrite Hl. auto.
Qed.

(** The engine over the store computes what [_adjust_bar] computes: it
    raises when [_adjust_bar] raises, and otherwise hands back either a view
    of the slice it was given, allocating nothing, or the one array it
    allocated; reading the result gives the value of [_adjust_bar]. No
    buffer that existed is written to: the store only grows. *)
Lemma store_adjust_bar_refines (self : BaseDataSource) (order_book_id : string)
  (bars : Store.pyref) (fields : Fields) (h : Store.heap) (b : BarSeries) :
  Store.deref h bars = Ok b ->
  match _adjust_bar self order_book_id b fields with
  | Ok v =>
      exists r ext,
        Store._adjust_bar self order_book_id bars fields h = Ok (r, h ++ ext) /\
        Store.read (h ++ ext) r = Ok v /\
        (ext = [] \/ r = Store.Whole (List.length h))
  | Raise e => Store._adjust_bar self order_book_id bars fields h = Raise e
  end.
Proof.
  intros Hd. unfold Store._adjust_bar. rewrite Hd. cbn [bind].
  destruct bars as [l lo hi [| f0 | fs0] | l]; cbn [Store.deref] in Hd; try discriminate.
  destruct (nth_error h l) as [[b0 | v0] |] eqn:Hl; try discriminate.
  injection Hd as <-.
  pose proof (store_project_view h l lo hi b0 fields Hl) as Hview.
  set (b := bars_slice b0 lo hi) in *.
  unfold _adjust_bar.
  destruct (_ex_cum_factor self order_book_id) as [tbl |]; [| exact Hview].
  destruct (py_index (datetime b) 0) as [start_date |]; cbn [bind]; [| reflexivity].
  destruct (py_index (datetime b) (-1)) as [end_date |]; cbn [bind]; [| reflexivity].
  destruct (_factor_for_date _ _ start_date) as [f_start |]; cbn [bind]; [| reflexivity].
  destruct (_factor_for_date _ _ end_date) as [f_end |]; cbn [bind]; [| reflexivity].
  destruct (PrimFloat.eqb f_start f_end); [exact Hview |].
  destruct (mapM _ (datetime b)) as [steps |]; cbn [bind]; [| reflexivity].
  destruct (py_index steps (-1)) as [last_factor |]; cbn [bind]; [| reflexivity].
  set (factors := map (fun x => PrimFloat.div x last_factor) steps).
  assert (Halloc : forall v, exists r ext,
             Ok (Store.alloc h v) = Ok (r, h ++ ext) /\
             Store.read (h ++ ext) r = Ok v /\
             (ext = [] \/ r = Store.Whole (List.length h))).
  { intros v. exists (Store.Whole (List.length h)), [Store.OArray v].
    split; [reflexivity |]. split; [| now right].
    cbn [Store.read]. now rewrite nth_error_snoc. }
  assert (Hcopy :
            match (result <- select b fields ;;
                   match result with
                   | Struct cols =>
                       cols' <- adjust_fields factors cols (map fst cols) ;; Ok (Struct cols')
                   | Flat _ => Raise TypeError
                   end) with
            | Ok v =>
                exists r ext,
                  (src <- Store.project h (Store.View l lo hi FNone) fields ;;
                   copy <- Store.np_copy h src ;;
                   names <- Store.names_of (snd copy) (fst copy) ;;
                   h' <- Store.adjust_fields factors (fst copy) names (snd copy) ;;
                   Ok (fst copy, h')) = Ok (r, h ++ ext) /\
                  Store.read (h ++ ext) r = Ok v /\
                  (ext = [] \/ r = Store.Whole (List.length h))
            | Raise e =>
                (src <- Store.project h (Store.View l lo hi FNone) fields ;;
                 copy <- Store.np_copy h src ;;
                 names <- Store.names_of (snd copy) (fst copy) ;;
                 h' <- Store.adjust_fields factors (fst copy) names (snd copy) ;;
                 Ok (fst copy, h')) = Raise e
            end).
  { cbn [Store.project Store.read]. rewrite Hl. fold b.
    destruct (select b fields) as [raw | e] eqn:Esel; cbn [bind]; [| reflexivity].
    unfold Store.np_copy. cbn [Store.read]. rewrite Hl. fold b. rewrite Esel.
    cbn [bind Store.alloc fst snd]. unfold Store.names_of. cbn [Store.read].
    rewrite nth_error_snoc. cbn [bind].
    destruct raw as [cols | c]; [| reflexivity].
    cbn [bind]. rewrite adjust_fields_fresh.
    destruct (adjust_fields factors cols (map fst cols)) as [cols' | e]; cbn [bind];
      [| reflexivity].
    exists (Store.Whole (List.length h)), [Store.OArray (Struct cols')].
    split; [reflexivity |]. split; [| now right].
    cbn [Store.read]. now rewrite nth_error_snoc. }
  destruct fields as [| f | fs].
  - exact Hcopy.
  - destruct (str_in f PRICE_FIELDS);
      [| destruct (String.eqb f "volume"); [| exact Hview]];
      (destruct (getitem b f) as [c |]; cbn [bind]; [| reflexivity];
       destruct (col_op _ c factors) as [v |]; cbn [bind]; [apply Halloc | reflexivity]).
  - exact Hcopy.
Qed.

(** C8. When the engine, run over the store, returns, every buffer that
    existed before the call holds what it held (the store has only grown,
    so the slice it was given still reads the same); the array it returns is
    either a view of that slice, with nothing written at all, or the array
    in the one buffer the call allocated, which is where any rewriting
    happened; and the returned array agrees with the selected source rows on
    every field that is neither a price nor the volume. *)
Theorem adjust_bar_never_mutates_source (self : BaseDataSource) (order_book_id : string)
  (bars : Store.pyref) (fields : Fields) (h h' : Store.heap) (r : Store.pyref) :
  Store._adjust_bar self order_book_id bars fields h = Ok (r, h') ->
  exists (b : BarSeries) (raw v : ndarray) (ext : Store.heap),
    h' = h ++ ext /\
    (forall l o, nth_error h l = Some o -> nth_error h' l = Some o) /\
    Store.deref h bars = Ok b /\
    Store.deref h' bars = Ok b /\
    (ext = [] \/ r = Store.Whole (List.length h)) /\
    select b fields = Ok raw /\
    Store.read h' r = Ok v /\
    _adjust_bar self order_book_id b fields = Ok v /\
    keeps_other_fields fields raw v.
Proof.
  intros Hrun.
  destruct (Store.deref h bars) as [b | e] eqn:Hd.
  2: { unfold Store._adjust_bar in Hrun. rewrite Hd in Hrun. discriminate Hrun. }
  pose proof (store_adjust_bar_refines self order_book_id bars fields h b Hd) as Href.
  destruct (_adjust_bar self order_book_id b fields) as [v | e] eqn:Hpure.
  2: { rewrite Href in Hrun. discriminate Hrun. }
  destruct Href as (r1 & ext & Hrun' & Hread & Hfresh).
  rewrite Hrun' in Hrun. injection Hrun as <- <-.
  destruct (adjust_bar_selects self order_book_id b fields v Hpure) as [raw Hsel].
  exists b, raw, v, ext.
  split; [reflexivity |].
  split.
  { intros l o Hl. rewrite nth_error_app1; [assumption |].
    apply nth_error_Some. congruence. }
  split; [reflexivity |].
  split; [now apply deref_grow |].
  split; [exact Hfresh |].
  split; [exact Hsel |].
  split; [exact Hread |].
  split; [exact Hpure |].
  now apply (adjust_bar_keeps self order_book_id b fields raw v).
Qed.

(** ** The membership test against [FIELDS_REQUIRE_ADJUSTMENT] *)

(** C1. [history_bars] for the stock 000001.XSHE, four bars up to
    2020-01-07, field ['total_turnover'] (a valid field that is neither a
    price nor the volume): the window has four rows, the instrument is not
    exempt, and the call raises [TypeError] instead of returning the column,
    because [FIELDS_REQUIRE_ADJUSTMENT] is [None]. *)
Theorem history_bars_pass_through_field_raises :
  history_bars demo_source stock_split 4 "1d" (FStr "total_turnover") 20200107%Z true
  = Raise TypeError /\
  FIELDS_REQUIRE_ADJUSTMENT = None /\
  str_in "total_turnover" (dtype_names demo_bars) = true /\
  str_in "total_turnover" ("volume" :: PRICE_FIELDS) = false /\
  select (window demo_bars 4 20200107%Z) (FStr "total_turnover")
  = Ok (Flat (FloatCol [1000; 1000; 1000; 1000]%float)).
Proof.
  split; [vm_compute; reflexivity |].
  split; [reflexivity |].
  split; [reflexivity |].
  split; [reflexivity |].
  vm_compute; reflexivity.
Qed.

(** C2. [history_bars] for the stock 000001.XSHE with no field selector and
    the reference date 2020-01-01, before every row: the window is empty,
    and the call raises [IndexError] (the engine reads the first date of an
    empty window) instead of returning an empty result. With the field
    ['close'] and the reference date 2020-01-07, the stock 000003.XSHE, which
    has no factor table, raises [TypeError]. *)
Theorem history_bars_empty_window_raises :
  bars_len (window demo_bars 4 20200101%Z) = 0 /\
  history_bars demo_source stock_split 4 "1d" FNone 20200101%Z true = Raise IndexError /\
  _ex_cum_factor demo_source (order_book_id stock_plain) = None /\
  history_bars demo_source stock_plain 4 "1d" (FStr "close") 20200107%Z true
  = Raise TypeError.
Proof.
  split; [vm_compute; reflexivity |].
  split; [vm_compute; reflexivity |].
  split; [reflexivity |].
  vm_compute; reflexivity.
Qed.

(** C5. The stock 000003.XSHE has no factor table, so its factor is constant
    over any window; [history_bars] with the field ['close'], four bars up
    to 2020-01-07, raises [TypeError] instead of returning the raw
    ['close'] column of the window. *)
Theorem history_bars_constant_factor_single_name_raises :
  _ex_cum_factor demo_source (order_book_id stock_plain) = None /\
  history_bars demo_source stock_plain 4 "1d" (FStr "close") 20200107%Z true
  = Raise TypeError /\
  select (window demo_bars 4 20200107%Z) (FStr "close")
  = Ok (Flat (FloatCol [10; 10; 5; 5]%float)).
Proof.
  split; [reflexivity |].
  split; vm_compute; reflexivity.
Qed.

(** C10. The stock 000002.XSHE has factor 1.0 at the dates of the first and
    of the last row of the four-row window up to 2020-01-07 and factor 2.0
    at the second row's date. With no field selector [history_bars] returns
    the window as stored; with the field ['close'] it raises [TypeError]
    instead of returning the raw column. *)
Theorem history_bars_equal_end_factors_single_name_raises :
  _factor_for_date (ft_start_date hump_factors) (ft_ex_cum_factor hump_factors) 20200102%Z
  = Ok 1%float /\
  _factor_for_date (ft_start_date hump_factors) (ft_ex_cum_factor hump_factors) 20200103%Z
  = Ok 2%float /\
  _factor_for_date (ft_start_date hump_factors) (ft_ex_cum_factor hump_factors) 20200107%Z
  = Ok 1%float /\
  history_bars demo_source stock_hump 4 "1d" FNone 20200107%Z true
  = Ok (Some (Struct (to_struct demo_bars))) /\
  history_bars demo_source stock_hump 4 "1d" (FStr "close") 20200107%Z true
  = Raise TypeError.
Proof.
  split; [vm_compute; reflexivity |].
  split; [vm_compute; reflexivity |].
  split; [vm_compute; reflexivity |].
  split; vm_compute; reflexivity.
Qed.

(** ** The theorems at the small data source *)

Lemma get_bar_exact_date_witness :
  get_bar demo_source stock_split 20200103%Z "1d" = Ok (Some (raw_row demo_bars 1)) /\
  get_bar demo_source stock_split 20200104%Z "1d" = Ok None /\
  get_bar demo_source (mkInstrument "CS" "600000.XSHG") 20200103%Z "1d" = Ok None.
Proof.
  split; [| split].
  - destruct (get_bar_exact_date demo_source stock_split 20200103%Z) as [_ H].
    destruct (H demo_bars eq_refl eq_refl eq_refl) as [_ Hfound].
    exact (Hfound 1 eq_refl).
  - destruct (get_bar_exact_date demo_source stock_split 20200104%Z) as [_ H].
    destruct (H demo_bars eq_refl eq_refl eq_refl) as [Hmissing _].
    apply Hmissing. cbn. intros Hin.
    repeat (destruct Hin as [Hin | Hin]; [discriminate Hin |]). exact Hin.
  - destruct (get_bar_exact_date demo_source (mkInstrument "CS" "600000.XSHG") 20200103%Z)
      as [H _].
    exact (H eq_refl).
Defined.

Lemma history_bars_row_count_witness :
  let r := Struct [("close", FloatCol [5; 5; 5]%float);
                   ("volume", FloatCol [200; 200; 200]%float)] in
  let k := rows_upto demo_bars 20200107%Z in
  let m := Z.to_nat (Z.min 3 (Z.of_nat k)) in
  (Z.of_nat (len r) <= 3)%Z /\
  Z.of_nat (len r) = Z.min 3 (Z.of_nat k) /\
  firstn k (datetime demo_bars)
  = filter (fun d => (d <=? 20200107)%Z) (datetime demo_bars) /\
  (select (take_window k m demo_bars) (FList ["close"; "volume"]) = Ok r \/
   _adjust_bar demo_source (order_book_id stock_split) (take_window k m demo_bars)
     (FList ["close"; "volume"]) = Ok r).
Proof.
  apply (history_bars_row_count demo_source stock_split 3 (FList ["close"; "volume"])
           20200107%Z true demo_bars
           (Struct [("close", FloatCol [5; 5; 5]%float);
                    ("volume", FloatCol [200; 200; 200]%float)])).
  - vm_compute; reflexivity.
  - reflexivity.
  - reflexivity.
  - lia.
  - discriminate.
  - vm_compute; reflexivity.
Defined.

Lemma adjust_bar_never_mutates_source_witness :
  let h := [Store.OBars demo_bars] in
  let h' := [Store.OBars demo_bars; Store.OArray (Struct demo_adjusted)] in
  let bars := Store.View 0 0 4 FNone in
  exists (b : BarSeries) (raw v : ndarray) (ext : Store.heap),
    h' = h ++ ext /\
    (forall l o, nth_error h l = Some o -> nth_error h' l = Some o) /\
    Store.deref h bars = Ok b /\
    Store.deref h' bars = Ok b /\
    (ext = [] \/ Store.Whole 1 = Store.Whole (List.length h)) /\
    select b FNone = Ok raw /\
    Store.read h' (Store.Whole 1) = Ok v /\
    _adjust_bar demo_source "000001.XSHE" b FNone = Ok v /\
    keeps_other_fields FNone raw v.
Proof.
  apply (adjust_bar_never_mutates_source demo_source "000001.XSHE"
           (Store.View 0 0 4 FNone) FNone
           [Store.OBars demo_bars]
           [Store.OBars demo_bars; Store.OArray (Struct demo_adjusted)]
           (Store.Whole 1)).
  vm_compute; reflexivity.
Defined.

(** ** Further properties of the read path *)

Lemma ascending_cons (x : Z) (xs : list Z) :
  Forall (fun y => (x < y)%Z) xs -> ascending xs = true -> ascending (x :: xs) = true.
Proof.
  intros HF Hxs. destruct xs as [| y xs]; [reflexivity |].
  cbn. inversion HF as [| ? ? Hxy _]; subst.
  apply andb_true_iff. split; [now apply Z.ltb_lt | exact Hxs].
Qed.

Lemma compress_Forall {A : Type} (P : A -> Prop) (mask : list bool) (xs : list A) :
  Forall P xs -> Forall P (compress mask xs).
Proof.
  intros HF. revert mask. induction HF as [| x xs Hx _ IH]; intros [| m mask]; cbn;
    try constructor.
  destruct m; [constructor; [assumption | apply IH] | apply IH].
Qed.

(** Dropping rows keeps the dates strictly ascending. *)
Lemma compress_ascending (mask : list bool) (xs : list Z) :
  ascending xs = true -> ascending (compress mask xs) = true.
Proof.
  revert mask. induction xs as [| x xs IH]; intros [| m mask] H; try reflexivity.
  cbn [compress]. pose proof (ascending_tail _ _ H) as Ht.
  destruct m; [| now apply IH].
  apply ascending_cons; [| now apply IH].
  apply compress_Forall. now apply ascending_head.
Qed.

Lemma compress_length {A B : Type} (mask : list bool) (xs : list A) (ys : list B) :
  List.length xs = List.length ys ->
  List.length (compress mask xs) = List.length (compress mask ys).
Proof.
  revert xs ys. induction mask as [| m mask IH]; intros [| x xs] [| y ys] H;
    cbn in *; try reflexivity; try discriminate.
  injection H as H. destruct m; cbn; [f_equal |]; now apply IH.
Qed.

(** The series without its zero-volume rows is again strictly ascending and
    well formed. *)
Theorem filtered_day_bars_sound (self : BaseDataSource) (instrument : Instrument)
  (raw : BarSeries) :
  _all_day_bars_of self instrument = Ok (Some raw) ->
  ascending (datetime raw) = true ->
  bars_wf raw = true ->
  str_in "volume" (map fst (columns raw)) = true ->
  exists bars,
    _filtered_day_bars self instrument = Ok (Some bars) /\
    ascending (datetime bars) = true /\
    bars_wf bars = true /\
    incl (datetime bars) (datetime raw).
Proof.
  intros Hraw Hasc Hwf Hvol. unfold _filtered_day_bars. rewrite Hraw. cbn [bind].
  assert (Hget : exists c, getitem raw "volume" = Ok c).
  { unfold getitem. cbn [String.eqb Ascii.eqb Bool.eqb].
    destruct (dict_get (columns raw) "volume") as [xs |] eqn:E; [eauto |].
    exfalso. apply str_in_In in Hvol. revert E.
    induction (columns raw) as [| [g xs] cols IH]; [destruct Hvol |].
    cbn [dict_get]. destruct (String.eqb_spec g "volume") as [-> | Hne]; [discriminate |].
    destruct Hvol as [Hg | Hin]; [cbn in Hg; congruence | now apply IH]. }
  destruct Hget as [c Hc]. rewrite Hc. cbn [bind]. eexists. split; [reflexivity |].
  split; [now apply compress_ascending |]. split.
  - unfold bars_wf. apply forallb_forall. intros nc Hin.
    cbn [columns bars_compress] in Hin. apply in_map_iff in Hin.
    destruct Hin as (nc0 & <- & Hin0). cbn [snd]. apply Nat.eqb_eq.
    unfold bars_len. cbn [datetime bars_compress]. apply compress_length.
    exact (bars_wf_column raw nc0 Hwf Hin0).
  - cbn [datetime bars_compress]. intros d Hd.
    pose proof (compress_Forall (fun y => In y (datetime raw)) (col_gt0 c) (datetime raw)
                  ltac:(apply Forall_forall; auto)) as HF.
    rewrite Forall_forall in HF. now apply HF.
Qed.

Lemma filtered_day_bars_sound_witness :
  exists bars,
    _filtered_day_bars market stock_halted = Ok (Some bars) /\
    ascending (datetime bars) = true /\
    bars_wf bars = true /\
    incl (datetime bars) (datetime halted_bars).
Proof.
  apply (filtered_day_bars_sound market stock_halted halted_bars); reflexivity.
Defined.

(** For ascending breakpoints with one factor each, and a date at or after
    breakpoint [j] and before breakpoint [j + 1] (if there is one), the
    lookup yields the factor of breakpoint [j]: from the first breakpoint on
    it is the right-continuous step function, and from the last breakpoint
    on it is the last factor. *)
Theorem factor_for_date_right_continuous (dates : list Z) (factors : list float)
  (d : Z) (j : nat) :
  ascending dates = true ->
  List.length factors = List.length dates ->
  j < List.length dates ->
  (nth j dates 0 <= d)%Z ->
  (forall k, j < k -> k < List.length dates -> (d < nth k dates 0)%Z) ->
  _factor_for_date dates factors d = Ok (nth j factors 0%float).
Proof. intros Hasc Hlen. exact (factor_for_date_step dates factors Hasc Hlen d j). Qed.

Lemma factor_for_date_right_continuous_witness :
  _factor_for_date [20200105; 20200110]%Z [2; 1]%float 20200107%Z = Ok 2%float.
Proof.
  apply (factor_for_date_right_continuous [20200105; 20200110]%Z [2; 1]%float
           20200107%Z 0).
  - reflexivity.
  - reflexivity.
  - cbn. lia.
  - cbn. lia.
  - intros [| [| k]] Hj Hk; cbn in *; lia.
Defined.

Lemma factor_for_date_before_first_witness :
  _factor_for_date [20200105; 20200110]%Z [2; 1]%float 20200101%Z = Ok 1%float.
Proof.
  apply (factor_for_date_before_first [20200105; 20200110]%Z [2; 1]%float
           eq_refl eq_refl 20200101%Z).
  - discriminate.
  - cbn. lia.
Defined.

Lemma history_bars_single_name_raises_witness :
  history_bars demo_source stock_split 4 "1d" (FStr "close") 20200107%Z false
  = Raise TypeError.
Proof.
  apply (history_bars_single_name_raises demo_source stock_split 4 "close"
           20200107%Z false demo_bars).
  - reflexivity.
  - reflexivity.
  - reflexivity.
  - lia.
  - vm_compute. discriminate.
Defined.

(** A daily [history_bars] call returns [None] when the selected series is
    missing and when the field selector is not valid for the series. *)
Theorem history_bars_no_data_none (self : BaseDataSource) (instrument : Instrument)
  (bar_count : Z) (fields : Fields) (dt : Z) (skip_suspended : bool) :
  ((if skip_suspended && String.eqb (type instrument) "CS"
    then _filtered_day_bars self instrument
    else _all_day_bars_of self instrument) = Ok None ->
   history_bars self instrument bar_count "1d" fields dt skip_suspended = Ok None) /\
  (forall bars,
      (if skip_suspended && String.eqb (type instrument) "CS"
       then _filtered_day_bars self instrument
       else _all_day_bars_of self instrument) = Ok (Some bars) ->
      _are_fields_valid fields (dtype_names bars) = false ->
      history_bars self instrument bar_count "1d" fields dt skip_suspended = Ok None).
Proof.
  split.
  - intros H. unfold history_bars. cbn [String.eqb Ascii.eqb Bool.eqb negb].
    now rewrite H.
  - intros bars H Hinvalid. unfold history_bars.
    cbn [String.eqb Ascii.eqb Bool.eqb negb]. rewrite H. cbn [bind].
    now rewrite Hinvalid.
Qed.

Lemma history_bars_no_data_none_witness :
  history_bars demo_source (mkInstrument "CS" "600000.XSHG") 4 "1d" FNone 20200107%Z true
  = Ok None /\
  history_bars demo_source stock_split 4 "1d" (FStr "settlement") 20200107%Z true
  = Ok None.
Proof.
  split.
  - exact (proj1 (history_bars_no_data_none demo_source (mkInstrument "CS" "600000.XSHG")
                    4 FNone 20200107%Z true) eq_refl).
  - exact (proj2 (history_bars_no_data_none demo_source stock_split 4 (FStr "settlement")
                    20200107%Z true) demo_bars eq_refl eq_refl).
Defined.



(** * More of the read path *)

(** ** Point lookups *)

Lemma get_bar_at (self : BaseDataSource) (instrument : Instrument) (dt : Z)
  (bars : BarSeries) (pos : nat) :
  _all_day_bars_of self instrument = Ok (Some bars) ->
  ascending (datetime bars) = true ->
  bars_wf bars = true ->
  nth_error (datetime bars) pos = Some dt ->
  get_bar self instrument dt "1d" = Ok (Some (raw_row bars pos)).
Proof.
  intros H Hasc Hwf Hnth. unfold get_bar. cbn [String.eqb Ascii.eqb Bool.eqb negb].
  rewrite H. cbn [bind].
  rewrite (searchsorted_left_found _ _ _ Hasc Hnth).
  assert (Hpos : pos < bars_len bars) by (apply nth_error_Some; congruence).
  replace (bars_len bars <=? pos) with false by (symmetry; apply Nat.leb_gt; lia).
  rewrite (py_index_nonneg _ _ _ Hnth). cbn [bind].
  rewrite Z.eqb_refl. cbn [negb].
  rewrite (bars_row_raw bars pos Hwf Hpos). reflexivity.
Qed.

Lemma get_bar_absent (self : BaseDataSource) (instrument : Instrument) (dt : Z)
  (bars : BarSeries) :
  _all_day_bars_of self instrument = Ok (Some bars) ->
  ~ In dt (datetime bars) ->
  get_bar self instrument dt "1d" = Ok None.
Proof.
  intros H Hnot. unfold get_bar. cbn [String.eqb Ascii.eqb Bool.eqb negb].
  rewrite H. cbn [bind].
  set (p := searchsorted (datetime bars) dt left).
  destruct (bars_len bars <=? p) eqn:E; [reflexivity |].
  apply Nat.leb_gt in E. unfold bars_len in E.
  rewrite (py_index_nth (datetime bars) p 0%Z E). cbn [bind].
  destruct (Z.eqb_spec (nth p (datetime bars) 0%Z) dt) as [Heq | Hne]; [| reflexivity].
  exfalso. apply Hnot. rewrite <- Heq. now apply nth_In.
Qed.

Lemma searchsorted_le_length (a : list Z) (v : Z) (s : side) :
  searchsorted a v s <= List.length a.
Proof.
  unfold searchsorted.
  match goal with
  | |- binsearch ?below _ _ _ <= _ =>
      pose proof (binsearch_bounds below (List.length a) 0 (List.length a) (Nat.le_0_l _))
  end.
  lia.
Qed.

(** Whatever the order of the rows of a well-formed series, a daily
    [get_bar] does not raise, and a bar it returns is a row of the series
    whose date is exactly [dt]. *)
Theorem get_bar_returns_row_dated_dt (self : BaseDataSource) (instrument : Instrument)
  (dt : Z) (bars : BarSeries) :
  _all_day_bars_of self instrument = Ok (Some bars) ->
  bars_wf bars = true ->
  exists r,
    get_bar self instrument dt "1d" = Ok r /\
    forall bar, r = Some bar ->
                exists pos, nth_error (datetime bars) pos = Some dt /\ bar = raw_row bars pos.
Proof.
  intros H Hwf. unfold get_bar. cbn [String.eqb Ascii.eqb Bool.eqb negb].
  rewrite H. cbn [bind].
  set (p := searchsorted (datetime bars) dt left).
  destruct (bars_len bars <=? p) eqn:E.
  - exists None. split; [reflexivity | discriminate].
  - apply Nat.leb_gt in E.
    rewrite (py_index_nth (datetime bars) p 0%Z E). cbn [bind].
    destruct (Z.eqb_spec (nth p (datetime bars) 0%Z) dt) as [Heq | Hne]; cbn [negb].
    + rewrite (bars_row_raw bars p Hwf E). cbn [bind].
      exists (Some (raw_row bars p)). split; [reflexivity |].
      intros bar Hbar. injection Hbar as <-. exists p. split; [| reflexivity].
      rewrite <- Heq. now apply nth_error_nth'.
    + exists None. split; [reflexivity | discriminate].
Qed.

Lemma get_bar_returns_row_dated_dt_witness :
  exists r,
    get_bar market stock_halted 20200103%Z "1d" = Ok r /\
    forall bar, r = Some bar ->
                exists pos, nth_error (datetime halted_bars) pos = Some 20200103%Z /\
                            bar = raw_row halted_bars pos.
Proof.
  apply (get_bar_returns_row_dated_dt market stock_halted 20200103%Z halted_bars);
    reflexivity.
Defined.

Lemma dict_get_map {V W : Type} (g : V -> W) (d : list (string * V)) (k : string) :
  dict_get (map (fun c => (fst c, g (snd c))) d) k = option_map g (dict_get d k).
Proof.
  induction d as [| [k' v] d IH]; cbn; [reflexivity |].
  destruct (String.eqb k' k); [reflexivity | exact IH].
Qed.

(** [get_settle_price] on a strictly ascending, well-formed series: NaN when
    the instrument has no series or no row dated exactly [date]; the stored
    settlement of the row dated [date] when the series has a settlement
    field; and [ValueError] when there is such a row but no settlement
    field. *)
Theorem get_settle_price_cases (self : BaseDataSource) (instrument : Instrument)
  (date : Z) :
  (_all_day_bars_of self instrument = Ok None ->
   get_settle_price self instrument date = Ok (SFloat PrimFloat.nan)) /\
  (forall bars,
      _all_day_bars_of self instrument = Ok (Some bars) ->
      ascending (datetime bars) = true ->
      bars_wf bars = true ->
      (~ In date (datetime bars) ->
       get_settle_price self instrument date = Ok (SFloat PrimFloat.nan)) /\
      (forall pos,
          nth_error (datetime bars) pos = Some date ->
          get_settle_price self instrument date
          = match dict_get (columns bars) "settlement" with
            | Some xs => Ok (SFloat (nth pos xs 0%float))
            | None => Raise ValueError
            end)).
Proof.
  split.
  - intros H. unfold get_settle_price, get_bar.
    cbn [String.eqb Ascii.eqb Bool.eqb negb]. rewrite H. reflexivity.
  - intros bars H Hasc Hwf. split.
    + intros Hnot. unfold get_settle_price.
      rewrite (get_bar_absent self instrument date bars H Hnot). reflexivity.
    + intros pos Hnth. unfold get_settle_price.
      rewrite (get_bar_at self instrument date bars pos H Hasc Hwf Hnth). cbn [bind].
      unfold bar_getitem, raw_row. cbn [String.eqb Ascii.eqb Bool.eqb bar_fields].
      rewrite (dict_get_map (fun xs => nth pos xs 0%float)).
      destruct (dict_get (columns bars) "settlement"); reflexivity.
Qed.

Lemma get_settle_price_cases_witness :
  get_settle_price market future_if 20200103%Z = Ok (SFloat 3008%float) /\
  get_settle_price market future_if 20200104%Z = Ok (SFloat PrimFloat.nan) /\
  get_settle_price market (mkInstrument "Future" "IF2006") 20200103%Z
  = Ok (SFloat PrimFloat.nan) /\
  get_settle_price market stock_halted 20200103%Z = Raise ValueError.
Proof.
  split; [| split; [| split]].
  - destruct (get_settle_price_cases market future_if 20200103%Z) as [_ H].
    destruct (H future_bars eq_refl eq_refl eq_refl) as [_ Hat].
    exact (Hat 1 eq_refl).
  - destruct (get_settle_price_cases market future_if 20200104%Z) as [_ H].
    destruct (H future_bars eq_refl eq_refl eq_refl) as [Hmissing _].
    apply Hmissing. cbn. intros Hin.
    repeat (destruct Hin as [Hin | Hin]; [discriminate Hin |]). exact Hin.
  - destruct (get_settle_price_cases market (mkInstrument "Future" "IF2006") 20200103%Z)
      as [H _].
    exact (H eq_refl).
  - destruct (get_settle_price_cases market stock_halted 20200103%Z) as [_ H].
    destruct (H halted_bars eq_refl eq_refl eq_refl) as [_ Hat].
    exact (Hat 1 eq_refl).
Defined.

(** ** Field selectors *)

Lemma dict_get_present {V : Type} (d : list (string * V)) (k : string) :
  In k (map fst d) -> exists v, dict_get d k = Some v.
Proof.
  induction d as [| [k' v] d IH]; cbn; [tauto |].
  intros [-> | Hin].
  - rewrite String.eqb_refl. eauto.
  - destruct (String.eqb k' k); [eauto | now apply IH].
Qed.

Lemma getitem_ok_iff (bars : BarSeries) (f : string) :
  (exists c, getitem bars f = Ok c) <-> str_in f (dtype_names bars) = true.
Proof.
  rewrite str_in_In. unfold getitem, dtype_names. cbn [In].
  destruct (String.eqb_spec f "datetime") as [-> | Hne].
  - split; [now left | eauto].
  - split.
    + intros [c H]. right.
      destruct (dict_get (columns bars) f) as [xs |] eqn:E; [| discriminate].
      apply dict_get_In in E. apply (in_map fst) in E. exact E.
    + intros [Heq | Hin]; [congruence |].
      destruct (dict_get_present _ _ Hin) as [xs ->]. eauto.
Qed.

Lemma getitem_fields_ok_iff (bars : BarSeries) (fs : list string) :
  (exists cols, mapM (fun f => c <- getitem bars f ;; Ok (f, c)) fs = Ok cols)
  <-> forallb (fun field => str_in field (dtype_names bars)) fs = true.
Proof.
  induction fs as [| f fs IH]; cbn [mapM forallb].
  - split; eauto.
  - rewrite andb_true_iff, <- IH, <- getitem_ok_iff. split.
    + intros [cols H].
      destruct (getitem bars f) as [c |]; cbn [bind] in H; [| discriminate].
      destruct (mapM _ fs) as [rest |]; cbn [bind] in H; [| discriminate].
      eauto.
    + intros [[c Hc] [rest Hrest]]. rewrite Hc. cbn [bind]. rewrite Hrest. cbn [bind]. eauto.
Qed.

Lemma select_ok_iff (bars : BarSeries) (fields : Fields) :
  selector_ok fields = true ->
  ((exists r, select bars fields = Ok r)
   <-> _are_fields_valid fields (dtype_names bars) = true).
Proof.
  intros Hok. destruct fields as [| f | fs]; cbn [select _are_fields_valid].
  - split; eauto.
  - rewrite <- getitem_ok_iff. split.
    + intros [r H]. destruct (getitem bars f) as [c |]; [eauto | discriminate].
    + intros [c ->]. cbn [bind]. eauto.
  - destruct fs as [| f fs]; [discriminate Hok |].
    cbn [selector_ok] in Hok. unfold getitem_fields. rewrite Hok.
    rewrite <- getitem_fields_ok_iff. split.
    + intros [r H]. destruct (mapM _ (f :: fs)) as [cols |]; [eauto | discriminate].
    + intros [cols ->]. cbn [bind]. eauto.
Qed.

Lemma dtype_names_slice (bars : BarSeries) (lo hi : Z) :
  dtype_names (bars_slice bars lo hi) = dtype_names bars.
Proof. unfold dtype_names, bars_slice. cbn [columns]. now rewrite map_map. Qed.

(** For a selector numpy can index with (one name, or a non-empty list
    without repeated names, or none), [_are_fields_valid] against the names
    of a series holds exactly when indexing any slice of the series with the
    selector succeeds: validating once, before the window is cut, is
    enough. *)
Theorem valid_fields_index_every_slice (bars : BarSeries) (fields : Fields) (lo hi : Z) :
  selector_ok fields = true ->
  (_are_fields_valid fields (dtype_names bars) = true
   <-> exists r, select (bars_slice bars lo hi) fields = Ok r).
Proof.
  intros Hok. rewrite (select_ok_iff (bars_slice bars lo hi) fields Hok).
  now rewrite dtype_names_slice.
Qed.

Lemma valid_fields_index_every_slice_witness :
  (_are_fields_valid (FList ["close"; "datetime"]) (dtype_names demo_bars) = true
   <-> exists r, select (bars_slice demo_bars 1 3) (FList ["close"; "datetime"]) = Ok r) /\
  (_are_fields_valid (FStr "settlement") (dtype_names demo_bars) = true
   <-> exists r, select (bars_slice demo_bars 1 3) (FStr "settlement") = Ok r).
Proof.
  split.
  - apply (valid_fields_index_every_slice demo_bars (FList ["close"; "datetime"]) 1 3).
    reflexivity.
  - apply (valid_fields_index_every_slice demo_bars (FStr "settlement") 1 3).
    reflexivity.
Defined.

(** ** Windows that are never adjusted *)

(** For a Future or an INDX instrument, and for any instrument when the
    window has exactly one row, a daily [history_bars] call with a valid
    selector and a [bar_count] that is not negative returns the window as
    selected: the factor store is not consulted, and a single field name
    works. *)
Theorem history_bars_exempt_or_one_row_raw (self : BaseDataSource)
  (instrument : Instrument) (bar_count : Z) (fields : Fields) (dt : Z)
  (skip_suspended : bool) (bars : BarSeries) :
  (if skip_suspended && String.eqb (type instrument) "CS"
   then _filtered_day_bars self instrument
   else _all_day_bars_of self instrument) = Ok (Some bars) ->
  _are_fields_valid fields (dtype_names bars) = true ->
  selector_ok fields = true ->
  (0 <= bar_count)%Z ->
  str_in (type instrument) ["Future"; "INDX"] = true
  \/ bars_len (window bars bar_count dt) = 1 ->
  exists r,
    select (window bars bar_count dt) fields = Ok r /\
    history_bars self instrument bar_count "1d" fields dt skip_suspended = Ok (Some r).
Proof.
  intros Hsel Hvalid Hok Hn Hraw.
  rewrite (history_bars_unfold _ _ _ _ _ _ _ Hsel Hvalid (count_in_range _ Hn)). cbv zeta.
  assert (Hbranch : str_in (type instrument) ["Future"; "INDX"]
                    || (bars_len (window bars bar_count dt) =? 1) = true).
  { apply orb_true_iff. destruct Hraw as [H | H]; [now left | right].
    now apply Nat.eqb_eq. }
  rewrite Hbranch.
  assert (Hnames : dtype_names (window bars bar_count dt) = dtype_names bars)
    by (unfold window; cbv zeta; apply dtype_names_slice).
  rewrite <- Hnames in Hvalid.
  destruct (proj2 (select_ok_iff _ fields Hok) Hvalid) as [r Hr].
  exists r. split; [exact Hr |]. now rewrite Hr.
Qed.

Lemma history_bars_exempt_or_one_row_raw_witness :
  (exists r,
     select (window demo_bars 4 20200107) (FStr "close") = Ok r /\
     history_bars market index_sh 4 "1d" (FStr "close") 20200107 true = Ok (Some r)) /\
  (exists r,
     select (window halted_bars 1 20200106) (FStr "volume") = Ok r /\
     history_bars market stock_halted 1 "1d" (FStr "volume") 20200106 true = Ok (Some r)).
Proof.
  split.
  - apply (history_bars_exempt_or_one_row_raw market index_sh 4 (FStr "close") 20200107 true demo_bars);
      [reflexivity | reflexivity | reflexivity | lia | left; reflexivity].
  - apply (history_bars_exempt_or_one_row_raw market stock_halted 1 (FStr "volume") 20200106 true
             (bars_compress halted_bars [true; false; true]));
      [reflexivity | reflexivity | reflexivity | lia | right; reflexivity].
Defined.

(** ** What is checked first *)

Lemma all_day_bars_unknown_type (self : BaseDataSource) (instrument : Instrument) :
  ~ In (type instrument) (map fst INSTRUMENT_TYPE_MAP) ->
  _all_day_bars_of self instrument = Raise KeyError.
Proof.
  intros H. unfold _all_day_bars_of, _index_of, dict_getitem.
  now rewrite (dict_get_absent _ _ H).
Qed.

(** The frequency is checked before anything is read: with a frequency
    other than ['1d'], [get_bar] and [history_bars] raise
    [NotImplementedError] whatever the instrument. With the daily frequency,
    a category tag outside the type map makes [get_bar], [history_bars] and
    [get_settle_price] raise [KeyError]: the [None] and NaN answers stand
    for missing data only, not for an unknown category. *)
Theorem read_path_error_precedence (self : BaseDataSource) (instrument : Instrument)
  (bar_count : Z) (frequency : string) (fields : Fields) (dt : Z) (skip_suspended : bool) :
  (frequency <> "1d" ->
   get_bar self instrument dt frequency = Raise NotImplementedError /\
   history_bars self instrument bar_count frequency fields dt skip_suspended
   = Raise NotImplementedError) /\
  (~ In (type instrument)
       ["CS"; "INDX"; "Future"; "ETF"; "LOF"; "FenjiA"; "FenjiB"; "FenjiMu"] ->
   get_bar self instrument dt "1d" = Raise KeyError /\
   history_bars self instrument bar_count "1d" fields dt skip_suspended = Raise KeyError /\
   get_settle_price self instrument dt = Raise KeyError).
Proof.
  split.
  - intros Hfreq. apply String.eqb_neq in Hfreq.
    unfold get_bar, history_bars. rewrite Hfreq. split; reflexivity.
  - intros Htype.
    pose proof (all_day_bars_unknown_type self instrument Htype) as Hall.
    assert (Hcs : String.eqb (type instrument) "CS" = false).
    { apply String.eqb_neq. intros Heq. apply Htype. rewrite Heq. now left. }
    assert (Hget : get_bar self instrument dt "1d" = Raise KeyError).
    { unfold get_bar. cbn [String.eqb Ascii.eqb Bool.eqb negb]. now rewrite Hall. }
    split; [exact Hget |]. split.
    + unfold history_bars. cbn [String.eqb Ascii.eqb Bool.eqb negb].
      rewrite Hcs, andb_false_r, Hall. reflexivity.
    + unfold get_settle_price. now rewrite Hget.
Qed.

Lemma read_path_error_precedence_witness :
  (get_bar market (mkInstrument "Option" "IF2003") 20200103 "1m" = Raise NotImplementedError /\
   history_bars market (mkInstrument "Option" "IF2003") 2 "1m" FNone 20200103 true
   = Raise NotImplementedError) /\
  (get_bar market (mkInstrument "Option" "IF2003") 20200103 "1d" = Raise KeyError /\
   history_bars market (mkInstrument "Option" "IF2003") 2 "1d" FNone 20200103 true
   = Raise KeyError /\
   get_settle_price market (mkInstrument "Option" "IF2003") 20200103 = Raise KeyError).
Proof.
  pose proof (read_path_error_precedence market (mkInstrument "Option" "IF2003") 2 "1m"
                FNone 20200103 true) as [Hfreq Htype].
  split.
  - apply Hfreq. discriminate.
  - apply Htype. cbn. intros H.
    repeat (destruct H as [H | H]; [discriminate H |]). exact H.
Defined.

(** ** The dates a window carries *)

Lemma skipn_In {A : Type} (n : nat) (l : list A) (x : A) :
  In x (skipn n l) -> In x l.
Proof.
  intros H. rewrite <- (firstn_skipn n l). apply in_or_app. now right.
Qed.

Lemma firstn_In {A : Type} (n : nat) (l : list A) (x : A) :
  In x (firstn n l) -> In x l.
Proof.
  intros H. rewrite <- (firstn_skipn n l). apply in_or_app. now left.
Qed.

Lemma py_slice_0_0 {A : Type} (xs : list A) : py_slice xs 0 0 = [].
Proof.
  unfold py_slice, slice_bound. cbn [Z.ltb Z.compare].
  rewrite Z.min_l by lia. reflexivity.
Qed.

(** The window holds rows of the series dated at or before [dt] only. *)
Lemma window_dates (bars : BarSeries) (bar_count dt : Z) :
  ascending (datetime bars) = true ->
  Forall (fun d => (d <= dt)%Z /\ In d (datetime bars))
         (datetime (window bars bar_count dt)).
Proof.
  intros Hasc. apply Forall_forall. intros d Hd.
  unfold window, bars_slice in Hd. cbn [datetime] in Hd.
  destruct (searchsorted_right_spec (datetime bars) dt Hasc) as (Hp & Ht & _).
  set (p := searchsorted (datetime bars) dt right) in *.
  unfold py_slice in Hd. apply skipn_In in Hd.
  assert (Hb : Z.to_nat (slice_bound (Z.of_nat (List.length (datetime bars))) (Z.of_nat p)) = p).
  { unfold slice_bound.
    replace (Z.of_nat p <? 0)%Z with false by (symmetry; apply Z.ltb_ge; lia).
    rewrite Z.min_l by lia. apply Nat2Z.id. }
  rewrite Hb in Hd. split; [| now apply firstn_In in Hd].
  apply (In_nth _ _ 0%Z) in Hd. destruct Hd as (j & Hj & <-).
  rewrite length_firstn in Hj. rewrite nth_firstn.
  replace (j <? p) with true by (symmetry; apply Nat.ltb_lt; lia).
  apply Ht. lia.
Qed.

Lemma getitem_fields_dates (bars : BarSeries) (fs : list string)
  (cols : list (string * column)) :
  mapM (fun f => c <- getitem bars f ;; Ok (f, c)) fs = Ok cols ->
  dict_get cols "datetime"
  = if str_in "datetime" fs then Some (IntCol (datetime bars)) else None.
Proof.
  revert cols. induction fs as [| f fs IH]; intros cols; cbn [mapM].
  - intros H. injection H as <-. reflexivity.
  - destruct (getitem bars f) as [c |] eqn:Ec; cbn [bind]; [| discriminate].
    destruct (mapM _ fs) as [rest |]; cbn [bind]; [| discriminate].
    intros H. injection H as <-. cbn [dict_get str_in existsb].
    rewrite (String.eqb_sym "datetime" f).
    destruct (String.eqb_spec f "datetime") as [-> | Hne].
    + cbn [orb]. unfold getitem in Ec. cbn [String.eqb Ascii.eqb Bool.eqb] in Ec.
      congruence.
    + cbn [orb]. now apply IH.
Qed.

Lemma select_dates (bars : BarSeries) (fields : Fields) (r : ndarray) :
  select bars fields = Ok r ->
  returned_dates r = if selects_datetime fields then datetime bars else [].
Proof.
  destruct fields as [| f | fs]; cbn [select selects_datetime].
  - intros H. injection H as <-. reflexivity.
  - unfold getitem. destruct (String.eqb f "datetime"); cbn [bind].
    + intros H. injection H as <-. reflexivity.
    + destruct (dict_get (columns bars) f); cbn [bind]; [| discriminate].
      intros H. injection H as <-. reflexivity.
  - destruct fs as [| f fs].
    + cbn. intros H. injection H as <-. cbn. rewrite py_slice_0_0. reflexivity.
    + unfold getitem_fields. destruct (nodupb (f :: fs)); cbn [bind]; [| discriminate].
      destruct (mapM _ (f :: fs)) as [cols |] eqn:E; cbn [bind]; [| discriminate].
      intros H. injection H as <-. cbn [returned_dates].
      rewrite (getitem_fields_dates bars (f :: fs) cols E).
      destruct (str_in "datetime" (f :: fs)); reflexivity.
Qed.

Lemma keeps_dict_get (cols cols' : list (string * column)) (k : string) :
  Forall2 keeps cols cols' ->
  str_in k PRICE_FIELDS = false -> String.eqb k "volume" = false ->
  dict_get cols' k = dict_get cols k.
Proof.
  intros H Hp Hv. induction H as [| [g c] [g' c'] cols cols' [Hname Hval] _ IH];
    [reflexivity |].
  cbn [fst snd] in Hname, Hval. subst g'. cbn [dict_get].
  destruct (String.eqb_spec g k) as [-> | Hne]; [| exact IH].
  now rewrite (Hval Hp Hv).
Qed.

(** The adjustment leaves the dates of the selection alone. *)
Lemma adjust_bar_dates (self : BaseDataSource) (order_book_id : string)
  (bars : BarSeries) (fields : Fields) (raw v : ndarray) :
  select bars fields = Ok raw ->
  _adjust_bar self order_book_id bars fields = Ok v ->
  returned_dates v = returned_dates raw.
Proof.
  intros Hsel Hadj.
  pose proof (adjust_bar_keeps self order_book_id bars fields raw v Hsel Hadj) as Hk.
  destruct raw as [cols | c], v as [cols' | c']; cbn [keeps_other_fields] in Hk;
    try contradiction.
  - cbn [returned_dates]. now rewrite (keeps_dict_get cols cols' "datetime" Hk).
  - destruct fields as [| f | fs]; try (now subst c').
    destruct (str_in f PRICE_FIELDS) eqn:Ep;
      [| destruct (String.eqb f "volume") eqn:Ev; [| now rewrite (Hk eq_refl eq_refl)]].
    + assert (Hf : String.eqb f "datetime" = false).
      { destruct (String.eqb_spec f "datetime") as [-> | Hne]; [discriminate Ep | reflexivity]. }
      assert (Hc : exists xs, c = FloatCol xs).
      { cbn [select] in Hsel. unfold getitem in Hsel. rewrite Hf in Hsel.
        destruct (dict_get (columns bars) f) as [xs |]; cbn [bind] in Hsel; [| discriminate].
        injection Hsel as <-. eauto. }
      destruct Hc as [xs ->]. cbn [returned_dates].
      revert Hadj. unfold _adjust_bar.
      assert (Hsame : select bars (FStr f) = Ok (Flat c') -> returned_dates (Flat c') = []).
      { rewrite Hsel. intros H. injection H as <-. reflexivity. }
      destruct (_ex_cum_factor self order_book_id) as [tbl |]; [| exact Hsame].
      destruct (py_index (datetime bars) 0) as [start_date |]; cbn [bind]; [| discriminate].
      destruct (py_index (datetime bars) (-1)) as [end_date |]; cbn [bind]; [| discriminate].
      destruct (_factor_for_date _ _ start_date) as [f_start |]; cbn [bind]; [| discriminate].
      destruct (_factor_for_date _ _ end_date) as [f_end |]; cbn [bind]; [| discriminate].
      destruct (PrimFloat.eqb f_start f_end); [exact Hsame |].
      destruct (mapM _ (datetime bars)) as [steps |]; cbn [bind]; [| discriminate].
      destruct (py_index steps (-1)) as [last_factor |]; cbn [bind]; [| discriminate].
      rewrite Ep. destruct (getitem bars f); cbn [bind]; [| discriminate].
      unfold col_op. destruct (broadcast _ _ _); cbn [bind]; [| discriminate].
      intros H. injection H as <-. reflexivity.
    + assert (Hf : String.eqb f "datetime" = false).
      { destruct (String.eqb_spec f "datetime") as [-> | Hne]; [discriminate Ev | reflexivity]. }
      assert (Hc : exists xs, c = FloatCol xs).
      { cbn [select] in Hsel. unfold getitem in Hsel. rewrite Hf in Hsel.
        destruct (dict_get (columns bars) f) as [xs |]; cbn [bind] in Hsel; [| discriminate].
        injection Hsel as <-. eauto. }
      destruct Hc as [xs ->]. cbn [returned_dates].
      revert Hadj. unfold _adjust_bar.
      assert (Hsame : select bars (FStr f) = Ok (Flat c') -> returned_dates (Flat c') = []).
      { rewrite Hsel. intros H. injection H as <-. reflexivity. }
      destruct (_ex_cum_factor self order_book_id) as [tbl |]; [| exact Hsame].
      destruct (py_index (datetime bars) 0) as [start_date |]; cbn [bind]; [| discriminate].
      destruct (py_index (datetime bars) (-1)) as [end_date |]; cbn [bind]; [| discriminate].
      destruct (_factor_for_date _ _ start_date) as [f_start |]; cbn [bind]; [| discriminate].
      destruct (_factor_for_date _ _ end_date) as [f_end |]; cbn [bind]; [| discriminate].
      destruct (PrimFloat.eqb f_start f_end); [exact Hsame |].
      destruct (mapM _ (datetime bars)) as [steps |]; cbn [bind]; [| discriminate].
      destruct (py_index steps (-1)) as [last_factor |]; cbn [bind]; [| discriminate].
      rewrite Ep, Ev. destruct (getitem bars f); cbn [bind]; [| discriminate].
      unfold col_op. destruct (broadcast _ _ _); cbn [bind]; [| discriminate].
      intros H. injection H as <-. reflexivity.
Qed.

Lemma history_bars_dates (self : BaseDataSource) (instrument : Instrument)
  (bar_count : Z) (fields : Fields) (dt : Z) (skip_suspended : bool)
  (bars : BarSeries) (r : ndarray) :
  (if skip_suspended && String.eqb (type instrument) "CS"
   then _filtered_day_bars self instrument
   else _all_day_bars_of self instrument) = Ok (Some bars) ->
  history_bars self instrument bar_count "1d" fields dt skip_suspended = Ok (Some r) ->
  returned_dates r
  = if selects_datetime fields then datetime (window bars bar_count dt) else [].
Proof.
  intros Hsel Hcall.
  destruct (_are_fields_valid fields (dtype_names bars)) eqn:Hvalid.
  2: { unfold history_bars in Hcall. cbn [String.eqb Ascii.eqb Bool.eqb negb] in Hcall.
       rewrite Hsel in Hcall. cbn [bind] in Hcall. rewrite Hvalid in Hcall.
       discriminate Hcall. }
  pose proof (history_bars_returns_range _ _ _ _ _ _ _ _ Hsel Hvalid Hcall) as Hrange.
  rewrite (history_bars_unfold _ _ _ _ _ _ _ Hsel Hvalid Hrange) in Hcall. cbv zeta in Hcall.
  set (w := window bars bar_count dt) in *.
  assert (Hraw : (r0 <- select w fields ;; Ok (Some r0)) = Ok (Some r) ->
                 returned_dates r = if selects_datetime fields then datetime w else []).
  { destruct (select w fields) as [r0 |] eqn:E; cbn [bind]; [| discriminate].
    intros H. injection H as <-. now apply select_dates. }
  destruct (str_in (type instrument) ["Future"; "INDX"] || (bars_len w =? 1));
    [now apply Hraw |].
  destruct (match fields with
            | FStr f => b <- py_in f FIELDS_REQUIRE_ADJUSTMENT ;; Ok (negb b)
            | _ => Ok false
            end) as [[|] |]; cbn [bind] in Hcall; [now apply Hraw | | discriminate].
  destruct (_adjust_bar self (order_book_id instrument) w fields) as [v |] eqn:E;
    cbn [bind] in Hcall; [| discriminate].
  injection Hcall as <-.
  destruct (adjust_bar_selects _ _ _ _ _ E) as [raw Hraw'].
  rewrite (adjust_bar_dates _ _ _ _ _ _ Hraw' E). now apply select_dates.
Qed.

(** Whatever a daily [history_bars] call returns, for any [bar_count], the
    dates it carries are the dates of the window when the selector asks for
    ['datetime'] (and none otherwise), adjusted or not; on an ascending
    series each of them is a date of the selected series at or before [dt]:
    a query never shows a bar from after [dt]. *)
Theorem history_bars_no_look_ahead (self : BaseDataSource) (instrument : Instrument)
  (bar_count : Z) (fields : Fields) (dt : Z) (skip_suspended : bool)
  (bars : BarSeries) (r : ndarray) :
  (if skip_suspended && String.eqb (type instrument) "CS"
   then _filtered_day_bars self instrument
   else _all_day_bars_of self instrument) = Ok (Some bars) ->
  ascending (datetime bars) = true ->
  history_bars self instrument bar_count "1d" fields dt skip_suspended = Ok (Some r) ->
  returned_dates r
  = (if selects_datetime fields then datetime (window bars bar_count dt) else []) /\
  Forall (fun d => (d <= dt)%Z /\ In d (datetime bars)) (returned_dates r).
Proof.
  intros Hsel Hasc Hcall.
  pose proof (history_bars_dates _ _ _ _ _ _ _ _ Hsel Hcall) as Hdates.
  split; [exact Hdates |]. rewrite Hdates.
  destruct (selects_datetime fields); [| constructor].
  now apply window_dates.
Qed.

Lemma history_bars_no_look_ahead_witness :
  (returned_dates (Struct [("datetime", IntCol [20200102; 20200103; 20200106]%Z);
                           ("close", FloatCol [5; 5; 5]%float)])
   = (if selects_datetime (FList ["datetime"; "close"])
      then datetime (window demo_bars 3 20200106) else []) /\
   Forall (fun d => (d <= 20200106)%Z /\ In d (datetime demo_bars))
          (returned_dates (Struct [("datetime", IntCol [20200102; 20200103; 20200106]%Z);
                                   ("close", FloatCol [5; 5; 5]%float)]))) /\
  (returned_dates (Struct [("datetime", IntCol [20200102; 20200103]%Z);
                           ("close", FloatCol [10; 10]%float)])
   = (if selects_datetime (FList ["datetime"; "close"])
      then datetime (window demo_bars (-9223372036854775808) 20200103) else []) /\
   Forall (fun d => (d <= 20200103)%Z /\ In d (datetime demo_bars))
          (returned_dates (Struct [("datetime", IntCol [20200102; 20200103]%Z);
                                   ("close", FloatCol [10; 10]%float)]))).
Proof.
  split.
  - apply (history_bars_no_look_ahead demo_source stock_split 3 (FList ["datetime"; "close"])
             20200106 true demo_bars); reflexivity.
  - apply (history_bars_no_look_ahead demo_source index_sh (-9223372036854775808)
             (FList ["datetime"; "close"]) 20200103 true demo_bars); reflexivity.
Defined.

(** ** A window of one bar *)

Lemma searchsorted_right_found (a : list Z) (v : Z) (pos : nat) :
  ascending a = true -> nth_error a pos = Some v -> searchsorted a v right = S pos.
Proof.
  intros Hasc Hnth.
  assert (Hpos : pos < List.length a) by (apply nth_error_Some; congruence).
  assert (Hv : nth pos a 0%Z = v) by now apply nth_error_nth.
  destruct (searchsorted_right_spec a v Hasc) as (Hp & Ht & Hf).
  set (p := searchsorted a v right) in *.
  destruct (Nat.lt_trichotomy p (S pos)) as [Hlt | [Heq | Hgt]]; [| assumption |].
  - specialize (Hf pos ltac:(lia) Hpos). lia.
  - specialize (Ht (S pos) Hgt).
    pose proof (ascending_nth a pos (S pos) Hasc ltac:(lia) ltac:(lia)). lia.
Qed.

Lemma tail_rows_one {A : Type} (xs : list A) (pos : nat) (d : A) :
  pos < List.length xs -> tail_rows 1 (firstn (S pos) xs) = [nth pos xs d].
Proof.
  intros Hpos. unfold tail_rows. rewrite length_firstn, Nat.min_l by lia.
  replace (S pos - 1) with pos by lia.
  revert xs Hpos. induction pos as [| pos IH]; intros [| x xs] Hpos; cbn in Hpos; try lia.
  - reflexivity.
  - cbn [nth]. rewrite <- (IH xs) by lia. reflexivity.
Qed.

Lemma one_row_window (bars : BarSeries) (dt : Z) (pos : nat) :
  ascending (datetime bars) = true -> bars_wf bars = true ->
  nth_error (datetime bars) pos = Some dt ->
  to_struct (window bars 1 dt) = row_struct (raw_row bars pos).
Proof.
  intros Hasc Hwf Hnth.
  assert (Hpos : pos < bars_len bars) by (apply nth_error_Some; congruence).
  rewrite (window_rows bars 1 dt Hasc Hwf) by lia.
  rewrite <- (searchsorted_right_count bars dt Hasc).
  rewrite (searchsorted_right_found _ _ _ Hasc Hnth).
  replace (Z.to_nat (Z.min 1 (Z.of_nat (S pos)))) with 1 by lia.
  unfold to_struct, row_struct, take_window, raw_row.
  cbn [datetime columns bar_datetime bar_fields].
  rewrite (tail_rows_one (datetime bars) pos 0%Z Hpos). f_equal.
  rewrite !map_map. apply map_ext_in. intros c Hin. cbn [fst snd].
  rewrite (tail_rows_one (snd c) pos 0%float); [reflexivity |].
  now rewrite (bars_wf_column bars c Hwf Hin).
Qed.

(** Asking for one bar at a date the series has is the same as [get_bar]:
    when the unfiltered series is selected and row [pos] is dated [dt],
    [get_bar] answers a record and [history_bars] with [bar_count = 1] and
    no field selector answers that record as an array of one row, with the
    stored values even when the instrument has a factor table. *)
Theorem history_bars_one_bar_is_get_bar (self : BaseDataSource) (instrument : Instrument)
  (dt : Z) (skip_suspended : bool) (bars : BarSeries) (pos : nat) :
  skip_suspended && String.eqb (type instrument) "CS" = false ->
  _all_day_bars_of self instrument = Ok (Some bars) ->
  ascending (datetime bars) = true ->
  bars_wf bars = true ->
  nth_error (datetime bars) pos = Some dt ->
  exists bar,
    get_bar self instrument dt "1d" = Ok (Some bar) /\
    bar_datetime bar = dt /\
    history_bars self instrument 1 "1d" FNone dt skip_suspended
    = Ok (Some (Struct (row_struct bar))).
Proof.
  intros Hskip Hbars Hasc Hwf Hnth. exists (raw_row bars pos).
  split; [now apply get_bar_at |]. split.
  - cbn [raw_row bar_datetime]. now apply nth_error_nth.
  - assert (Hsel : (if skip_suspended && String.eqb (type instrument) "CS"
                    then _filtered_day_bars self instrument
                    else _all_day_bars_of self instrument) = Ok (Some bars))
      by now rewrite Hskip.
    rewrite (history_bars_unfold self instrument 1 FNone dt skip_suspended bars Hsel eq_refl
               (count_in_range 1 ltac:(lia))).
    cbv zeta.
    assert (Hone : bars_len (window bars 1 dt) = 1).
    { exact (f_equal (fun cols => len (Struct cols))
                     (one_row_window bars dt pos Hasc Hwf Hnth)). }
    rewrite Hone. cbn [Nat.eqb]. rewrite orb_true_r. cbn [select bind].
    now rewrite (one_row_window bars dt pos Hasc Hwf Hnth).
Qed.

Lemma history_bars_one_bar_is_get_bar_witness :
  exists bar,
    get_bar market stock_halted 20200106 "1d" = Ok (Some bar) /\
    bar_datetime bar = 20200106%Z /\
    history_bars market stock_halted 1 "1d" FNone 20200106 false
    = Ok (Some (Struct (row_struct bar))).
Proof.
  apply (history_bars_one_bar_is_get_bar market stock_halted 20200106 false halted_bars 2);
    reflexivity.
Defined.

(** ** The series without suspended days *)

Lemma compress_combine {A B : Type} (p : B -> bool) (xs : list A) (ys : list B) :
  compress (map p ys) xs
  = map fst (filter (fun xy => p (snd xy)) (combine xs ys)).
Proof.
  revert xs. induction ys as [| y ys IH]; intros [| x xs]; cbn; try reflexivity.
  destruct (p y); cbn; [f_equal |]; apply IH.
Qed.

Lemma compress_all {A B : Type} (p : B -> bool) (xs : list A) (ys : list B) :
  forallb p ys = true -> List.length xs = List.length ys ->
  compress (map p ys) xs = xs.
Proof.
  revert xs. induction ys as [| y ys IH]; intros [| x xs] Hall Hlen; cbn in *;
    try reflexivity; try discriminate.
  apply andb_true_iff in Hall. destruct Hall as [Hy Hall]. rewrite Hy.
  f_equal. apply IH; [assumption | congruence].
Qed.

Lemma filter_seq_shift (f : nat -> bool) (n : nat) :
  filter f (seq 1 n) = map S (filter (fun i => f (S i)) (seq 0 n)).
Proof.
  rewrite <- seq_shift. induction (seq 0 n) as [| i l IH]; cbn; [reflexivity |].
  destruct (f (S i)); cbn; now rewrite IH.
Qed.

(** A mask computed from one column picks, in every column of the same
    length, the values at the positions where it holds. *)
Lemma compress_positions {A B : Type} (p : B -> bool) (xs : list A) (ys : list B)
  (dx : A) (dy : B) :
  List.length xs = List.length ys ->
  compress (map p ys) xs
  = map (fun i => nth i xs dx) (filter (fun i => p (nth i ys dy)) (seq 0 (List.length ys))).
Proof.
  revert xs. induction ys as [| y ys IH]; intros [| x xs] Hlen; cbn in Hlen;
    try discriminate; [reflexivity |].
  injection Hlen as Hlen. cbn [map compress List.length seq filter nth].
  rewrite (filter_seq_shift (fun i => p (nth i (y :: ys) dy))). cbn [nth].
  destruct (p y); cbn [map]; rewrite map_map; cbn [nth]; now rewrite <- (IH xs Hlen).
Qed.

Lemma nth_map_in_range {A B : Type} (f : A -> B) (l : list A) (k : nat) (da : A) (db : B) :
  k < List.length l -> nth k (map f l) db = f (nth k l da).
Proof.
  intros H. rewrite (nth_indep (map f l) db (f da)) by now rewrite length_map.
  apply map_nth.
Qed.

(** [_filtered_day_bars] answers [None] for a missing series and raises
    [ValueError] on a series without a ['volume'] field. On a well-formed
    series with volumes [vol] it keeps the rows whose volume is greater
    than zero, whole and in order: the result has the fields of the series
    and one row for each position of [traded_rows vol], and row [k] of the
    result is the stored row at position [k] of [traded_rows vol], field by
    field (a zero, negative or NaN volume drops the row). A series whose
    volumes are all positive comes back unchanged. *)
Theorem filtered_day_bars_traded_rows (self : BaseDataSource) (instrument : Instrument) :
  (_all_day_bars_of self instrument = Ok None ->
   _filtered_day_bars self instrument = Ok None) /\
  (forall raw,
      _all_day_bars_of self instrument = Ok (Some raw) ->
      dict_get (columns raw) "volume" = None ->
      _filtered_day_bars self instrument = Raise ValueError) /\
  (forall raw vol,
      _all_day_bars_of self instrument = Ok (Some raw) ->
      bars_wf raw = true ->
      dict_get (columns raw) "volume" = Some vol ->
      exists bars,
        _filtered_day_bars self instrument = Ok (Some bars) /\
        dtype_names bars = dtype_names raw /\
        bars_wf bars = true /\
        bars_len bars = List.length (traded_rows vol) /\
        (forall k, k < List.length (traded_rows vol) ->
                   raw_row bars k = raw_row raw (nth k (traded_rows vol) 0)) /\
        (forallb (PrimFloat.ltb 0) vol = true -> bars = raw)).
Proof.
  unfold _filtered_day_bars. split; [| split].
  - intros H. now rewrite H.
  - intros raw H Hvol. rewrite H. cbn [bind]. unfold getitem.
    cbn [String.eqb Ascii.eqb Bool.eqb]. now rewrite Hvol.
  - intros raw vol H Hwf Hvol. rewrite H. cbn [bind]. unfold getitem.
    cbn [String.eqb Ascii.eqb Bool.eqb]. rewrite Hvol. cbn [bind col_gt0].
    assert (Hlen : List.length vol = bars_len raw).
    { apply dict_get_In in Hvol. exact (bars_wf_column raw ("volume", vol) Hwf Hvol). }
    set (mask := map (fun x => PrimFloat.ltb 0 x) vol).
    assert (Hdates : compress mask (datetime raw)
                     = map (fun i => nth i (datetime raw) 0%Z) (traded_rows vol)).
    { apply (compress_positions (fun x => PrimFloat.ltb 0 x)). now rewrite Hlen. }
    assert (Hcols : forall c, In c (columns raw) ->
                    compress mask (snd c)
                    = map (fun i => nth i (snd c) 0%float) (traded_rows vol)).
    { intros c Hin. apply (compress_positions (fun x => PrimFloat.ltb 0 x)).
      now rewrite (bars_wf_column raw c Hwf Hin). }
    eexists. split; [reflexivity |]. split; [| split; [| split; [| split]]].
    + unfold dtype_names, bars_compress. cbn [columns]. now rewrite map_map.
    + unfold bars_wf. apply forallb_forall. intros nc Hin.
      cbn [columns bars_compress] in Hin. apply in_map_iff in Hin.
      destruct Hin as (nc0 & <- & Hin0). cbn [snd]. apply Nat.eqb_eq.
      unfold bars_len. cbn [datetime bars_compress]. apply compress_length.
      exact (bars_wf_column raw nc0 Hwf Hin0).
    + unfold bars_len. cbn [bars_compress datetime]. now rewrite Hdates, length_map.
    + intros k Hk. unfold raw_row, bars_compress. cbn [datetime columns]. f_equal.
      * rewrite Hdates.
        exact (nth_map_in_range (fun i => nth i (datetime raw) 0%Z) _ k 0 0%Z Hk).
      * rewrite map_map. apply map_ext_in. intros c Hin. cbn [fst snd]. f_equal.
        rewrite (Hcols c Hin).
        exact (nth_map_in_range (fun i => nth i (snd c) 0%float) _ k 0 0%float Hk).
    + intros Hall.
      destruct raw as [dates cols]. unfold bars_compress. cbn [datetime columns] in *.
      f_equal.
      * apply (compress_all (PrimFloat.ltb 0)); [assumption | now rewrite Hlen].
      * rewrite <- (map_id cols) at 2. apply map_ext_in. intros [g xs] Hin. cbn [fst snd].
        f_equal. apply (compress_all (PrimFloat.ltb 0)); [assumption |].
        rewrite Hlen. exact (bars_wf_column (mkBars dates cols) (g, xs) Hwf Hin).
Qed.

Lemma filtered_day_bars_traded_rows_witness :
  traded_rows [100; 0; 120]%float = [0; 2] /\
  exists bars,
    _filtered_day_bars market stock_halted = Ok (Some bars) /\
    dtype_names bars = dtype_names halted_bars /\
    bars_wf bars = true /\
    bars_len bars = List.length (traded_rows [100; 0; 120]%float) /\
    (forall k, k < List.length (traded_rows [100; 0; 120]%float) ->
               raw_row bars k = raw_row halted_bars (nth k (traded_rows [100; 0; 120]%float) 0)) /\
    (forallb (PrimFloat.ltb 0) [100; 0; 120]%float = true -> bars = halted_bars).
Proof.
  split; [reflexivity |].
  apply (proj2 (proj2 (filtered_day_bars_traded_rows market stock_halted)) halted_bars);
    reflexivity.
Defined.

(** ** Windows without rows *)







(** ** The factor lookup *)

Lemma py_index_In {A : Type} (xs : list A) (i : Z) (x : A) :
  py_index xs i = Ok x -> In x xs.
Proof.
  unfold py_index. destruct (_ && _)%bool; [| discriminate].
  destruct (nth_error xs _) as [y |] eqn:E; [| discriminate].
  intros H. injection H as <-. now apply nth_error_In in E.
Qed.

Lemma py_index_in_range {A : Type} (xs : list A) (i : Z) :
  (- Z.of_nat (List.length xs) <= i < Z.of_nat (List.length xs))%Z ->
  exists x, py_index xs i = Ok x.
Proof.
  intros H. unfold py_index.
  set (j := if (i <? 0)%Z then (i + Z.of_nat (List.length xs))%Z else i).
  assert (Hj : (0 <= j < Z.of_nat (List.length xs))%Z).
  { unfold j. destruct (i <? 0)%Z eqn:E; [apply Z.ltb_lt in E | apply Z.ltb_ge in E]; lia. }
  replace ((0 <=? j) && (j <? Z.of_nat (List.length xs)))%Z with true
    by (symmetry; apply andb_true_iff; split; [apply Z.leb_le | apply Z.ltb_lt]; lia).
  destruct (nth_error xs (Z.to_nat j)) as [x |] eqn:E; [eauto |].
  apply nth_error_None in E. lia.
Qed.

Lemma py_index_nil {A : Type} (i : Z) : py_index (@nil A) i = Raise IndexError.
Proof.
  unfold py_index. cbn [List.length Z.of_nat].
  destruct (i <? 0)%Z eqn:E.
  - replace ((0 <=? i + 0) && (i + 0 <? 0))%Z with false; [reflexivity |].
    symmetry. apply andb_false_iff. left. apply Z.leb_gt. apply Z.ltb_lt in E. lia.
  - replace ((0 <=? i) && (i <? 0))%Z with false; [reflexivity |].
    symmetry. apply andb_false_iff. right. exact E.
Qed.

(** On a table without breakpoints [_factor_for_date] raises [IndexError].
    On a table with at least one breakpoint and one factor for each it never
    raises, whatever the date and whether or not the breakpoints are sorted,
    and what it yields is one of the factors of the table. *)
Theorem factor_for_date_yields_table_factor (dates : list Z) (factors : list float)
  (d : Z) :
  (dates = [] -> _factor_for_date dates factors d = Raise IndexError) /\
  (dates <> [] -> List.length factors = List.length dates ->
   exists x, _factor_for_date dates factors d = Ok x /\ In x factors).
Proof.
  split.
  - intros ->. unfold _factor_for_date. now rewrite py_index_nil.
  - intros Hne Hlen. unfold _factor_for_date.
    rewrite (py_index_minus1 dates 0%Z Hne). cbn [bind].
    assert (Hpos : 0 < List.length dates) by (destruct dates; cbn; [congruence | lia]).
    pose proof (searchsorted_le_length dates d right) as Hp.
    set (i := if (d >? last dates 0)%Z then (-1)%Z
              else (Z.of_nat (searchsorted dates d right) - 1)%Z).
    assert (Hi : exists x, py_index factors i = Ok x).
    { apply py_index_in_range. unfold i. destruct (d >? last dates 0)%Z; lia. }
    destruct Hi as [x Hx]. exists x. unfold i in Hx.
    destruct (d >? last dates 0)%Z; (split; [exact Hx | exact (py_index_In _ _ _ Hx)]).
Qed.

Lemma factor_for_date_yields_table_factor_witness :
  (exists x, _factor_for_date [20200110; 20200105]%Z [1; 2]%float 20200107 = Ok x
             /\ In x [1; 2]%float).
Proof.
  apply (proj2 (factor_for_date_yields_table_factor [20200110; 20200105]%Z [1; 2]%float
                  20200107)); [discriminate | reflexivity].
Defined.

(** ** The fields of the result *)

Lemma getitem_fields_names (bars : BarSeries) (fs : list string)
  (cols : list (string * column)) :
  mapM (fun f => c <- getitem bars f ;; Ok (f, c)) fs = Ok cols -> map fst cols = fs.
Proof.
  revert cols. induction fs as [| f fs IH]; intros cols; cbn [mapM].
  - intros H. injection H as <-. reflexivity.
  - destruct (getitem bars f) as [c |]; cbn [bind]; [| discriminate].
    destruct (mapM _ fs) as [rest |]; cbn [bind]; [| discriminate].
    intros H. injection H as <-. cbn [map fst]. f_equal. now apply IH.
Qed.

Lemma select_picks (bars : BarSeries) (fields : Fields) (r : ndarray) :
  selector_ok fields = true -> select bars fields = Ok r -> picks bars fields r.
Proof.
  intros Hok. destruct fields as [| f | fs]; cbn [select picks].
  - intros H. injection H as <-. eexists. split; [reflexivity |].
    unfold to_struct, dtype_names. cbn [map fst]. now rewrite map_map.
  - destruct (getitem bars f) as [c |]; cbn [bind]; [| discriminate].
    intros H. injection H as <-. eauto.
  - destruct fs as [| f fs]; [discriminate Hok |].
    unfold getitem_fields. destruct (nodupb (f :: fs)); cbn [bind]; [| discriminate].
    destruct (mapM _ (f :: fs)) as [cols |] eqn:E; cbn [bind]; [| discriminate].
    intros H. injection H as <-. eexists. split; [reflexivity |].
    now apply getitem_fields_names in E.
Qed.

Lemma keeps_names (cols cols' : list (string * column)) :
  Forall2 keeps cols cols' -> map fst cols' = map fst cols.
Proof.
  induction 1 as [| nc nc' cols cols' [Hname _] _ IH]; [reflexivity |].
  cbn [map]. now rewrite Hname, IH.
Qed.

Lemma adjust_bar_picks (self : BaseDataSource) (order_book_id : string)
  (bars : BarSeries) (fields : Fields) (v : ndarray) :
  selector_ok fields = true ->
  _adjust_bar self order_book_id bars fields = Ok v -> picks bars fields v.
Proof.
  intros Hok Hadj.
  destruct (adjust_bar_selects _ _ _ _ _ Hadj) as [raw Hraw].
  pose proof (select_picks bars fields raw Hok Hraw) as Hp.
  pose proof (adjust_bar_keeps _ _ _ _ _ _ Hraw Hadj) as Hk.
  destruct fields as [| f | fs]; cbn [picks] in *.
  - destruct Hp as (cols & -> & Hn). destruct v as [cols' | c']; [| contradiction].
    exists cols'. split; [reflexivity |]. cbn in Hk. now rewrite (keeps_names _ _ Hk).
  - destruct Hp as (c & ->). destruct v as [cols' | c']; [contradiction | eauto].
  - destruct Hp as (cols & -> & Hn). destruct v as [cols' | c']; [| contradiction].
    exists cols'. split; [reflexivity |]. cbn in Hk. now rewrite (keeps_names _ _ Hk).
Qed.

(** A daily [history_bars] call that returns an array returns the fields
    that were asked for, adjusted or not: every field of the selected
    series for no selector, the listed fields in the listed order for a
    list of distinct names, a one-dimensional array for one name. *)
Theorem history_bars_returns_requested_fields (self : BaseDataSource)
  (instrument : Instrument) (bar_count : Z) (fields : Fields) (dt : Z)
  (skip_suspended : bool) (bars : BarSeries) (r : ndarray) :
  (if skip_suspended && String.eqb (type instrument) "CS"
   then _filtered_day_bars self instrument
   else _all_day_bars_of self instrument) = Ok (Some bars) ->
  selector_ok fields = true ->
  history_bars self instrument bar_count "1d" fields dt skip_suspended = Ok (Some r) ->
  picks bars fields r.
Proof.
  intros Hsel Hok Hcall.
  destruct (_are_fields_valid fields (dtype_names bars)) eqn:Hvalid.
  2: { unfold history_bars in Hcall. cbn [String.eqb Ascii.eqb Bool.eqb negb] in Hcall.
       rewrite Hsel in Hcall. cbn [bind] in Hcall. rewrite Hvalid in Hcall.
       discriminate Hcall. }
  pose proof (history_bars_returns_range _ _ _ _ _ _ _ _ Hsel Hvalid Hcall) as Hrange.
  rewrite (history_bars_unfold _ _ _ _ _ _ _ Hsel Hvalid Hrange) in Hcall. cbv zeta in Hcall.
  set (w := window bars bar_count dt) in *.
  assert (Hw : forall v, picks w fields v -> picks bars fields v).
  { intros v. unfold picks, w, window. cbv zeta. now rewrite dtype_names_slice. }
  apply Hw.
  assert (Hraw : (r0 <- select w fields ;; Ok (Some r0)) = Ok (Some r) -> picks w fields r).
  { destruct (select w fields) as [r0 |] eqn:E; cbn [bind]; [| discriminate].
    intros H. injection H as <-. now apply select_picks. }
  destruct (str_in (type instrument) ["Future"; "INDX"] || (bars_len w =? 1));
    [now apply Hraw |].
  destruct (match fields with
            | FStr f => b <- py_in f FIELDS_REQUIRE_ADJUSTMENT ;; Ok (negb b)
            | _ => Ok false
            end) as [[|] |]; cbn [bind] in Hcall; [now apply Hraw | | discriminate].
  destruct (_adjust_bar self (order_book_id instrument) w fields) as [v |] eqn:E;
    cbn [bind] in Hcall; [| discriminate].
  injection Hcall as <-. now apply (adjust_bar_picks _ _ _ _ _ Hok E).
Qed.

Lemma history_bars_returns_requested_fields_witness :
  picks demo_bars (FList ["close"; "datetime"; "volume"])
    (Struct [("close", FloatCol [5; 5; 5]%float);
             ("datetime", IntCol [20200102; 20200103; 20200106]%Z);
             ("volume", FloatCol [200; 200; 200]%float)]).
Proof.
  apply (history_bars_returns_requested_fields demo_source stock_split 3
           (FList ["close"; "datetime"; "volume"]) 20200106 true demo_bars);
    reflexivity.
Defined.

(** ** Suspended days *)

Lemma In_combine_nth {A B : Type} (xs : list A) (ys : list B) (x : A) (y : B) :
  In (x, y) (combine xs ys) ->
  exists i, nth_error xs i = Some x /\ nth_error ys i = Some y.
Proof.
  revert ys. induction xs as [| x0 xs IH]; intros [| y0 ys]; cbn; try tauto.
  intros [H | H].
  - injection H as -> ->. now exists 0.
  - destruct (IH ys H) as (i & Hx & Hy). now exists (S i).
Qed.

(** [skip_suspended] matters for CS instruments only: for any other
    category the call is the same with and without it. For a CS instrument
    with the flag set, every date a returned array carries is the date of a
    stored row at or before [dt] whose volume is greater than zero. *)
Theorem history_bars_skip_suspended (self : BaseDataSource) (instrument : Instrument)
  (bar_count : Z) (fields : Fields) (dt : Z) :
  (type instrument <> "CS" ->
   history_bars self instrument bar_count "1d" fields dt true
   = history_bars self instrument bar_count "1d" fields dt false) /\
  (forall raw vol r,
      type instrument = "CS" ->
      _all_day_bars_of self instrument = Ok (Some raw) ->
      ascending (datetime raw) = true ->
      dict_get (columns raw) "volume" = Some vol ->
      history_bars self instrument bar_count "1d" fields dt true = Ok (Some r) ->
      Forall (fun d => (d <= dt)%Z /\
                       exists i v, nth_error (datetime raw) i = Some d /\
                                   nth_error vol i = Some v /\
                                   PrimFloat.ltb 0 v = true)
             (returned_dates r)).
Proof.
  split.
  - intros Hne. apply String.eqb_neq in Hne. unfold history_bars. now rewrite Hne.
  - intros raw vol r Hcs Hraw Hasc Hvol Hcall.
    set (bars := bars_compress raw (map (fun x => PrimFloat.ltb 0 x) vol)).
    assert (Hsel : (if true && String.eqb (type instrument) "CS"
                    then _filtered_day_bars self instrument
                    else _all_day_bars_of self instrument) = Ok (Some bars)).
    { rewrite Hcs. cbn [andb String.eqb Ascii.eqb Bool.eqb].
      unfold _filtered_day_bars. rewrite Hraw. cbn [bind]. unfold getitem.
      cbn [String.eqb Ascii.eqb Bool.eqb]. rewrite Hvol. reflexivity. }
    assert (Hasc' : ascending (datetime bars) = true)
      by (unfold bars; cbn [bars_compress datetime]; now apply compress_ascending).
    rewrite (history_bars_dates _ _ _ _ _ _ _ _ Hsel Hcall).
    destruct (selects_datetime fields); [| constructor].
    pose proof (window_dates bars bar_count dt Hasc') as HF.
    apply Forall_forall. intros d Hd. rewrite Forall_forall in HF.
    destruct (HF d Hd) as [Hle Hin]. split; [exact Hle |].
    unfold bars in Hin. cbn [bars_compress datetime] in Hin.
    rewrite (compress_combine (fun x => PrimFloat.ltb 0 x)) in Hin.
    apply in_map_iff in Hin. destruct Hin as ([d' v] & Hfst & Hin).
    cbn [fst] in Hfst. subst d'. apply filter_In in Hin. destruct Hin as [Hin Hpos].
    cbn [snd] in Hpos. destruct (In_combine_nth _ _ _ _ Hin) as (i & Hd' & Hv).
    exists i, v. auto.
Qed.

Lemma history_bars_skip_suspended_witness :
  Forall (fun d => (d <= 20200106)%Z /\
                   exists i v, nth_error (datetime halted_bars) i = Some d /\
                               nth_error [100; 0; 120]%float i = Some v /\
                               PrimFloat.ltb 0 v = true)
         (returned_dates (Struct [("datetime", IntCol [20200102; 20200106]%Z);
                                  ("close", FloatCol [5; 11]%float);
                                  ("volume", FloatCol [200; 120]%float)])).
Proof.
  apply (proj2 (history_bars_skip_suspended market stock_halted 2 FNone 20200106)
           halted_bars [100; 0; 120]%float); reflexivity.
Defined.

(** ** Asking for more bars *)

Lemma tail_rows_suffix {A : Type} (m m' : nat) (xs : list A) :
  m <= m' ->
  exists older,
    tail_rows m' xs = older ++ tail_rows m xs /\ List.length older <= m' - m.
Proof.
  intros Hm. unfold tail_rows.
  set (a' := List.length xs - m'). set (a := List.length xs - m).
  exists (firstn (a - a') (skipn a' xs)). split.
  - replace (skipn a xs) with (skipn (a - a') (skipn a' xs)).
    + symmetry. apply firstn_skipn.
    + rewrite skipn_skipn. f_equal. unfold a, a'. lia.
  - rewrite length_firstn. unfold a, a'. lia.
Qed.

Lemma window_dates_tail (bars : BarSeries) (bar_count dt : Z) :
  (0 <= bar_count)%Z ->
  datetime (window bars bar_count dt)
  = tail_rows (Z.to_nat (Z.min bar_count (Z.of_nat (searchsorted (datetime bars) dt right))))
      (firstn (searchsorted (datetime bars) dt right) (datetime bars)).
Proof.
  intros Hn. unfold window, bars_slice. cbn [datetime].
  rewrite (window_left_count _ _ Hn).
  apply slice_tail_rows; [apply searchsorted_le_length | assumption].
Qed.

(** Asking for more bars only reaches further back: for [0 <= n <= n'],
    when the calls with [bar_count = n] and with [bar_count = n'] both
    return an array and the selector asks for ['datetime'], the dates of the
    longer answer end with the dates of the shorter one, preceded by at most
    [n' - n] older dates. *)
Theorem history_bars_more_bars_reach_back (self : BaseDataSource)
  (instrument : Instrument) (n n' : Z) (fields : Fields) (dt : Z)
  (skip_suspended : bool) (bars : BarSeries) (r r' : ndarray) :
  (if skip_suspended && String.eqb (type instrument) "CS"
   then _filtered_day_bars self instrument
   else _all_day_bars_of self instrument) = Ok (Some bars) ->
  selects_datetime fields = true ->
  (0 <= n <= n')%Z ->
  history_bars self instrument n "1d" fields dt skip_suspended = Ok (Some r) ->
  history_bars self instrument n' "1d" fields dt skip_suspended = Ok (Some r') ->
  exists older,
    returned_dates r' = older ++ returned_dates r /\
    (Z.of_nat (List.length older) <= n' - n)%Z.
Proof.
  intros Hsel Hdt Hn Hr Hr'.
  rewrite (history_bars_dates _ _ _ _ _ _ _ _ Hsel Hr).
  rewrite (history_bars_dates _ _ _ _ _ _ _ _ Hsel Hr').
  rewrite Hdt, !window_dates_tail by lia.
  set (i := searchsorted (datetime bars) dt right).
  destruct (tail_rows_suffix (Z.to_nat (Z.min n (Z.of_nat i)))
              (Z.to_nat (Z.min n' (Z.of_nat i))) (firstn i (datetime bars)) ltac:(lia))
    as (older & Heq & Hlen).
  exists older. split; [exact Heq | lia].
Qed.

Lemma history_bars_more_bars_reach_back_witness :
  exists older,
    returned_dates (Struct [("datetime", IntCol [20200102; 20200103; 20200106]%Z);
                            ("close", FloatCol [5; 5; 5]%float)])
    = older ++ returned_dates (Struct [("datetime", IntCol [20200106]%Z);
                                       ("close", FloatCol [5]%float)]) /\
    (Z.of_nat (List.length older) <= 3 - 1)%Z.
Proof.
  apply (history_bars_more_bars_reach_back demo_source stock_split 1 3
           (FList ["datetime"; "close"]) 20200106 true demo_bars);
    [reflexivity | reflexivity | lia | reflexivity | reflexivity].
Defined.

(** ** The query over the store *)

(** What the engine over the store hands back: the view of the slice it
    was given, with the store as it was, or the array in the one buffer it
    added to the store. *)
Lemma store_adjust_bar_alias (self : BaseDataSource) (order_book_id : string)
  (l : nat) (lo hi : Z) (fields : Fields) (h h' : Store.heap) (r : Store.pyref) :
  Store._adjust_bar self order_book_id (Store.View l lo hi FNone) fields h = Ok (r, h') ->
  (r = Store.View l lo hi fields /\ h' = h)
  \/ (r = Store.Whole (List.length h) /\ exists a, h' = h ++ [Store.OArray a]).
Proof.
  unfold Store._adjust_bar.
  destruct (Store.deref h (Store.View l lo hi FNone)) as [b |]; cbn [bind]; [| discriminate].
  assert (Hview : (r0 <- Store.project h (Store.View l lo hi FNone) fields ;; Ok (r0, h))
                  = Ok (r, h') ->
                  (r = Store.View l lo hi fields /\ h' = h)
                  \/ (r = Store.Whole (List.length h) /\ exists a, h' = h ++ [Store.OArray a])).
  { cbn [Store.project].
    destruct (Store.read h (Store.View l lo hi fields)); cbn [bind]; [| discriminate].
    intros H. injection H as <- <-. now left. }
  assert (Halloc : forall v, Ok (Store.alloc h v) = Ok (r, h') ->
                  (r = Store.View l lo hi fields /\ h' = h)
                  \/ (r = Store.Whole (List.length h) /\ exists a, h' = h ++ [Store.OArray a])).
  { intros v H. unfold Store.alloc in H. injection H as <- <-. right. eauto. }
  destruct (_ex_cum_factor self order_book_id) as [tbl |]; [| exact Hview].
  destruct (py_index (datetime b) 0) as [start_date |]; cbn [bind]; [| discriminate].
  destruct (py_index (datetime b) (-1)) as [end_date |]; cbn [bind]; [| discriminate].
  destruct (_factor_for_date _ _ start_date) as [f_start |]; cbn [bind]; [| discriminate].
  destruct (_factor_for_date _ _ end_date) as [f_end |]; cbn [bind]; [| discriminate].
  destruct (PrimFloat.eqb f_start f_end); [exact Hview |].
  destruct (mapM _ (datetime b)) as [steps |]; cbn [bind]; [| discriminate].
  destruct (py_index steps (-1)) as [last_factor |]; cbn [bind]; [| discriminate].
  set (factors := map (fun x => PrimFloat.div x last_factor) steps).
  assert (Hloop : (src <- Store.project h (Store.View l lo hi FNone) fields ;;
                   copy <- Store.np_copy h src ;;
                   names <- Store.names_of (snd copy) (fst copy) ;;
                   h'0 <- Store.adjust_fields factors (fst copy) names (snd copy) ;;
                   Ok (fst copy, h'0)) = Ok (r, h') ->
                  (r = Store.View l lo hi fields /\ h' = h)
                  \/ (r = Store.Whole (List.length h) /\ exists a, h' = h ++ [Store.OArray a])).
  { destruct (Store.project h (Store.View l lo hi FNone) fields) as [src |];
      cbn [bind]; [| discriminate].
    unfold Store.np_copy. destruct (Store.read h src) as [v |]; cbn [bind]; [| discriminate].
    unfold Store.alloc. cbn [fst snd]. unfold Store.names_of. cbn [Store.read].
    rewrite nth_error_snoc. cbn [bind].
    destruct v as [cols | c]; [| discriminate]. cbn [bind].
    rewrite adjust_fields_fresh.
    destruct (adjust_fields factors cols (map fst cols)) as [cols' |]; cbn [bind];
      [| discriminate].
    intros H. injection H as <- <-. right. eauto. }
  destruct fields as [| f | fs]; [exact Hloop | | exact Hloop].
  destruct (str_in f PRICE_FIELDS).
  - destruct (getitem b f); cbn [bind]; [| discriminate].
    destruct (col_op _ _ _) as [v |]; cbn [bind]; [apply Halloc | discriminate].
  - destruct (String.eqb f "volume"); [| exact Hview].
    destruct (getitem b f); cbn [bind]; [| discriminate].
    destruct (col_op _ _ _) as [v |]; cbn [bind]; [apply Halloc | discriminate].
Qed.

(** The query over the store computes what [history_bars] computes and
    never writes to a buffer that was there before: with the selected series
    in buffer [l], it raises when [history_bars] raises and answers [None]
    when [history_bars] does; otherwise the store has grown by at most one
    buffer and the array handed back reads as the value of [history_bars].
    That array is either a view of buffer [l], the cached series itself,
    with nothing allocated (always so for a Future or an INDX instrument),
    or the array in the one new buffer. *)
Theorem store_history_bars_agrees (self : BaseDataSource) (instrument : Instrument)
  (bar_count : Z) (fields : Fields) (dt : Z) (skip_suspended : bool)
  (bars : BarSeries) (l : nat) (h : Store.heap) :
  (if skip_suspended && String.eqb (type instrument) "CS"
   then _filtered_day_bars self instrument
   else _all_day_bars_of self instrument) = Ok (Some bars) ->
  nth_error h l = Some (Store.OBars bars) ->
  match history_bars self instrument bar_count "1d" fields dt skip_suspended with
  | Ok None => store_history_bars self instrument bar_count fields dt l h = Ok (None, h)
  | Ok (Some v) =>
      exists r ext,
        store_history_bars self instrument bar_count fields dt l h = Ok (Some r, h ++ ext) /\
        Store.read (h ++ ext) r = Ok v /\
        ((ext = [] /\ exists lo hi, r = Store.View l lo hi fields)
         \/ (r = Store.Whole (List.length h) /\ exists a, ext = [Store.OArray a])) /\
        (str_in (type instrument) ["Future"; "INDX"] = true -> ext = [])
  | Raise e => store_history_bars self instrument bar_count fields dt l h = Raise e
  end.
Proof.
  intros Hsel Hl. unfold store_history_bars. rewrite Hl.
  destruct (_are_fields_valid fields (dtype_names bars)) eqn:Hvalid.
  2: { unfold history_bars. cbn [String.eqb Ascii.eqb Bool.eqb negb].
       rewrite Hsel. cbn [bind]. rewrite Hvalid. reflexivity. }
  cbn [negb]. cbv zeta.
  destruct (Z.le_gt_cases int64_min bar_count) as [Hrange | Hrange].
  2: { rewrite (history_bars_overflow _ _ _ _ _ _ _ Hsel Hvalid Hrange).
       pose proof int64_min_neg as Hneg.
       replace (bar_count <=? Z.of_nat (searchsorted (datetime bars) dt right))%Z with true
         by (symmetry; apply Z.leb_le; lia).
       unfold int64_sub.
       now replace (bar_count <? int64_min)%Z with true
         by (symmetry; apply Z.ltb_lt; exact Hrange). }
  rewrite (history_bars_unfold _ _ _ _ _ _ _ Hsel Hvalid Hrange). unfold window. cbv zeta.
  rewrite (window_left_sub _ _ Hrange). cbn [bind Store.deref]. rewrite Hl. cbn [bind].
  set (i := Z.of_nat (searchsorted (datetime bars) dt right)).
  set (left := window_left i bar_count).
  set (w := bars_slice bars left i).
  assert (Hview :
    match (r <- select w fields ;; Ok (Some r)) with
    | Ok None =>
        (r <- Store.project h (Store.View l left i FNone) fields ;; Ok (Some r, h))
        = Ok (None, h)
    | Ok (Some v) =>
        exists r ext,
          (r <- Store.project h (Store.View l left i FNone) fields ;; Ok (Some r, h))
          = Ok (Some r, h ++ ext) /\
          Store.read (h ++ ext) r = Ok v /\
          ((ext = [] /\ exists lo hi, r = Store.View l lo hi fields)
           \/ (r = Store.Whole (List.length h) /\ exists a, ext = [Store.OArray a])) /\
          (str_in (type instrument) ["Future"; "INDX"] = true -> ext = [])
    | Raise e =>
        (r <- Store.project h (Store.View l left i FNone) fields ;; Ok (Some r, h)) = Raise e
    end).
  { cbn [Store.project Store.read]. rewrite Hl. fold w.
    destruct (select w fields) as [v | e] eqn:E; cbn [bind]; [| reflexivity].
    exists (Store.View l left i fields), []. rewrite app_nil_r. cbn [Store.read].
    rewrite Hl. fold w. repeat split; eauto. }
  destruct (str_in (type instrument) ["Future"; "INDX"]) eqn:Hexempt; cbn [orb];
    [exact Hview |].
  destruct (bars_len w =? 1); [exact Hview |].
  destruct (match fields with
            | FStr f => b <- py_in f FIELDS_REQUIRE_ADJUSTMENT ;; Ok (negb b)
            | _ => Ok false
            end) as [[|] | e]; cbn [bind]; [exact Hview | | reflexivity].
  assert (Hd : Store.deref h (Store.View l left i FNone) = Ok w)
    by (cbn [Store.deref]; now rewrite Hl).
  pose proof (store_adjust_bar_refines self (order_book_id instrument)
                (Store.View l left i FNone) fields h w Hd) as Href.
  destruct (_adjust_bar self (order_book_id instrument) w fields) as [v | e];
    cbn [bind].
  - destruct Href as (r & ext & Hrun & Hread & _).
    exists r, ext. rewrite Hrun. cbn [bind fst snd].
    split; [reflexivity |]. split; [exact Hread |]. split; [| discriminate].
    destruct (store_adjust_bar_alias _ _ _ _ _ _ _ _ _ Hrun) as [[-> Hh] | [-> [a Hh]]].
    + left. split; [| eauto].
      apply (app_inv_head h). now rewrite app_nil_r.
    + right. split; [reflexivity |]. exists a. now apply (app_inv_head h).
  - now rewrite Href.
Qed.

Lemma store_history_bars_agrees_witness :
  exists r ext,
    store_history_bars demo_source stock_split 3 FNone 20200106 0 [Store.OBars demo_bars]
    = Ok (Some r, [Store.OBars demo_bars] ++ ext) /\
    Store.read ([Store.OBars demo_bars] ++ ext) r
    = Ok (Struct [("datetime", IntCol [20200102; 20200103; 20200106]%Z);
                  ("open", FloatCol [5; 5; 5]%float);
                  ("close", FloatCol [5; 5; 5]%float);
                  ("volume", FloatCol [200; 200; 200]%float);
                  ("total_turnover", FloatCol [1000; 1000; 1000]%float)]) /\
    ((ext = [] /\ exists lo hi, r = Store.View 0 lo hi FNone)
     \/ (r = Store.Whole (List.length [Store.OBars demo_bars])
         /\ exists a, ext = [Store.OArray a])) /\
    (str_in (type stock_split) ["Future"; "INDX"] = true -> ext = []).
Proof.
  apply (store_history_bars_agrees demo_source stock_split 3 FNone 20200106 true
           demo_bars 0 [Store.OBars demo_bars]); reflexivity.
Defined.

(** ** The empty list as a selector *)

(** C6, the claim as it is stated, at the index 000001.XSHG with the empty
    list as selector: four rows are dated at or before 2020-01-07 and four
    are asked for, and the array that comes back has no row. *)
Lemma history_bars_empty_list_has_no_rows :
  exists r,
    history_bars demo_source index_sh 4 "1d" (FList []) 20200107 true = Ok (Some r) /\
    len r = 0 /\
    Z.min 4 (Z.of_nat (rows_upto demo_bars 20200107)) = 4%Z.
Proof.
  eexists. split; [vm_compute; reflexivity |]. split; reflexivity.
Qed.

(** ** The step function and the lookup *)





(** C4, at the stock 000005.XSHE, whose first row (2020-01-02) is dated
    before the first breakpoint (2020-01-03) of its table, with factors 1.0,
    2.0 and 4.0. The step function gives the rows the factors 1, 1, 2, 2,
    the lookup gives them 4, 1, 2, 2: for the first row it is the factor of
    the last breakpoint. With the step function the adjusted close of the
    window is 5, 5, 5, 5 and its volume 200, 200, 200, 200; the engine
    returns the close 20, 5, 5, 5 and the volume 50, 200, 200, 200. *)
Theorem adjust_bar_before_first_breakpoint :
  map (step_function (ft_start_date late_factors) (ft_ex_cum_factor late_factors))
      (datetime demo_bars) = [1; 1; 2; 2]%float /\
  mapM (_factor_for_date (ft_start_date late_factors) (ft_ex_cum_factor late_factors))
       (datetime demo_bars) = Ok [4; 1; 2; 2]%float /\
  adjusted (map (fun x => PrimFloat.div x 2) [1; 1; 2; 2]%float) (FList ["close"; "volume"])
    (Struct [("close", FloatCol [10; 10; 5; 5]%float);
             ("volume", FloatCol [100; 100; 200; 200]%float)])
  = Struct [("close", FloatCol [5; 5; 5; 5]%float);
            ("volume", FloatCol [200; 200; 200; 200]%float)] /\
  select demo_bars (FList ["close"; "volume"])
  = Ok (Struct [("close", FloatCol [10; 10; 5; 5]%float);
                ("volume", FloatCol [100; 100; 200; 200]%float)]) /\
  _adjust_bar late_source "000005.XSHE" demo_bars (FList ["close"; "volume"])
  = Ok (Struct [("close", FloatCol [20; 5; 5; 5]%float);
                ("volume", FloatCol [50; 200; 200; 200]%float)]) /\
  history_bars late_source stock_late 4 "1d" (FList ["close"; "volume"]) 20200107 true
  = Ok (Some (Struct [("close", FloatCol [20; 5; 5; 5]%float);
                      ("volume", FloatCol [50; 200; 200; 200]%float)])).
Proof.
  split; [vm_compute; reflexivity |].
  split; [vm_compute; reflexivity |].
  split; [vm_compute; reflexivity |].
  split; [vm_compute; reflexivity |].
  split; vm_compute; reflexivity.
Qed.







(** ** A [bar_count] far below zero *)

Lemma wrap64_above (z : Z) :
  (int64_max < z <= int64_max + 2 ^ 64)%Z -> wrap64 z = (z - 2 ^ 64)%Z.
Proof.
  unfold wrap64, int64_max.
  change (2 ^ 63)%Z with 9223372036854775808%Z.
  change (2 ^ 64)%Z with 18446744073709551616%Z.
  intros H.
  replace (z + 9223372036854775808)%Z
    with (z + 9223372036854775808 - 18446744073709551616 + 1 * 18446744073709551616)%Z
    by lia.
  rewrite Z_mod_plus_full, Z.mod_small; lia.
Qed.

(** A start so far below zero that it stays below zero when the length is
    added is the start of the sequence. *)
Lemma py_slice_from_below {A : Type} (xs : list A) (lo hi : Z) :
  (lo + Z.of_nat (List.length xs) <= 0)%Z -> (lo < 0)%Z ->
  py_slice xs lo hi = py_slice xs 0 hi.
Proof.
  intros Hlo Hneg. unfold py_slice. f_equal. f_equal. unfold slice_bound.
  replace (lo <? 0)%Z with true by (symmetry; apply Z.ltb_lt; exact Hneg).
  cbn [Z.ltb Z.compare]. lia.
Qed.

(** [i - bar_count] is int64 arithmetic. A [bar_count] below the int64
    range does not convert, and the call raises [OverflowError] once the
    series is there and the selector is valid. A [bar_count] within the
    range but below [i - (2^63 - 1)], where [i] is the insertion point of
    [dt], makes the difference wrap around to a negative start: the window
    is then every row up to the insertion point, and the call is the call
    that asks for as many bars as the series has. *)
Theorem history_bars_bar_count_far_below_zero (self : BaseDataSource)
  (instrument : Instrument) (bar_count : Z) (fields : Fields) (dt : Z)
  (skip_suspended : bool) (bars : BarSeries) :
  (if skip_suspended && String.eqb (type instrument) "CS"
   then _filtered_day_bars self instrument
   else _all_day_bars_of self instrument) = Ok (Some bars) ->
  _are_fields_valid fields (dtype_names bars) = true ->
  ((bar_count < int64_min)%Z ->
   history_bars self instrument bar_count "1d" fields dt skip_suspended
   = Raise OverflowError) /\
  (bars_wf bars = true ->
   (2 * Z.of_nat (bars_len bars) <= int64_max)%Z ->
   (int64_min <= bar_count)%Z ->
   (bar_count < Z.of_nat (searchsorted (datetime bars) dt right) - int64_max)%Z ->
   window bars bar_count dt = window bars (Z.of_nat (bars_len bars)) dt /\
   history_bars self instrument bar_count "1d" fields dt skip_suspended
   = history_bars self instrument (Z.of_nat (bars_len bars)) "1d" fields dt skip_suspended).
Proof.
  intros Hsel Hvalid. split.
  - intros Hbelow. exact (history_bars_overflow _ _ _ _ _ _ _ Hsel Hvalid Hbelow).
  - intros Hwf Hsmall Hrange Hfar.
    assert (Hw : window bars bar_count dt = window bars (Z.of_nat (bars_len bars)) dt).
    { unfold window. cbv zeta.
      pose proof (searchsorted_le_length (datetime bars) dt right) as Hi.
      set (i := searchsorted (datetime bars) dt right) in *.
      assert (Hmax : int64_max = 9223372036854775807%Z) by reflexivity.
      assert (Hmin : int64_min = (-9223372036854775808)%Z) by reflexivity.
      assert (H64 : (2 ^ 64 = 18446744073709551616)%Z) by reflexivity.
      unfold bars_len in Hsmall.
      assert (Hl : window_left (Z.of_nat i) bar_count
                   = (Z.of_nat i - bar_count - 2 ^ 64)%Z).
      { unfold window_left.
        replace (bar_count <=? Z.of_nat i)%Z with true by (symmetry; apply Z.leb_le; lia).
        replace (0 <=? bar_count)%Z with false by (symmetry; apply Z.leb_gt; lia).
        apply wrap64_above. lia. }
      assert (Hr : window_left (Z.of_nat i) (Z.of_nat (bars_len bars)) = 0%Z).
      { rewrite window_left_count by lia. unfold bars_len.
        destruct (Z.of_nat (List.length (datetime bars)) <=? Z.of_nat i)%Z eqn:E;
          [apply Z.leb_le in E; lia | reflexivity]. }
      rewrite Hl, Hr. unfold bars_slice. f_equal.
      - apply py_slice_from_below; lia.
      - apply map_ext_in. intros c Hin. f_equal.
        pose proof (bars_wf_column bars c Hwf Hin) as Hc. unfold bars_len in Hc.
        apply py_slice_from_below; lia. }
    split; [exact Hw |].
    rewrite (history_bars_unfold _ _ _ _ _ _ _ Hsel Hvalid Hrange).
    rewrite (history_bars_unfold _ _ _ _ _ _ _ Hsel Hvalid
               (count_in_range _ (Nat2Z.is_nonneg _))).
    now rewrite Hw.
Qed.

Lemma history_bars_bar_count_far_below_zero_witness :
  history_bars demo_source index_sh (-9223372036854775809) "1d" FNone 20200106 true
  = Raise OverflowError /\
  window demo_bars (-9223372036854775808) 20200106 = window demo_bars 4 20200106 /\
  history_bars demo_source index_sh (-9223372036854775808) "1d" FNone 20200106 true
  = history_bars demo_source index_sh 4 "1d" FNone 20200106 true.
Proof.
  pose proof (history_bars_bar_count_far_below_zero demo_source index_sh
                (-9223372036854775809) FNone 20200106 true demo_bars eq_refl eq_refl)
    as [Hover _].
  pose proof (history_bars_bar_count_far_below_zero demo_source index_sh
                (-9223372036854775808) FNone 20200106 true demo_bars eq_refl eq_refl)
    as [_ Hwrap].
  split; [apply Hover; reflexivity |].
  apply Hwrap; [reflexivity | vm_compute; discriminate | vm_compute; discriminate
               | reflexivity].
Defined.
